(** * ai-validator: a shallow embedding of the validation pipeline

    The development follows the TypeScript sources:
    - [QueryClassifier.ts]      -> module [QueryClassifier]
    - [AccuracyChecker.ts]      -> module [AccuracyChecker]
    - [HallucinationDetector.ts]-> module [HallucinationDetector]
    - [ConfidenceScorer.ts]     -> module [ConfidenceScorer]
    - [AIValidator.ts]          -> module [AIValidator]

    Conventions of the embedding.
    - A JavaScript string is a [string]: a sequence of code units, here the
      code units below 256 (the Latin-1 block of UTF-16).  Character classes
      ([\s], [\w]), [toLowerCase] and the case folding of the [/i] flag are
      the ECMAScript ones restricted to that block.
    - A JavaScript number is a rational [Q] in the pipeline: comparisons,
      ranges, bounds and monotonicity are read on exact arithmetic, [NaN] and
      the infinities being outside.  Where a statement depends on how the
      sums round (the level next to the returned score, the values of the
      source quality), the scorer is taken in IEEE 754 binary64, on primitive
      floats: module [Binary64].
    - An [async] function that awaits the language-model SDK is a program of
      the monad [Judge.prog], whose only effect is the SDK call; a function
      that never awaits one is a plain function.
    - [JSON.parse] is a builtin of the language; it is a parameter
      [JSON_parse] of the checkers.  The values it yields are read at the
      types that [types.ts] declares; a field of another type leaves the
      model ([Judge.IllTyped]).
    - The fields [openai] and [claude] of the checkers are named
      [openaiClient] and [claudeClient], the provider names being
      [openai] and [claude]. *)

From Stdlib Require Import QArith Qround Qminmax Lqa Lia ZArith Bool List.
From Stdlib Require Import Strings.String Strings.Ascii.
From Stdlib Require Import Floats Uint63.
Import ListNotations.

Set Warnings "-register-all".
Set Warnings "-inexact-float".

Open Scope string_scope.
Open Scope bool_scope.

(* ================================================================== *)
(** * JavaScript strings *)
(* ================================================================== *)

Module JS.

Definition code (c : ascii) : nat := nat_of_ascii c.

Definition between (lo hi n : nat) : bool :=
  Nat.leb lo n && Nat.leb n hi.

(** [\s] of a regular expression, and the characters removed by [trim]:
    TAB, LF, VT, FF, CR, SPACE, NBSP. *)
Definition isWhiteSpace (c : ascii) : bool :=
  let n := code c in
  between 9 13 n || Nat.eqb n 32 || Nat.eqb n 160.

(** [\w] of a regular expression: [A-Za-z0-9_]. *)
Definition isWordChar (c : ascii) : bool :=
  let n := code c in
  between 48 57 n || between 65 90 n || between 97 122 n || Nat.eqb n 95.

(** One code unit of [String.prototype.toLowerCase]. *)
Definition toLowerChar (c : ascii) : ascii :=
  let n := code c in
  if between 65 90 n || (between 192 222 n && negb (Nat.eqb n 215))
  then ascii_of_nat (n + 32) else c.

(** [Canonicalize] of the [/i] flag (no [/u]): the upper-case form when it
    is a single code unit and does not leave or enter the ASCII range.  The
    upper-case forms of U+00B5 and U+00FF lie above 255 and are met by no
    other code unit below 256, so both stand for themselves. *)
Definition canonicalize (c : ascii) : ascii :=
  let n := code c in
  if between 97 122 n || (between 224 254 n && negb (Nat.eqb n 247))
  then ascii_of_nat (n - 32) else c.

Fixpoint map (f : ascii -> ascii) (s : string) : string :=
  match s with
  | EmptyString => EmptyString
  | String c s' => String (f c) (map f s')
  end.

Fixpoint filter (f : ascii -> bool) (s : string) : string :=
  match s with
  | EmptyString => EmptyString
  | String c s' => if f c then String c (filter f s') else filter f s'
  end.

Definition toLowerCase (s : string) : string := map toLowerChar s.

Fixpoint trimStart (s : string) : string :=
  match s with
  | EmptyString => EmptyString
  | String c s' => if isWhiteSpace c then trimStart s' else s
  end.

Fixpoint trimEnd (s : string) : string :=
  match s with
  | EmptyString => EmptyString
  | String c s' =>
      match trimEnd s' with
      | EmptyString => if isWhiteSpace c then EmptyString else String c EmptyString
      | r => String c r
      end
  end.

Definition trim (s : string) : string := trimEnd (trimStart s).

(** [s.startsWith(p)]. *)
Definition startsWith (s p : string) : bool := String.prefix p s.

(** [s.includes(sub)] on strings. *)
Fixpoint includes (s sub : string) : bool :=
  String.prefix sub s ||
  match s with
  | EmptyString => false
  | String _ s' => includes s' sub
  end.

(** [s.replace(/[^\w\s]/g, '')]. *)
Definition stripPunctuation (s : string) : string :=
  filter (fun c => isWordChar c || isWhiteSpace c) s.

(** [s.split(/\s+/)]: [cur] is the piece being read, [inSep] tells that the
    previous code unit belonged to a separator.  As in JavaScript a leading
    or trailing separator yields an empty piece and the empty string splits
    into one empty piece. *)
Fixpoint splitAux (s cur : string) (inSep : bool) : list string :=
  match s with
  | EmptyString => [cur]
  | String c s' =>
      if isWhiteSpace c
      then if inSep then splitAux s' cur true
           else cur :: splitAux s' EmptyString true
      else splitAux s' (cur ++ String c EmptyString) false
  end.

Definition splitWhitespace (s : string) : list string :=
  splitAux s EmptyString false.

(** [xs.join(sep)]. *)
Fixpoint join (sep : string) (xs : list string) : string :=
  match xs with
  | [] => EmptyString
  | [x] => x
  | x :: rest => x ++ sep ++ join sep rest
  end.

(** [words.includes(w)] on arrays of strings. *)
Definition arrayIncludes (words : list string) (w : string) : bool :=
  existsb (String.eqb w) words.

(** [s.replace(/LIT\s*/g, '')] for a non-empty literal [LIT]: every
    occurrence of the literal found from left to right is removed together
    with the whitespace that follows it.  [skip] counts the code units of
    the current occurrence still to drop, [ws] tells that the whitespace
    run of an occurrence is being dropped. *)
Fixpoint removeAux (lit s : string) (skip : nat) (ws : bool) : string :=
  match s with
  | EmptyString => EmptyString
  | String c s' =>
      match skip with
      | S n => removeAux lit s' n true
      | O =>
          if ws && isWhiteSpace c then removeAux lit s' 0 true
          else if String.prefix lit s
               then removeAux lit s' (String.length lit - 1) true
               else String c (removeAux lit s' 0 false)
      end
  end.

Definition removeWithSpaces (lit s : string) : string :=
  removeAux lit s 0 false.

(** A string is truthy when it is not empty. *)
Definition truthy (s : string) : bool :=
  match s with EmptyString => false | _ => true end.

End JS.

(* ================================================================== *)
(** * The regular expressions of the classifier *)
(* ================================================================== *)

Module RegExp.

(** The five patterns are case-insensitive alternations of literals,
    anchored at the start ([/^(a|b|...)/i]) or not ([/(a|b|...)/i]). *)
Inductive t : Type :=
| Anchored (alternatives : list string)
| Unanchored (alternatives : list string).

(** The literal [lit] matches at the start of [s], up to [Canonicalize]. *)
Fixpoint matchHere (lit s : string) : bool :=
  match lit, s with
  | EmptyString, _ => true
  | String a lit', String b s' =>
      Ascii.eqb (JS.canonicalize a) (JS.canonicalize b) && matchHere lit' s'
  | String _ _, EmptyString => false
  end.

Definition matchAny (alternatives : list string) (s : string) : bool :=
  existsb (fun lit => matchHere lit s) alternatives.

(** Some position of [s] (the end included) starts a match. *)
Fixpoint search (alternatives : list string) (s : string) : bool :=
  matchAny alternatives s ||
  match s with
  | EmptyString => false
  | String _ s' => search alternatives s'
  end.

(** [pattern.test(s)] (no [g] flag: the test keeps no state). *)
Definition test (pattern : t) (s : string) : bool :=
  match pattern with
  | Anchored alts => matchAny alts s
  | Unanchored alts => search alts s
  end.

End RegExp.

(* ================================================================== *)
(** * types.ts *)
(* ================================================================== *)

Inductive QueryType : Type :=
| greeting | typo | small_talk | clarification | meta | question.

Definition QueryType_eqb (a b : QueryType) : bool :=
  match a, b with
  | greeting, greeting | typo, typo | small_talk, small_talk
  | clarification, clarification | meta, meta | question, question => true
  | _, _ => false
  end.

Module QueryClassificationResult.
Record t : Type := mk {
  type : QueryType;
  confidence : Q;
  skip_validation : bool
}.
End QueryClassificationResult.

(* ================================================================== *)
(** * QueryClassifier.ts *)
(* ================================================================== *)

Module QueryClassifier.

Import QueryClassificationResult.

Definition greeting_words : list string :=
  ["hi"; "hello"; "hey"; "good morning"; "good afternoon"; "good evening";
   "greetings"; "sup"; "what's up"].

Definition typo_words : list string :=
  ["helo"; "whta"; "thnak"; "recieve"; "seperate"; "occured"; "definately";
   "accomodate"; "begining"; "neccessary"].

Definition small_talk_words : list string :=
  ["how are you"; "what's up"; "nice weather"; "how's it going";
   "how's your day"].

Definition clarification_words : list string :=
  ["what do you mean"; "can you repeat"; "can you explain";
   "i don't understand"; "what does that mean"].

Definition meta_words : list string :=
  ["what can you help with"; "what's your name"; "who are you";
   "what are you"; "what do you do"].

(** [Object.entries(this.patterns)]: the entries in insertion order. *)
Definition patterns : list (QueryType * RegExp.t) :=
  [ (greeting, RegExp.Anchored greeting_words);
    (typo, RegExp.Unanchored typo_words);
    (small_talk, RegExp.Anchored small_talk_words);
    (clarification, RegExp.Anchored clarification_words);
    (meta, RegExp.Anchored meta_words) ].

(** [['greeting', 'typo', 'small_talk', 'meta'].includes(type)]. *)
Definition skippable (ty : QueryType) : bool :=
  existsb (QueryType_eqb ty) [greeting; typo; small_talk; meta].

Definition interrogatives : list string :=
  ["how"; "what"; "when"; "where"; "why"; "who"; "which"].

(** The [for] loop over the entries: the first pattern that tests true
    decides. *)
Fixpoint firstMatch (entries : list (QueryType * RegExp.t)) (s : string)
  : option QueryType :=
  match entries with
  | [] => None
  | (ty, pattern) :: rest =>
      if RegExp.test pattern s then Some ty else firstMatch rest s
  end.

Definition classifyQuery (query : string) : QueryClassificationResult.t :=
  let trimmedQuery := JS.toLowerCase (JS.trim query) in
  match firstMatch patterns trimmedQuery with
  | Some ty => mk ty 0.9 (skippable ty)
  | None =>
      if Nat.leb (String.length trimmedQuery) 10
      then mk greeting 0.7 true
      else if JS.includes trimmedQuery "?"
              || existsb (JS.startsWith trimmedQuery) interrogatives
      then mk question 0.8 false
      else mk question 0.6 false
  end.

End QueryClassifier.

(* ================================================================== *)
(** * types.ts, continued *)
(* ================================================================== *)

Module Source.
Record t : Type := mk {
  content : string;
  title : option string
}.
End Source.

Module ValidationInput.
Record t : Type := mk {
  query : string;
  response : string;
  sources : list Source.t
}.
End ValidationInput.

(** An optional field that is not written in an object literal ([reason],
    [hallucinated_parts], [query_type], [skip_validation]) is [None]. *)
Module AccuracyResult.
Record t : Type := mk {
  verified : bool;
  verification_rate : Q;
  reason : option string
}.
End AccuracyResult.

Module ContextResult.
Record t : Type := mk {
  source_relevance : Q;
  source_usage_rate : Q;
  valid : bool
}.
End ContextResult.

Module HallucinationResult.
Record t : Type := mk {
  detected : bool;
  risk : Q;
  hallucinated_parts : option (list string)
}.
End HallucinationResult.

Inductive ConfidenceLevel : Type := high | medium | low.

Module Breakdown.
Record t : Type := mk {
  accuracy_score : Q;
  context_score : Q;
  hallucination_score : Q;
  source_quality : Q
}.
End Breakdown.

Module ConfidenceResult.
Record t : Type := mk {
  confidence_score : Q;
  level : ConfidenceLevel;
  breakdown : Breakdown.t
}.
End ConfidenceResult.

Module ValidationResult.
Record t : Type := mk {
  confidence : Q;
  valid : bool;
  accuracy : AccuracyResult.t;
  context : ContextResult.t;
  hallucination : HallucinationResult.t;
  warnings : list string;
  query_type : option QueryType;
  skip_validation : option bool
}.
End ValidationResult.

Inductive LLMProvider : Type := openai | claude.

Definition providerName (p : LLMProvider) : string :=
  match p with openai => "openai" | claude => "claude" end.

(** A key of the configuration object that has a default: the caller leaves
    it out, writes [undefined], or gives a value. *)
Inductive Optional (A : Type) : Type :=
| Absent
| Undefined
| Present (a : A).
Arguments Absent {A}.
Arguments Undefined {A}.
Arguments Present {A} a.

Module AIValidatorConfig.
Record t : Type := mk {
  openaiApiKey : option string;
  claudeApiKey : option string;
  llmProvider : LLMProvider;
  confidenceThreshold : Optional Q;
  enableQueryClassification : Optional bool;
  enableAccuracyCheck : Optional bool;
  enableHallucinationDetection : Optional bool;
  openaiModel : Optional string;
  claudeModel : Optional string
}.
End AIValidatorConfig.

(* ================================================================== *)
(** * The language-model SDKs as an effect *)
(* ================================================================== *)

Module Judge.

(** What a [catch] clause receives: an [Error] object with its message, or
    any other thrown value. *)
Inductive thrown : Type :=
| ErrorObject (message : string)
| OtherValue.

(** [error instanceof Error ? error.message : 'unknown error']. *)
Definition messageOf (error : thrown) : string :=
  match error with
  | ErrorObject message => message
  | OtherValue => "unknown error"
  end.

(** The two instruction templates. *)
Inductive task : Type := AccuracyTask | HallucinationTask.

(** One SDK call ([chat.completions.create] or [messages.create]).  The
    prompt is the fixed template of the task filled with the source text
    and the response; temperature 0 and 500 output tokens are constants. *)
Record request : Type := mkRequest {
  backend : LLMProvider;
  purpose : task;
  model : string;
  sourceContent : string;
  responseText : string
}.

Inductive ContentBlock : Type :=
| TextBlock (text : string)
| OtherBlock.

(** What the SDK resolves with: [choices[0].message.content] of a chat
    completion ([null] is [None]), or the [content] blocks of a message. *)
Inductive answer : Type :=
| ChatCompletion (content : option string)
| Message (content : list ContentBlock).

Inductive reply : Type :=
| Rejected (error : thrown)
| Resolved (a : answer).

(** Programs: return, throw, await one SDK call, or leave the model
    ([IllTyped]: a value that contradicts its TypeScript declaration, which
    no [catch] clause sees). *)
Inductive prog (A : Type) : Type :=
| Ret (a : A)
| Throw (error : thrown)
| Await (req : request) (k : reply -> prog A)
| IllTyped.
Arguments Ret {A} a.
Arguments Throw {A} error.
Arguments Await {A} req k.
Arguments IllTyped {A}.

Fixpoint bind {A B : Type} (p : prog A) (f : A -> prog B) : prog B :=
  match p with
  | Ret a => f a
  | Throw error => Throw error
  | Await req k => Await req (fun r => bind (k r) f)
  | IllTyped => IllTyped
  end.

(** [try { p } catch (error) { handler }]. *)
Fixpoint tryCatch {A : Type} (p : prog A) (handler : thrown -> prog A)
  : prog A :=
  match p with
  | Ret a => Ret a
  | Throw error => handler error
  | Await req k => Await req (fun r => tryCatch (k r) handler)
  | IllTyped => IllTyped
  end.

(** [await sdk.create(...)]: a rejection is thrown at the [await]. *)
Definition await (req : request) : prog answer :=
  Await req (fun r =>
    match r with
    | Rejected error => Throw error
    | Resolved a => Ret a
    end).

(** A value of the declared type, or none. *)
Definition typed {A : Type} (v : option A) : prog A :=
  match v with
  | Some a => Ret a
  | None => IllTyped
  end.

Inductive outcome (A : Type) : Type :=
| Returned (a : A)
| Threw (error : thrown)
| Untyped.
Arguments Returned {A} a.
Arguments Threw {A} error.
Arguments Untyped {A}.

(** Running a program against a judge: the outcome and the requests made,
    in order. *)
Fixpoint run {A : Type} (judge : request -> reply) (p : prog A)
  : outcome A * list request :=
  match p with
  | Ret a => (Returned a, [])
  | Throw error => (Threw error, [])
  | Await req k =>
      let (o, calls) := run judge (k (judge req)) in (o, req :: calls)
  | IllTyped => (Untyped, [])
  end.

Definition result {A : Type} (judge : request -> reply) (p : prog A)
  : outcome A := fst (run judge p).

Definition calls {A : Type} (judge : request -> reply) (p : prog A)
  : list request := snd (run judge p).

(** The judge answers every request with the text [raw]: as the content of
    a chat completion, or as the first content block of a message. *)
Definition outputs (judge : request -> reply) (raw : string) : Prop :=
  forall req : request,
    match backend req with
    | openai => judge req = Resolved (ChatCompletion (Some raw))
    | claude => exists more, judge req = Resolved (Message (TextBlock raw :: more))
    end.

End Judge.

Notation "x <- p ;; q" := (Judge.bind p (fun x => q))
  (at level 61, p at next level, right associativity).

(* ================================================================== *)
(** * JSON values *)
(* ================================================================== *)

Module JSON.

Inductive value : Type :=
| Null
| Bool (b : bool)
| Number (q : Q)
| Str (s : string)
| Array (items : list value)
| Object (fields : list (string * value)).

Fixpoint lookup (key : string) (fields : list (string * value))
  : option value :=
  match fields with
  | [] => None
  | (k, v) :: rest => if String.eqb k key then Some v else lookup key rest
  end.

(** The [TypeError] of reading a property of [null] (V8's wording). *)
Definition nullPropertyMessage (key : string) : string :=
  "Cannot read properties of null (reading '" ++ key ++ "')".

(** [result.key]: [undefined] is [None].  None of the keys read by the
    checkers is a property of a string, number, boolean or array. *)
Definition get (result : value) (key : string)
  : Judge.prog (option value) :=
  match result with
  | Null => Judge.Throw (Judge.ErrorObject (nullPropertyMessage key))
  | Object fields => Judge.Ret (lookup key fields)
  | _ => Judge.Ret None
  end.

(** [v || false] at type [boolean]. *)
Definition orFalse (v : option value) : option bool :=
  match v with
  | None | Some Null => Some false
  | Some (Bool b) => Some b
  | Some (Number q) => if Qeq_bool q 0 then Some false else None
  | Some (Str EmptyString) => Some false
  | Some _ => None
  end.

(** [v || 0] at type [number]. *)
Definition orZero (v : option value) : option Q :=
  match v with
  | None | Some Null | Some (Bool false) => Some 0%Q
  | Some (Number q) => if Qeq_bool q 0 then Some 0%Q else Some q
  | Some (Str EmptyString) => Some 0%Q
  | Some _ => None
  end.

(** [v] at type [string | undefined]. *)
Definition optionalString (v : option value) : option (option string) :=
  match v with
  | None => Some None
  | Some (Str s) => Some (Some s)
  | Some _ => None
  end.

Fixpoint strings (items : list value) : option (list string) :=
  match items with
  | [] => Some []
  | Str s :: rest =>
      match strings rest with
      | Some l => Some (s :: l)
      | None => None
      end
  | _ :: _ => None
  end.

(** [v || []] at type [string[]]. *)
Definition orEmptyArray (v : option value) : option (list string) :=
  match v with
  | None | Some Null | Some (Bool false) => Some []
  | Some (Number q) => if Qeq_bool q 0 then Some [] else None
  | Some (Str EmptyString) => Some []
  | Some (Array items) => strings items
  | Some _ => None
  end.

End JSON.

Definition lineFeed : string := String (ascii_of_nat 10) EmptyString.

(** [model || fallback] for an optional string argument. *)
Definition stringOr (v : option string) (fallback : string) : string :=
  match v with
  | Some s => if JS.truthy s then s else fallback
  | None => fallback
  end.

(* ================================================================== *)
(** * AccuracyChecker.ts *)
(* ================================================================== *)

Module AccuracyChecker.

Import Judge.

(** The two optional SDK clients, each holding its API key. *)
Record t : Type := mk {
  openaiClient : option string;
  claudeClient : option string
}.

Definition client (apiKey : option string) : option string :=
  match apiKey with
  | Some key => if JS.truthy key then Some key else None
  | None => None
  end.

Definition new (openaiApiKey claudeApiKey : option string) : t :=
  mk (client openaiApiKey) (client claudeApiKey).

Definition noSources : AccuracyResult.t :=
  AccuracyResult.mk false 0 (Some "no_sources_provided").

Definition failed (error : thrown) : AccuracyResult.t :=
  AccuracyResult.mk false 0
    (Some ("accuracy_check_failed: " ++ messageOf error)).

(** [content.replace(/```json\s*/g, '').replace(/```\s*/g, '').trim()]. *)
Definition cleaned (content : string) : string :=
  JS.trim (JS.removeWithSpaces "```" (JS.removeWithSpaces "```json" content)).

Section WithJSON.

Variable JSON_parse : string -> option JSON.value.

Definition parseLLMResponse (content : string) : JSON.value :=
  match JSON_parse content with
  | Some v => v
  | None =>
      match JSON_parse (cleaned content) with
      | Some v => v
      | None => JSON.Object []
      end
  end.

(** The tail shared by the two backends: the log line reads [verified] and
    [verification_rate], then the result object is built. *)
Definition toResult (result : JSON.value) : prog AccuracyResult.t :=
  verified <- JSON.get result "verified" ;;
  verification_rate <- JSON.get result "verification_rate" ;;
  reason <- JSON.get result "reason" ;;
  v <- typed (JSON.orFalse verified) ;;
  r <- typed (JSON.orZero verification_rate) ;;
  why <- typed (JSON.optionalString reason) ;;
  Ret (AccuracyResult.mk v r why).

Definition checkAccuracyWithOpenAI
  (response sourceContent : string) (model : option string)
  : prog AccuracyResult.t :=
  completion <- await (mkRequest openai AccuracyTask (stringOr model "gpt-4o")
                         sourceContent response) ;;
  match completion with
  | ChatCompletion content =>
      let rawResponse := stringOr content "{}" in
      toResult (parseLLMResponse rawResponse)
  | Message _ => IllTyped
  end.

Definition emptyContentMessage : string :=
  "Cannot read properties of undefined (reading 'type')".

Definition checkAccuracyWithClaude
  (response sourceContent : string) (model : option string)
  : prog AccuracyResult.t :=
  message <- await (mkRequest claude AccuracyTask
                      (stringOr model "claude-sonnet-4-5-20250929")
                      sourceContent response) ;;
  match message with
  | Message [] => Throw (ErrorObject emptyContentMessage)
  | Message (TextBlock text :: _) => toResult (parseLLMResponse text)
  | Message (OtherBlock :: _) => toResult (parseLLMResponse "{}")
  | ChatCompletion _ => IllTyped
  end.

Definition checkAccuracy (self : t)
  (response : string) (sources : list Source.t)
  (llmProvider : LLMProvider) (model : option string)
  : prog AccuracyResult.t :=
  match sources with
  | [] => Ret noSources
  | _ :: _ =>
      let sourceContent :=
        JS.join (lineFeed ++ lineFeed) (List.map Source.content sources) in
      tryCatch
        (match llmProvider, openaiClient self, claudeClient self with
         | openai, Some _, _ =>
             checkAccuracyWithOpenAI response sourceContent model
         | claude, _, Some _ =>
             checkAccuracyWithClaude response sourceContent model
         | _, _, _ =>
             Throw (ErrorObject ("LLM provider " ++ providerName llmProvider
                                 ++ " not available"))
         end)
        (fun error => Ret (failed error))
  end.

End WithJSON.

End AccuracyChecker.

(* ================================================================== *)
(** * HallucinationDetector.ts *)
(* ================================================================== *)

Module HallucinationDetector.

Import Judge.

Record t : Type := mk {
  openaiClient : option string;
  claudeClient : option string
}.

Definition client (apiKey : option string) : option string :=
  match apiKey with
  | Some key => if JS.truthy key then Some key else None
  | None => None
  end.

Definition new (openaiApiKey claudeApiKey : option string) : t :=
  mk (client openaiApiKey) (client claudeApiKey).

Definition noSources : HallucinationResult.t :=
  HallucinationResult.mk true 0.8 (Some ["entire_response"]).

Definition failed : HallucinationResult.t :=
  HallucinationResult.mk true 0.9 (Some ["hallucination_check_failed"]).

Definition cleaned (content : string) : string :=
  JS.trim (JS.removeWithSpaces "```" (JS.removeWithSpaces "```json" content)).

Section WithJSON.

Variable JSON_parse : string -> option JSON.value.

Definition parseLLMResponse (content : string) : JSON.value :=
  match JSON_parse content with
  | Some v => v
  | None =>
      match JSON_parse (cleaned content) with
      | Some v => v
      | None => JSON.Object []
      end
  end.

(** The tail shared by the two backends: the log line reads [detected] and
    [risk], then the result object is built. *)
Definition toResult (result : JSON.value) : prog HallucinationResult.t :=
  detected <- JSON.get result "detected" ;;
  risk <- JSON.get result "risk" ;;
  hallucinated_parts <- JSON.get result "hallucinated_parts" ;;
  d <- typed (JSON.orFalse detected) ;;
  r <- typed (JSON.orZero risk) ;;
  parts <- typed (JSON.orEmptyArray hallucinated_parts) ;;
  Ret (HallucinationResult.mk d r (Some parts)).

Definition detectHallucinationWithOpenAI
  (response sourceContent : string) (model : option string)
  : prog HallucinationResult.t :=
  completion <- await (mkRequest openai HallucinationTask
                         (stringOr model "gpt-4o") sourceContent response) ;;
  match completion with
  | ChatCompletion content =>
      let rawResponse := stringOr content "{}" in
      toResult (parseLLMResponse rawResponse)
  | Message _ => IllTyped
  end.

Definition emptyContentMessage : string :=
  "Cannot read properties of undefined (reading 'type')".

Definition detectHallucinationWithClaude
  (response sourceContent : string) (model : option string)
  : prog HallucinationResult.t :=
  message <- await (mkRequest claude HallucinationTask
                      (stringOr model "claude-sonnet-4-5-20250929")
                      sourceContent response) ;;
  match message with
  | Message [] => Throw (ErrorObject emptyContentMessage)
  | Message (TextBlock text :: _) => toResult (parseLLMResponse text)
  | Message (OtherBlock :: _) => toResult (parseLLMResponse "{}")
  | ChatCompletion _ => IllTyped
  end.

Definition detectHallucination (self : t)
  (response : string) (sources : list Source.t)
  (llmProvider : LLMProvider) (model : option string)
  : prog HallucinationResult.t :=
  match sources with
  | [] => Ret noSources
  | _ :: _ =>
      let sourceContent :=
        JS.join (lineFeed ++ lineFeed) (List.map Source.content sources) in
      tryCatch
        (match llmProvider, openaiClient self, claudeClient self with
         | openai, Some _, _ =>
             detectHallucinationWithOpenAI response sourceContent model
         | claude, _, Some _ =>
             detectHallucinationWithClaude response sourceContent model
         | _, _, _ =>
             Throw (ErrorObject ("LLM provider " ++ providerName llmProvider
                                 ++ " not available"))
         end)
        (fun _ => Ret failed)
  end.

End WithJSON.

End HallucinationDetector.

(* ================================================================== *)
(** * ConfidenceScorer.ts *)
(* ================================================================== *)

Module ConfidenceScorer.

Open Scope Q_scope.

(** [Math.round]: the nearest integer, a half going up. *)
Definition Math_round (x : Q) : Z := Qfloor (x + 0.5).

(** [Math.round(x * 100) / 100]. *)
Definition round2 (x : Q) : Q := inject_Z (Math_round (x * 100)) / 100.

Definition natQ (n : nat) : Q := inject_Z (Z.of_nat n).

Module weights.
Definition accuracy : Q := 0.35.
Definition context : Q := 0.25.
Definition hallucination : Q := 0.30.
Definition sourceQuality : Q := 0.10.
End weights.

(** The body of the loop of [calculateSourceQuality] for one source. *)
Definition qualityOf (source : Source.t) : Q :=
  let quality := 0.5 in
  let quality :=
    if Nat.ltb 100 (String.length (Source.content source))
    then quality + 0.2 else quality in
  let quality :=
    if Nat.ltb 500 (String.length (Source.content source))
    then quality + 0.2 else quality in
  let quality :=
    match Source.title source with
    | Some title =>
        if Nat.ltb 0 (String.length title) then quality + 0.1 else quality
    | None => quality
    end in
  Qmin quality 1.0.

Definition calculateSourceQuality (sources : list Source.t) : Q :=
  match sources with
  | [] => 0
  | _ :: _ =>
      let totalQuality :=
        fold_left (fun total source => total + qualityOf source) sources 0 in
      totalQuality / natQ (List.length sources)
  end.

(** The weighted sum [confidenceScore], before rounding. *)
Definition weightedScore
  (accuracyResult : AccuracyResult.t) (contextResult : ContextResult.t)
  (hallucinationResult : HallucinationResult.t) (sources : list Source.t)
  : Q :=
  let accuracyScore := AccuracyResult.verification_rate accuracyResult in
  let contextScore := ContextResult.source_relevance contextResult in
  let hallucinationScore := 1 - HallucinationResult.risk hallucinationResult in
  let sourceQualityScore := calculateSourceQuality sources in
  (accuracyScore * weights.accuracy) +
  (contextScore * weights.context) +
  (hallucinationScore * weights.hallucination) +
  (sourceQualityScore * weights.sourceQuality).

Definition levelOf (confidenceScore : Q) : ConfidenceLevel :=
  if Qle_bool 0.8 confidenceScore then high
  else if Qle_bool 0.5 confidenceScore then medium
  else low.

Definition calculateConfidence
  (accuracyResult : AccuracyResult.t) (contextResult : ContextResult.t)
  (hallucinationResult : HallucinationResult.t) (sources : list Source.t)
  : ConfidenceResult.t :=
  let accuracyScore := AccuracyResult.verification_rate accuracyResult in
  let contextScore := ContextResult.source_relevance contextResult in
  let hallucinationScore := 1 - HallucinationResult.risk hallucinationResult in
  let sourceQualityScore := calculateSourceQuality sources in
  let confidenceScore :=
    weightedScore accuracyResult contextResult hallucinationResult sources in
  let level := levelOf confidenceScore in
  ConfidenceResult.mk
    (round2 confidenceScore)
    level
    (Breakdown.mk
       (round2 accuracyScore)
       (round2 contextScore)
       (round2 hallucinationScore)
       (round2 sourceQualityScore)).

End ConfidenceScorer.

(** A score of the interval [0,1]. *)
Definition inUnit (x : Q) : Prop := (0 <= x <= 1)%Q.

(* ================================================================== *)
(** * ConfidenceScorer.ts in binary64 *)
(* ================================================================== *)

(** The scorer once more, on the numbers of the language: every operand and
    every result is an IEEE 754 binary64 value (a primitive [float]), the
    literals are the nearest binary64 values, and [+], [-], [*], [/] round
    to nearest, ties to even.  The definitions repeat those of
    [ConfidenceScorer] operation by operation. *)
Module Binary64.

Open Scope float_scope.

Module AccuracyResult.
Record t : Type := mk {
  verified : bool;
  verification_rate : float;
  reason : option string
}.
End AccuracyResult.

Module ContextResult.
Record t : Type := mk {
  source_relevance : float;
  source_usage_rate : float;
  valid : bool
}.
End ContextResult.

Module HallucinationResult.
Record t : Type := mk {
  detected : bool;
  risk : float;
  hallucinated_parts : option (list string)
}.
End HallucinationResult.

Module Breakdown.
Record t : Type := mk {
  accuracy_score : float;
  context_score : float;
  hallucination_score : float;
  source_quality : float
}.
End Breakdown.

Module ConfidenceResult.
Record t : Type := mk {
  confidence_score : float;
  level : ConfidenceLevel;
  breakdown : Breakdown.t
}.
End ConfidenceResult.

(** An integer of magnitude at most 2^53 as a number. *)
Definition ofZ (n : Z) : float :=
  let magnitude := of_uint63 (Uint63.of_Z (Z.abs n)) in
  if (n <? 0)%Z then - magnitude else magnitude.

(** [Math.round]: [NaN], the infinities and the integers are returned as
    they are; any other [x] goes to the integer [floor(x + 1/2)], taken
    exactly, a result of zero keeping the sign of [x].  A finite number is
    [m * 2^e] with [m] below 2^53: it is an integer when [e >= 0], and below
    2^53 in magnitude otherwise. *)
Definition Math_round (x : float) : float :=
  match Prim2SF x with
  | S754_finite negative m e =>
      if (0 <=? e)%Z then x
      else
        let mantissa := if negative then Z.neg m else Z.pos m in
        let n := ((2 * mantissa + 2 ^ (- e)) / 2 ^ (1 - e))%Z in
        if (n =? 0)%Z then (if negative then neg_zero else zero) else ofZ n
  | _ => x
  end.

(** [Math.round(x * 100) / 100]. *)
Definition round2 (x : float) : float := Math_round (x * 100) / 100.

(** [Math.min] of two numbers: [NaN] if either is, and [-0] below [+0]. *)
Definition Math_min (x y : float) : float :=
  if is_nan x || is_nan y then nan
  else if x <? y then x
  else if y <? x then y
  else if get_sign x then x else y.

(** [sources.length] as a number. *)
Definition ofNat (n : nat) : float := of_uint63 (Uint63.of_Z (Z.of_nat n)).

Module weights.
Definition accuracy : float := 0.35.
Definition context : float := 0.25.
Definition hallucination : float := 0.30.
Definition sourceQuality : float := 0.10.
End weights.

Definition qualityOf (source : Source.t) : float :=
  let quality := 0.5 in
  let quality :=
    if Nat.ltb 100 (String.length (Source.content source))
    then quality + 0.2 else quality in
  let quality :=
    if Nat.ltb 500 (String.length (Source.content source))
    then quality + 0.2 else quality in
  let quality :=
    match Source.title source with
    | Some title =>
        if Nat.ltb 0 (String.length title) then quality + 0.1 else quality
    | None => quality
    end in
  Math_min quality 1.0.

Definition calculateSourceQuality (sources : list Source.t) : float :=
  match sources with
  | [] => 0
  | _ :: _ =>
      let totalQuality :=
        fold_left (fun total source => total + qualityOf source) sources 0 in
      totalQuality / ofNat (List.length sources)
  end.

(** The weighted sum [confidenceScore], before rounding. *)
Definition weightedScore
  (accuracyResult : AccuracyResult.t) (contextResult : ContextResult.t)
  (hallucinationResult : HallucinationResult.t) (sources : list Source.t)
  : float :=
  let accuracyScore := AccuracyResult.verification_rate accuracyResult in
  let contextScore := ContextResult.source_relevance contextResult in
  let hallucinationScore := 1 - HallucinationResult.risk hallucinationResult in
  let sourceQualityScore := calculateSourceQuality sources in
  (accuracyScore * weights.accuracy) +
  (contextScore * weights.context) +
  (hallucinationScore * weights.hallucination) +
  (sourceQualityScore * weights.sourceQuality).

(** [x >= y] is [y <=? x]: false when either side is [NaN]. *)
Definition levelOf (confidenceScore : float) : ConfidenceLevel :=
  if 0.8 <=? confidenceScore then high
  else if 0.5 <=? confidenceScore then medium
  else low.

Definition calculateConfidence
  (accuracyResult : AccuracyResult.t) (contextResult : ContextResult.t)
  (hallucinationResult : HallucinationResult.t) (sources : list Source.t)
  : ConfidenceResult.t :=
  let accuracyScore := AccuracyResult.verification_rate accuracyResult in
  let contextScore := ContextResult.source_relevance contextResult in
  let hallucinationScore := 1 - HallucinationResult.risk hallucinationResult in
  let sourceQualityScore := calculateSourceQuality sources in
  let confidenceScore :=
    weightedScore accuracyResult contextResult hallucinationResult sources in
  let level := levelOf confidenceScore in
  ConfidenceResult.mk
    (round2 confidenceScore)
    level
    (Breakdown.mk
       (round2 accuracyScore)
       (round2 contextScore)
       (round2 hallucinationScore)
       (round2 sourceQualityScore)).

End Binary64.

(* ================================================================== *)
(** * AIValidator.ts *)
(* ================================================================== *)

Module AIValidator.

Import Judge.
Open Scope Q_scope.

Record t : Type := mk {
  config : AIValidatorConfig.t;
  accuracyChecker : AccuracyChecker.t;
  hallucinationDetector : HallucinationDetector.t
}.

(** One key of [{ key: fallback, ...config }]: a key written in [config],
    even as [undefined], replaces the default. *)
Definition withDefault {A : Type} (fallback : A) (given : Optional A)
  : Optional A :=
  match given with
  | Absent => Present fallback
  | _ => given
  end.

Definition withDefaults (config : AIValidatorConfig.t) : AIValidatorConfig.t :=
  AIValidatorConfig.mk
    (AIValidatorConfig.openaiApiKey config)
    (AIValidatorConfig.claudeApiKey config)
    (AIValidatorConfig.llmProvider config)
    (withDefault 0.7 (AIValidatorConfig.confidenceThreshold config))
    (withDefault true (AIValidatorConfig.enableQueryClassification config))
    (withDefault true (AIValidatorConfig.enableAccuracyCheck config))
    (withDefault true (AIValidatorConfig.enableHallucinationDetection config))
    (withDefault "gpt-4o" (AIValidatorConfig.openaiModel config))
    (withDefault "claude-sonnet-4-5-20250929"
       (AIValidatorConfig.claudeModel config)).

Definition keyGiven (apiKey : option string) : bool :=
  match apiKey with
  | Some key => JS.truthy key
  | None => false
  end.

(** [validateConfig]: the error thrown, if any. *)
Definition validateConfig (config : AIValidatorConfig.t) : option thrown :=
  let hasOpenai := keyGiven (AIValidatorConfig.openaiApiKey config) in
  let hasClaude := keyGiven (AIValidatorConfig.claudeApiKey config) in
  if negb hasOpenai && negb hasClaude
  then Some (ErrorObject
               "At least one API key (OpenAI or Claude) must be provided")
  else
    match AIValidatorConfig.llmProvider config with
    | openai =>
        if negb hasOpenai
        then Some (ErrorObject
                     "OpenAI API key is required when using OpenAI provider")
        else None
    | claude =>
        if negb hasClaude
        then Some (ErrorObject
                     "Claude API key is required when using Claude provider")
        else None
    end.

(** The constructor: the validator, or the error it throws. *)
Definition new (config : AIValidatorConfig.t) : thrown + t :=
  let merged := withDefaults config in
  match validateConfig merged with
  | Some error => inl error
  | None =>
      inr (mk merged
             (AccuracyChecker.new (AIValidatorConfig.openaiApiKey merged)
                                  (AIValidatorConfig.claudeApiKey merged))
             (HallucinationDetector.new
                (AIValidatorConfig.openaiApiKey merged)
                (AIValidatorConfig.claudeApiKey merged)))
  end.

(** Truthiness of a boolean flag of the configuration. *)
Definition enabled (flag : Optional bool) : bool :=
  match flag with
  | Present b => b
  | _ => false
  end.

(** [this.config.confidenceThreshold || 0.7]. *)
Definition thresholdOr (threshold : Optional Q) (fallback : Q) : Q :=
  match threshold with
  | Present q => if Qeq_bool q 0 then fallback else q
  | _ => fallback
  end.

(** [this.config.openaiModel || fallback]. *)
Definition modelOr (configured : Optional string) (fallback : string)
  : string :=
  match configured with
  | Present s => if JS.truthy s then s else fallback
  | _ => fallback
  end.

Definition getModel (self : t) : string :=
  match AIValidatorConfig.llmProvider (config self) with
  | openai => modelOr (AIValidatorConfig.openaiModel (config self)) "gpt-4o"
  | claude => modelOr (AIValidatorConfig.claudeModel (config self))
                "claude-sonnet-4-5-20250929"
  end.

Definition longerThan (n : nat) (word : string) : bool :=
  Nat.ltb n (String.length word).

(** The counting loops: [for (const word of words) if (pool.includes(word))
    count++]. *)
Definition countIncluded (words pool : list string) : nat :=
  fold_left
    (fun count word => if JS.arrayIncludes pool word then S count else count)
    words 0%nat.

Definition ratio (count total : nat) : Q :=
  ConfidenceScorer.natQ count / ConfidenceScorer.natQ total.

Definition calculateContextRelevance
  (query response : string) (sources : list Source.t) : ContextResult.t :=
  match sources with
  | [] => ContextResult.mk 0 0 false
  | _ :: _ =>
      let cleanResponse := JS.stripPunctuation (JS.toLowerCase response) in
      let sourceContent :=
        JS.join " "
          (List.map
             (fun s => JS.stripPunctuation (JS.toLowerCase (Source.content s)))
             sources) in
      let responseWords :=
        List.filter (longerThan 3) (JS.splitWhitespace cleanResponse) in
      let sourceWords :=
        List.filter (longerThan 3) (JS.splitWhitespace sourceContent) in
      let wordsInSource := countIncluded responseWords sourceWords in
      let sourceRelevance :=
        if Nat.ltb 0 (List.length responseWords)
        then ratio wordsInSource (List.length responseWords)
        else 0.5 in
      let cleanQuery := JS.stripPunctuation (JS.toLowerCase query) in
      let queryWords :=
        List.filter (longerThan 2) (JS.splitWhitespace cleanQuery) in
      let queryWordsInResponse := countIncluded queryWords responseWords in
      let sourceUsageRate :=
        if Nat.ltb 0 (List.length queryWords)
        then ratio queryWordsInResponse (List.length queryWords)
        else 0.5 in
      ContextResult.mk
        (Qmin sourceRelevance 1.0)
        sourceUsageRate
        (negb (Qle_bool sourceRelevance 0.3))
  end.

Definition generateWarnings
  (accuracyResult : AccuracyResult.t) (contextResult : ContextResult.t)
  (hallucinationResult : HallucinationResult.t) (sources : list Source.t)
  : list string :=
  let warnings : list string := [] in
  let warnings :=
    match sources with
    | [] => (warnings ++ ["No sources provided - high hallucination risk"])%list
    | _ :: _ => warnings
    end in
  let warnings :=
    if negb (Qle_bool 0.5 (AccuracyResult.verification_rate accuracyResult))
    then (warnings ++ ["Low accuracy verification rate"])%list else warnings in
  let warnings :=
    if negb (Qle_bool 0.3 (ContextResult.source_relevance contextResult))
    then (warnings ++ ["Low context relevance"])%list else warnings in
  let warnings :=
    if negb (Qle_bool (HallucinationResult.risk hallucinationResult) 0.5)
    then (warnings ++ ["High hallucination risk detected"])%list else warnings in
  let warnings :=
    if HallucinationResult.detected hallucinationResult
    then (warnings ++ ["Hallucination detected in response"])%list else warnings in
  warnings.

(** The result returned when the classifier says to skip. *)
Definition skipped (type : QueryType) : ValidationResult.t :=
  ValidationResult.mk 1.0 true
    (AccuracyResult.mk true 1.0 None)
    (ContextResult.mk 1.0 1.0 true)
    (HallucinationResult.mk false 0 None)
    []
    (Some type)
    (Some true).

(** The result of the outer [catch]. *)
Definition validationFailed (error : thrown) : ValidationResult.t :=
  ValidationResult.mk 0 false
    (AccuracyResult.mk false 0 (Some "validation_error"))
    (ContextResult.mk 0 0 false)
    (HallucinationResult.mk true 1.0 None)
    ["Validation failed: " ++ messageOf error]
    None
    None.

Section WithJSON.

Variable JSON_parse : string -> option JSON.value.

(** Steps 2 to 5 of [validate].  The three promises of [Promise.all] are
    created in this order; neither checker rejects, and the context estimate
    awaits nothing. *)
Definition runChecks (self : t) (input : ValidationInput.t)
  : prog ValidationResult.t :=
  let sources := ValidationInput.sources input in
  let response := ValidationInput.response input in
  let cfg := config self in
  accuracyResult <-
    (if enabled (AIValidatorConfig.enableAccuracyCheck cfg)
     then AccuracyChecker.checkAccuracy JSON_parse (accuracyChecker self)
            response sources (AIValidatorConfig.llmProvider cfg)
            (Some (getModel self))
     else Ret (AccuracyResult.mk true 1.0 None)) ;;
  let contextResult :=
    calculateContextRelevance (ValidationInput.query input) response sources in
  hallucinationResult <-
    (if enabled (AIValidatorConfig.enableHallucinationDetection cfg)
     then HallucinationDetector.detectHallucination JSON_parse
            (hallucinationDetector self)
            response sources (AIValidatorConfig.llmProvider cfg)
            (Some (getModel self))
     else Ret (HallucinationResult.mk false 0 None)) ;;
  let confidenceResult :=
    ConfidenceScorer.calculateConfidence
      accuracyResult contextResult hallucinationResult sources in
  let warnings :=
    generateWarnings accuracyResult contextResult hallucinationResult sources in
  let valid :=
    Qle_bool (thresholdOr (AIValidatorConfig.confidenceThreshold cfg) 0.7)
             (ConfidenceResult.confidence_score confidenceResult) in
  Ret (ValidationResult.mk
         (ConfidenceResult.confidence_score confidenceResult)
         valid accuracyResult contextResult hallucinationResult warnings
         None None).

Definition validate (self : t) (input : ValidationInput.t)
  : prog ValidationResult.t :=
  tryCatch
    (if enabled (AIValidatorConfig.enableQueryClassification (config self))
     then
       let classification :=
         QueryClassifier.classifyQuery (ValidationInput.query input) in
       if QueryClassificationResult.skip_validation classification
       then Ret (skipped (QueryClassificationResult.type classification))
       else runChecks self input
     else runChecks self input)
    (fun error => Ret (validationFailed error)).

End WithJSON.

End AIValidator.

(* ================================================================== *)
(** * The documented behaviour, for comparison with the code *)
(* ================================================================== *)

Module Documented.

Import QueryClassificationResult.
Open Scope Q_scope.

(** The classifier as the specification tells it: normalise, try greeting,
    typo, small talk, clarification and meta in that order (confidence 0.9;
    all skip but clarification), then the length rule, then the
    interrogative rule, then the fallback. *)
Definition classify (query : string) : QueryClassificationResult.t :=
  let q := JS.toLowerCase (JS.trim query) in
  if RegExp.matchAny QueryClassifier.greeting_words q then mk greeting 0.9 true
  else if RegExp.search QueryClassifier.typo_words q then mk typo 0.9 true
  else if RegExp.matchAny QueryClassifier.small_talk_words q
  then mk small_talk 0.9 true
  else if RegExp.matchAny QueryClassifier.clarification_words q
  then mk clarification 0.9 false
  else if RegExp.matchAny QueryClassifier.meta_words q then mk meta 0.9 true
  else if Nat.leb (String.length q) 10 then mk greeting 0.7 true
  else if JS.includes q "?" then mk question 0.8 false
  else if JS.startsWith q "how" || JS.startsWith q "what"
          || JS.startsWith q "when" || JS.startsWith q "where"
          || JS.startsWith q "why" || JS.startsWith q "who"
          || JS.startsWith q "which"
  then mk question 0.8 false
  else mk question 0.6 false.

(** Lower-cased, punctuation-stripped tokens of a text. *)
Definition tokens (text : string) : list string :=
  JS.splitWhitespace (JS.stripPunctuation (JS.toLowerCase text)).

(** The tokens longer than [n] characters. *)
Definition qualifying (n : nat) (text : string) : list string :=
  List.filter (fun w => Nat.ltb n (String.length w)) (tokens text).

(** The tokens of the sources: every content is cleaned, the contents are
    joined by a space. *)
Definition sourceTokens (sources : list Source.t) : list string :=
  JS.splitWhitespace
    (JS.join " "
       (List.map
          (fun s => JS.stripPunctuation (JS.toLowerCase (Source.content s)))
          sources)).

Definition occursIn (pool : list string) (w : string) : bool :=
  if in_dec string_dec w pool then true else false.

(** How many of [words], counted per occurrence, occur in [pool]. *)
Definition occurrences (words pool : list string) : nat :=
  List.length (List.filter (occursIn pool) words).

Definition fraction (count total : nat) : Q :=
  inject_Z (Z.of_nat count) / inject_Z (Z.of_nat total).

(** [source_relevance]: share of the response words found among the source
    tokens, at most 1; one half without response words. *)
Definition source_relevance (response : string) (sources : list Source.t)
  : Q :=
  let words := qualifying 3 response in
  match words with
  | [] => 0.5
  | _ :: _ =>
      Qmin (fraction (occurrences words (sourceTokens sources))
                     (List.length words)) 1
  end.

(** [source_usage_rate]: share of the query words (longer than 2) found in
    the response word set; one half without query words. *)
Definition source_usage_rate (query response : string) : Q :=
  let words := qualifying 2 query in
  match words with
  | [] => 0.5
  | _ :: _ =>
      fraction (occurrences words (qualifying 3 response)) (List.length words)
  end.

Definition contextRelevance
  (query response : string) (sources : list Source.t) : ContextResult.t :=
  let relevance := source_relevance response sources in
  ContextResult.mk relevance (source_usage_rate query response)
    (negb (Qle_bool relevance 0.3)).

End Documented.

(* ================================================================== *)
(** * Sample data *)
(* ================================================================== *)

Module Sample.

Open Scope Q_scope.

(** A partial [JSON.parse] that reads the empty object and rejects every
    other text; enough to run the examples, which never parse anything
    else. *)
Definition parseEmptyObject (text : string) : option JSON.value :=
  if String.eqb text "{}" then Some (JSON.Object []) else None.

Definition config : AIValidatorConfig.t :=
  AIValidatorConfig.mk (Some "sk-test") None openai
    Absent Absent Absent Absent Absent Absent.

Definition configWith
  (threshold : Optional Q) (classification : Optional bool)
  : AIValidatorConfig.t :=
  AIValidatorConfig.mk (Some "sk-test") None openai
    threshold classification Absent Absent Absent Absent.

(** The validator built by the constructor from a configuration with an
    OpenAI key. *)
Definition validatorOf (cfg : AIValidatorConfig.t) : AIValidator.t :=
  match AIValidator.new cfg with
  | inr v => v
  | inl _ => AIValidator.mk cfg (AccuracyChecker.new None None)
               (HallucinationDetector.new None None)
  end.

Definition validator : AIValidator.t := validatorOf config.

Definition source : Source.t :=
  Source.mk "GPT is a language model" (Some "GPT").

(** A validator with both model-backed checks switched off. *)
Definition withoutChecks : AIValidator.t :=
  validatorOf
    (AIValidatorConfig.mk (Some "sk-test") None openai
       Absent Absent (Present false) (Present false) Absent Absent).

Definition question : ValidationInput.t :=
  ValidationInput.mk "What is the boiling point of water?"
    "100 degrees Celsius" [source].

Definition failingJudge (request : Judge.request) : Judge.reply :=
  Judge.Rejected (Judge.ErrorObject "network timeout").

(** A judge that answers every request with the same text. *)
Definition textJudge (text : string) (request : Judge.request)
  : Judge.reply :=
  match Judge.backend request with
  | openai => Judge.Resolved (Judge.ChatCompletion (Some text))
  | claude => Judge.Resolved (Judge.Message [Judge.TextBlock text])
  end.

(** The text of two answers of a judge, written with the quotation mark of
    JSON, and a table-driven [JSON.parse] that reads these two texts and the
    empty object. *)
Definition quote : string := String (ascii_of_nat 34) EmptyString.

Definition key (name : string) : string := quote ++ name ++ quote.

Definition accuracyAnswer : string :=
  "{" ++ key "verified" ++ ": true, " ++ key "verification_rate" ++ ": 0.9, "
  ++ key "reason" ++ ": " ++ key "supported" ++ "}".

Definition hallucinationAnswer : string :=
  "{" ++ key "detected" ++ ": false, " ++ key "risk" ++ ": 0.1, "
  ++ key "hallucinated_parts" ++ ": []}".

Definition parseAnswers (text : string) : option JSON.value :=
  if String.eqb text accuracyAnswer
  then Some (JSON.Object [("verified", JSON.Bool true);
                          ("verification_rate", JSON.Number 0.9);
                          ("reason", JSON.Str "supported")])
  else if String.eqb text hallucinationAnswer
  then Some (JSON.Object [("detected", JSON.Bool false);
                          ("risk", JSON.Number 0.1);
                          ("hallucinated_parts", JSON.Array [])])
  else parseEmptyObject text.

(** A table-driven [JSON.parse] that reads the text "null" only. *)
Definition parseNull (text : string) : option JSON.value :=
  if String.eqb text "null" then Some JSON.Null else None.

Definition answeringJudge (request : Judge.request) : Judge.reply :=
  match Judge.purpose request with
  | Judge.AccuracyTask =>
      Judge.Resolved (Judge.ChatCompletion (Some accuracyAnswer))
  | Judge.HallucinationTask =>
      Judge.Resolved (Judge.ChatCompletion (Some hallucinationAnswer))
  end.

End Sample.

(* ================================================================== *)
(** * Vocabulary of the statements *)
(* ================================================================== *)

Module Text.

(** Every code unit of [s] satisfies [f]. *)
Fixpoint all (f : ascii -> bool) (s : string) : bool :=
  match s with
  | EmptyString => true
  | String c s' => f c && all f s'
  end.

Definition allWhiteSpace (s : string) : bool := all JS.isWhiteSpace s.

Definition isBacktick (c : ascii) : bool := Ascii.eqb c "`".

Definition noBacktick (s : string) : bool :=
  all (fun c => negb (isBacktick c)) s.

(** [s] is not empty and does not begin with white space. *)
Definition startsSolid (s : string) : bool :=
  match s with
  | EmptyString => false
  | String c _ => negb (JS.isWhiteSpace c)
  end.

(** A lower-case letter, a digit or the underscore. *)
Definition isLowerWordChar (c : ascii) : bool :=
  JS.isWordChar c && negb (JS.between 65 90 (JS.code c)).

End Text.

Module Expected.

(** The text the checkers send as source content. *)
Definition sourceContent (sources : list Source.t) : string :=
  JS.join (lineFeed ++ lineFeed) (List.map Source.content sources).

(** The request a check of [validate] makes, if it makes one. *)
Definition request (self : AIValidator.t) (input : ValidationInput.t)
  (purpose : Judge.task) : Judge.request :=
  Judge.mkRequest
    (AIValidatorConfig.llmProvider (AIValidator.config self))
    purpose
    (AIValidator.getModel self)
    (sourceContent (ValidationInput.sources input))
    (ValidationInput.response input).

(** The API key of the configured provider. *)
Definition providerKey (config : AIValidatorConfig.t) : option string :=
  match AIValidatorConfig.llmProvider config with
  | openai => AIValidatorConfig.openaiApiKey config
  | claude => AIValidatorConfig.claudeApiKey config
  end.

(** [validate] does not take the skip path. *)
Definition notSkipped (self : AIValidator.t) (input : ValidationInput.t)
  : bool :=
  negb (AIValidator.enabled
          (AIValidatorConfig.enableQueryClassification
             (AIValidator.config self))
        && QueryClassificationResult.skip_validation
             (QueryClassifier.classifyQuery (ValidationInput.query input))).

(** An answer without usable text: for a chat completion a content that is
    [null] or empty, for a message a first block that is not text. *)
Definition emptyAnswer (backend : LLMProvider) (r : Judge.reply) : bool :=
  match backend, r with
  | openai, Judge.Resolved (Judge.ChatCompletion None) => true
  | openai, Judge.Resolved (Judge.ChatCompletion (Some EmptyString)) => true
  | claude, Judge.Resolved (Judge.Message (Judge.OtherBlock :: _)) => true
  | _, _ => false
  end.

(** A judge that answers every chat completion with [null] and every
    message with one block that is not text. *)
Definition silentJudge (request : Judge.request) : Judge.reply :=
  match Judge.backend request with
  | openai => Judge.Resolved (Judge.ChatCompletion None)
  | claude => Judge.Resolved (Judge.Message [Judge.OtherBlock])
  end.

(** The model a checker asks for when it is given none. *)
Definition defaultModel (provider : LLMProvider) : string :=
  match provider with
  | openai => "gpt-4o"
  | claude => "claude-sonnet-4-5-20250929"
  end.

(** The client a checker uses for a provider, if it holds one. *)
Definition accuracyClient (self : AccuracyChecker.t) (provider : LLMProvider)
  : option string :=
  match provider with
  | openai => AccuracyChecker.openaiClient self
  | claude => AccuracyChecker.claudeClient self
  end.

Definition hallucinationClient (self : HallucinationDetector.t)
  (provider : LLMProvider) : option string :=
  match provider with
  | openai => HallucinationDetector.openaiClient self
  | claude => HallucinationDetector.claudeClient self
  end.

(** The requests one check makes: none without sources or without a client
    for the provider, one otherwise. *)
Definition requestsOf (purpose : Judge.task) (client : option string)
  (response : string) (sources : list Source.t) (provider : LLMProvider)
  (model : option string) : list Judge.request :=
  match sources, client with
  | _ :: _, Some _ =>
      [Judge.mkRequest provider purpose
         (stringOr model (defaultModel provider))
         (sourceContent sources) response]
  | _, _ => []
  end.

(** The requests one stage of [validate] makes: one when the stage is
    switched on, the input has sources and the checker holds a client for
    the configured provider; none otherwise. *)
Definition stageRequests (on : bool) (client : option string)
  (self : AIValidator.t) (input : ValidationInput.t) (purpose : Judge.task)
  : list Judge.request :=
  match on, ValidationInput.sources input, client with
  | true, _ :: _, Some _ => [request self input purpose]
  | _, _, _ => []
  end.

Definition accuracyRequests (self : AIValidator.t)
  (input : ValidationInput.t) : list Judge.request :=
  stageRequests
    (AIValidator.enabled
       (AIValidatorConfig.enableAccuracyCheck (AIValidator.config self)))
    (accuracyClient (AIValidator.accuracyChecker self)
       (AIValidatorConfig.llmProvider (AIValidator.config self)))
    self input Judge.AccuracyTask.

Definition hallucinationRequests (self : AIValidator.t)
  (input : ValidationInput.t) : list Judge.request :=
  stageRequests
    (AIValidator.enabled
       (AIValidatorConfig.enableHallucinationDetection
          (AIValidator.config self)))
    (hallucinationClient (AIValidator.hallucinationDetector self)
       (AIValidatorConfig.llmProvider (AIValidator.config self)))
    self input Judge.HallucinationTask.

(** The three stages of [runChecks], named: the accuracy promise, the
    hallucination promise, and the result assembled from their values. *)
Definition accuracyStage (JSON_parse : string -> option JSON.value)
  (self : AIValidator.t) (input : ValidationInput.t)
  : Judge.prog AccuracyResult.t :=
  if AIValidator.enabled
       (AIValidatorConfig.enableAccuracyCheck (AIValidator.config self))
  then AccuracyChecker.checkAccuracy JSON_parse
         (AIValidator.accuracyChecker self)
         (ValidationInput.response input) (ValidationInput.sources input)
         (AIValidatorConfig.llmProvider (AIValidator.config self))
         (Some (AIValidator.getModel self))
  else Judge.Ret (AccuracyResult.mk true 1.0 None).

Definition hallucinationStage (JSON_parse : string -> option JSON.value)
  (self : AIValidator.t) (input : ValidationInput.t)
  : Judge.prog HallucinationResult.t :=
  if AIValidator.enabled
       (AIValidatorConfig.enableHallucinationDetection
          (AIValidator.config self))
  then HallucinationDetector.detectHallucination JSON_parse
         (AIValidator.hallucinationDetector self)
         (ValidationInput.response input) (ValidationInput.sources input)
         (AIValidatorConfig.llmProvider (AIValidator.config self))
         (Some (AIValidator.getModel self))
  else Judge.Ret (HallucinationResult.mk false 0 None).

Definition contextOf (input : ValidationInput.t) : ContextResult.t :=
  AIValidator.calculateContextRelevance (ValidationInput.query input)
    (ValidationInput.response input) (ValidationInput.sources input).

Definition threshold (self : AIValidator.t) : Q :=
  AIValidator.thresholdOr
    (AIValidatorConfig.confidenceThreshold (AIValidator.config self)) 0.7.

Definition assemble (self : AIValidator.t) (input : ValidationInput.t)
  (a : AccuracyResult.t) (h : HallucinationResult.t) : ValidationResult.t :=
  let c := contextOf input in
  let sources := ValidationInput.sources input in
  let confidenceResult := ConfidenceScorer.calculateConfidence a c h sources in
  ValidationResult.mk
    (ConfidenceResult.confidence_score confidenceResult)
    (Qle_bool (threshold self)
       (ConfidenceResult.confidence_score confidenceResult))
    a c h
    (AIValidator.generateWarnings a c h sources)
    None None.

(** The five warnings, in the order [generateWarnings] pushes them. *)
Definition allWarnings : list string :=
  ["No sources provided - high hallucination risk";
   "Low accuracy verification rate";
   "Low context relevance";
   "High hallucination risk detected";
   "Hallucination detected in response"].

End Expected.

(* ================================================================== *)
(** * Properties *)
(* ================================================================== *)

(** ** Running programs *)

Lemma run_bind {A B : Type} (judge : Judge.request -> Judge.reply)
  (p : Judge.prog A) (f : A -> Judge.prog B) :
  Judge.run judge (Judge.bind p f) =
  match Judge.run judge p with
  | (Judge.Returned a, calls) =>
      let (o, more) := Judge.run judge (f a) in (o, (calls ++ more)%list)
  | (Judge.Threw error, calls) => (Judge.Threw error, calls)
  | (Judge.Untyped, calls) => (Judge.Untyped, calls)
  end.
Proof.
  induction p as [a | error | req k IH | ]; cbn.
  - destruct (Judge.run judge (f a)); reflexivity.
  - reflexivity.
  - rewrite IH. destruct (Judge.run judge (k (judge req))) as [[a | error | ] calls].
    + destruct (Judge.run judge (f a)); reflexivity.
    + reflexivity.
    + reflexivity.
  - reflexivity.
Qed.

Lemma run_tryCatch {A : Type} (judge : Judge.request -> Judge.reply)
  (p : Judge.prog A) (handler : Judge.thrown -> Judge.prog A) :
  Judge.run judge (Judge.tryCatch p handler) =
  match Judge.run judge p with
  | (Judge.Threw error, calls) =>
      let (o, more) := Judge.run judge (handler error) in
      (o, (calls ++ more)%list)
  | other => other
  end.
Proof.
  induction p as [a | error | req k IH | ]; cbn.
  - reflexivity.
  - destruct (Judge.run judge (handler error)); reflexivity.
  - rewrite IH. destruct (Judge.run judge (k (judge req))) as [[a | error | ] calls].
    + reflexivity.
    + destruct (Judge.run judge (handler error)); reflexivity.
    + reflexivity.
  - reflexivity.
Qed.

(** A program that returns at once calls no judge, whatever the judge. *)
Lemma calls_Ret {A : Type} (judge : Judge.request -> Judge.reply) (a : A) :
  Judge.calls judge (Judge.Ret a) = [].
Proof. reflexivity. Qed.

(** ** Empty sources *)

(** C1: with an empty [sources] sequence the accuracy check returns
    [{verified: false, verification_rate: 0, reason: "no_sources_provided"}],
    the hallucination check returns [{detected: true, risk: 0.8,
    hallucinated_parts: ["entire_response"]}], the context estimate is
    [{source_relevance: 0, source_usage_rate: 0, valid: false}], and no
    request reaches the judge: both checks are programs that return without
    awaiting, and the estimate is a plain function. *)
Theorem C1_empty_sources :
  forall (JSON_parse : string -> option JSON.value)
         (accuracyChecker : AccuracyChecker.t)
         (detector : HallucinationDetector.t)
         (query response : string) (llmProvider : LLMProvider)
         (model : option string) (judge : Judge.request -> Judge.reply),
    AccuracyChecker.checkAccuracy JSON_parse accuracyChecker response []
      llmProvider model
    = Judge.Ret (AccuracyResult.mk false 0 (Some "no_sources_provided"))
    /\ HallucinationDetector.detectHallucination JSON_parse detector response
         [] llmProvider model
       = Judge.Ret (HallucinationResult.mk true 0.8 (Some ["entire_response"]))
    /\ AIValidator.calculateContextRelevance query response []
       = ContextResult.mk 0 0 false
    /\ Judge.calls judge
         (AccuracyChecker.checkAccuracy JSON_parse accuracyChecker response []
            llmProvider model) = []
    /\ Judge.calls judge
         (HallucinationDetector.detectHallucination JSON_parse detector
            response [] llmProvider model) = [].
Proof.
  intros. repeat split.
Qed.

(** ** The skip path of [validate] *)

(** The skip branch of [validate]. *)
Lemma validate_skips :
  forall (JSON_parse : string -> option JSON.value)
         (self : AIValidator.t) (input : ValidationInput.t)
         (judge : Judge.request -> Judge.reply),
    AIValidator.enabled
      (AIValidatorConfig.enableQueryClassification (AIValidator.config self))
    = true ->
    QueryClassificationResult.skip_validation
      (QueryClassifier.classifyQuery (ValidationInput.query input)) = true ->
    AIValidator.validate JSON_parse self input
    = Judge.Ret (AIValidator.skipped
                   (QueryClassificationResult.type
                      (QueryClassifier.classifyQuery
                         (ValidationInput.query input))))
    /\ Judge.calls judge (AIValidator.validate JSON_parse self input) = [].
Proof.
  intros JSON_parse self input judge Henabled Hskip.
  assert (H : AIValidator.validate JSON_parse self input
              = Judge.Ret (AIValidator.skipped
                             (QueryClassificationResult.type
                                (QueryClassifier.classifyQuery
                                   (ValidationInput.query input))))).
  { unfold AIValidator.validate. rewrite Henabled.
    cbv zeta. rewrite Hskip. reflexivity. }
  rewrite H. split; reflexivity.
Qed.

(** C2: when query classification is enabled and the query classifies with
    [skip_validation = true], [validate] returns at once the optimistic
    result (confidence 1.0, valid, accuracy verified at rate 1.0, context all
    1.0 and valid, no hallucination at risk 0, no warnings, the query type
    attached, [skip_validation] true) and no request reaches the judge. *)
Theorem C2_skip_validation :
  forall (JSON_parse : string -> option JSON.value)
         (self : AIValidator.t) (input : ValidationInput.t)
         (judge : Judge.request -> Judge.reply),
    AIValidator.enabled
      (AIValidatorConfig.enableQueryClassification (AIValidator.config self))
    = true ->
    QueryClassificationResult.skip_validation
      (QueryClassifier.classifyQuery (ValidationInput.query input)) = true ->
    AIValidator.validate JSON_parse self input
    = Judge.Ret
        (ValidationResult.mk 1.0 true
           (AccuracyResult.mk true 1.0 None)
           (ContextResult.mk 1.0 1.0 true)
           (HallucinationResult.mk false 0 None)
           []
           (Some (QueryClassificationResult.type
                    (QueryClassifier.classifyQuery
                       (ValidationInput.query input))))
           (Some true))
    /\ Judge.calls judge (AIValidator.validate JSON_parse self input) = [].
Proof.
  intros JSON_parse self input judge Henabled Hskip.
  exact (validate_skips JSON_parse self input judge Henabled Hskip).
Qed.

(** The query "hi" with the default configuration. *)
Lemma C2_skip_validation_witness :
  AIValidator.validate Sample.parseEmptyObject Sample.validator
    (ValidationInput.mk "hi" "Hello! How can I help?" [])
  = Judge.Ret
      (ValidationResult.mk 1.0 true
         (AccuracyResult.mk true 1.0 None)
         (ContextResult.mk 1.0 1.0 true)
         (HallucinationResult.mk false 0 None)
         []
         (Some greeting)
         (Some true))
  /\ Judge.calls Sample.failingJudge
       (AIValidator.validate Sample.parseEmptyObject Sample.validator
          (ValidationInput.mk "hi" "Hello! How can I help?" [])) = [].
Proof.
  apply (C2_skip_validation Sample.parseEmptyObject Sample.validator
           (ValidationInput.mk "hi" "Hello! How can I help?" [])
           Sample.failingJudge); reflexivity.
Defined.

(** ** The classifier *)

Lemma firstMatch_patterns (s : string) :
  QueryClassifier.firstMatch QueryClassifier.patterns s =
  if RegExp.matchAny QueryClassifier.greeting_words s then Some greeting
  else if RegExp.search QueryClassifier.typo_words s then Some typo
  else if RegExp.matchAny QueryClassifier.small_talk_words s
  then Some small_talk
  else if RegExp.matchAny QueryClassifier.clarification_words s
  then Some clarification
  else if RegExp.matchAny QueryClassifier.meta_words s then Some meta
  else None.
Proof.
  unfold QueryClassifier.patterns.
  cbn [QueryClassifier.firstMatch RegExp.test].
  repeat match goal with |- context [if ?b then _ else _] =>
    destruct b; try reflexivity end.
Qed.

Lemma interrogatives_unfold (s : string) :
  existsb (JS.startsWith s) QueryClassifier.interrogatives =
  JS.startsWith s "how" || JS.startsWith s "what"
  || JS.startsWith s "when" || JS.startsWith s "where"
  || JS.startsWith s "why" || JS.startsWith s "who"
  || JS.startsWith s "which".
Proof.
  unfold QueryClassifier.interrogatives. cbn [existsb].
  rewrite orb_false_r. rewrite !orb_assoc. reflexivity.
Qed.

(** The loop over the pattern entries unfolds into the documented cascade. *)
Lemma classifyQuery_documented :
  forall query : string,
    QueryClassifier.classifyQuery query = Documented.classify query.
Proof.
  intro query.
  unfold QueryClassifier.classifyQuery, Documented.classify.
  cbv zeta.
  set (q := JS.toLowerCase (JS.trim query)).
  rewrite firstMatch_patterns, interrogatives_unfold.
  destruct (RegExp.matchAny QueryClassifier.greeting_words q); [reflexivity|].
  destruct (RegExp.search QueryClassifier.typo_words q); [reflexivity|].
  destruct (RegExp.matchAny QueryClassifier.small_talk_words q); [reflexivity|].
  destruct (RegExp.matchAny QueryClassifier.clarification_words q);
    [reflexivity|].
  destruct (RegExp.matchAny QueryClassifier.meta_words q); [reflexivity|].
  destruct (Nat.leb (String.length q) 10); [reflexivity|].
  destruct (JS.includes q "?"); reflexivity.
Qed.

(** C9: for every query string [classifyQuery] follows the documented
    precedence: on the trimmed, lower-cased query the greeting, typo, small
    talk, clarification and meta patterns are tried in this order, the first
    match giving confidence 0.9 and skipping for all but clarification; then
    a query of at most 10 characters is a greeting at 0.7 that skips; then a
    query with a question mark or an interrogative prefix is a question at
    0.8; every other query is a question at 0.6. *)
Theorem C9_classification_precedence :
  forall query : string,
    QueryClassifier.classifyQuery query = Documented.classify query.
Proof.
  exact classifyQuery_documented.
Qed.

(** ** Prefixes and substrings that classify as skippable *)

Lemma map_append (f : ascii -> ascii) (a b : string) :
  JS.map f (a ++ b) = JS.map f a ++ JS.map f b.
Proof.
  induction a as [| c a IH]; cbn; [reflexivity | now rewrite IH].
Qed.

Lemma toLowerChar_space (c : ascii) :
  JS.isWhiteSpace (JS.toLowerChar c) = JS.isWhiteSpace c.
Proof.
  destruct c as [[] [] [] [] [] [] [] []]; reflexivity.
Qed.

Lemma trimStart_toLowerCase (s : string) :
  JS.trimStart (JS.toLowerCase s) = JS.toLowerCase (JS.trimStart s).
Proof.
  unfold JS.toLowerCase.
  induction s as [| c s IH]; [reflexivity|].
  cbn [JS.map JS.trimStart]. rewrite toLowerChar_space.
  destruct (JS.isWhiteSpace c); [exact IH | reflexivity].
Qed.

Lemma trimEnd_toLowerCase (s : string) :
  JS.trimEnd (JS.toLowerCase s) = JS.toLowerCase (JS.trimEnd s).
Proof.
  unfold JS.toLowerCase.
  induction s as [| c s IH]; [reflexivity|].
  cbn [JS.map JS.trimEnd]. rewrite IH, toLowerChar_space.
  destruct (JS.trimEnd s); cbn [JS.map].
  - destruct (JS.isWhiteSpace c); reflexivity.
  - reflexivity.
Qed.

(** Trimming and lower-casing commute. *)
Lemma toLowerCase_trim (s : string) :
  JS.toLowerCase (JS.trim s) = JS.trim (JS.toLowerCase s).
Proof.
  unfold JS.trim. now rewrite trimStart_toLowerCase, trimEnd_toLowerCase.
Qed.

Lemma trimStart_infix (pre w post : string) (c : ascii) :
  JS.isWhiteSpace c = false ->
  exists pre', JS.trimStart (pre ++ String c w ++ post)
               = pre' ++ String c w ++ post.
Proof.
  intro Hc. induction pre as [| d pre IH].
  - exists EmptyString. cbn. now rewrite Hc.
  - cbn [append JS.trimStart]. destruct (JS.isWhiteSpace d).
    + exact IH.
    + exists (String d pre). reflexivity.
Qed.

Lemma trimEnd_append (a b : string) :
  JS.trimEnd (a ++ b) =
  match JS.trimEnd b with
  | EmptyString => JS.trimEnd a
  | r => a ++ r
  end.
Proof.
  induction a as [| c a IH].
  - cbn. destruct (JS.trimEnd b); reflexivity.
  - cbn [append JS.trimEnd]. rewrite IH.
    destruct (JS.trimEnd b); [reflexivity|].
    destruct a; reflexivity.
Qed.

(** A word without white space at its ends survives trimming wherever it
    stands in the text. *)
Lemma trim_infix (pre w post : string) (c : ascii) :
  JS.isWhiteSpace c = false ->
  JS.trimEnd (String c w) = String c w ->
  exists pre' post', JS.trim (pre ++ String c w ++ post)
                     = pre' ++ String c w ++ post'.
Proof.
  intros Hc Hw. unfold JS.trim.
  destruct (trimStart_infix pre w post c Hc) as [pre' ->].
  assert (Hin : exists post', JS.trimEnd (String c w ++ post)
                              = String c w ++ post').
  { rewrite trimEnd_append. destruct (JS.trimEnd post) as [| d r].
    - exists EmptyString. rewrite Hw. clear. induction (String c w); cbn; congruence.
    - exists (String d r). reflexivity. }
  destruct Hin as [post' Hpost].
  exists pre', post'. rewrite trimEnd_append, Hpost. reflexivity.
Qed.

Lemma matchHere_self (w rest : string) :
  RegExp.matchHere w (w ++ rest) = true.
Proof.
  induction w as [| c w IH]; [reflexivity|].
  cbn. now rewrite Ascii.eqb_refl.
Qed.

Lemma matchAny_prefix (words : list string) (w rest : string) :
  In w words -> RegExp.matchAny words (w ++ rest) = true.
Proof.
  intro Hin. unfold RegExp.matchAny. apply existsb_exists.
  exists w. split; [assumption | apply matchHere_self].
Qed.

Lemma search_infix (words : list string) (pre w post : string) :
  In w words -> RegExp.search words (pre ++ w ++ post) = true.
Proof.
  intro Hin. induction pre as [| c pre IH].
  - cbn [append]. destruct (w ++ post) eqn:E; cbn [RegExp.search];
      rewrite <- E, (matchAny_prefix words w post Hin); reflexivity.
  - cbn [append RegExp.search]. rewrite IH. apply orb_true_r.
Qed.

(** Every listed misspelling is in lower case and has no white space at its
    ends. *)
Lemma typo_word_shape (w : string) :
  In w QueryClassifier.typo_words ->
  JS.toLowerCase w = w /\
  exists c r, w = String c r /\ JS.isWhiteSpace c = false
              /\ JS.trimEnd (String c r) = String c r.
Proof.
  unfold QueryClassifier.typo_words. cbn [In].
  intros H.
  repeat (destruct H as [<- | H];
          [split; [reflexivity | eexists; eexists; repeat split] |]).
  contradiction.
Qed.

(** The normalised form of a query that contains a listed misspelling
    contains it too, and the typo pattern finds it. *)
Lemma typo_found (pre w post : string) :
  In w QueryClassifier.typo_words ->
  RegExp.search QueryClassifier.typo_words
    (JS.toLowerCase (JS.trim (pre ++ w ++ post))) = true.
Proof.
  intro Hin.
  destruct (typo_word_shape w Hin) as [Hlow (c & r & -> & Hc & Hend)].
  rewrite toLowerCase_trim. unfold JS.toLowerCase.
  rewrite !map_append. fold (JS.toLowerCase (String c r)). rewrite Hlow.
  destruct (trim_infix (JS.map JS.toLowerChar pre) r
              (JS.map JS.toLowerChar post) c Hc Hend) as (pre' & post' & ->).
  now apply search_infix.
Qed.

Lemma greeting_hi (s : string) :
  JS.startsWith s "hi" = true ->
  RegExp.matchAny QueryClassifier.greeting_words s = true.
Proof.
  unfold JS.startsWith. intro H.
  destruct s as [| a [| b s]]; cbn [String.prefix] in H; try discriminate.
  - destruct (ascii_dec "h" a); discriminate.
  - destruct (ascii_dec "h" a) as [<- |]; [| discriminate].
    destruct (ascii_dec "i" b) as [<- |]; [| discriminate].
    reflexivity.
Qed.

Lemma classify_hi_prefix (query : string) :
  JS.startsWith (JS.toLowerCase (JS.trim query)) "hi" = true ->
  QueryClassifier.classifyQuery query
  = QueryClassificationResult.mk greeting 0.9 true.
Proof.
  intro H. rewrite classifyQuery_documented.
  unfold Documented.classify. cbv zeta.
  now rewrite (greeting_hi _ H).
Qed.

Lemma classify_typo_infix (pre w post : string) :
  In w QueryClassifier.typo_words ->
  let q := JS.toLowerCase (JS.trim (pre ++ w ++ post)) in
  let c := QueryClassifier.classifyQuery (pre ++ w ++ post) in
  (RegExp.matchAny QueryClassifier.greeting_words q = true ->
   c = QueryClassificationResult.mk greeting 0.9 true)
  /\ (RegExp.matchAny QueryClassifier.greeting_words q = false ->
      c = QueryClassificationResult.mk typo 0.9 true).
Proof.
  intros Hin q c. subst c.
  rewrite classifyQuery_documented.
  unfold Documented.classify. cbv zeta. fold q.
  pose proof (typo_found pre w post Hin) as Hsearch. fold q in Hsearch.
  split; intros ->; [reflexivity | now rewrite Hsearch].
Qed.

(** C10 (as the code has it): a query whose trimmed, lower-cased text starts
    with "hi" classifies as a greeting at 0.9, and a query that contains a
    listed misspelling anywhere classifies as a typo at 0.9 unless its
    normalised text starts with a greeting word, in which case it is a
    greeting at 0.9; both skip validation.  With query classification
    enabled, [validate] then returns confidence 1.0 and valid true with the
    query type attached, and no request reaches the judge. *)
Theorem C10_substantive_queries_skipped :
  forall (JSON_parse : string -> option JSON.value)
         (self : AIValidator.t) (input : ValidationInput.t)
         (judge : Judge.request -> Judge.reply),
    let query := ValidationInput.query input in
    let q := JS.toLowerCase (JS.trim query) in
    let c := QueryClassifier.classifyQuery query in
    AIValidator.enabled
      (AIValidatorConfig.enableQueryClassification (AIValidator.config self))
    = true ->
    (JS.startsWith q "hi" = true
     \/ exists pre w post,
          In w QueryClassifier.typo_words /\ query = pre ++ w ++ post) ->
    (JS.startsWith q "hi" = true ->
     c = QueryClassificationResult.mk greeting 0.9 true)
    /\ ((exists pre w post,
           In w QueryClassifier.typo_words /\ query = pre ++ w ++ post) ->
        if RegExp.matchAny QueryClassifier.greeting_words q
        then c = QueryClassificationResult.mk greeting 0.9 true
        else c = QueryClassificationResult.mk typo 0.9 true)
    /\ QueryClassificationResult.skip_validation c = true
    /\ (exists r,
          AIValidator.validate JSON_parse self input = Judge.Ret r
          /\ ValidationResult.confidence r = 1.0%Q
          /\ ValidationResult.valid r = true
          /\ ValidationResult.query_type r
             = Some (QueryClassificationResult.type c)
          /\ ValidationResult.skip_validation r = Some true)
    /\ Judge.calls judge (AIValidator.validate JSON_parse self input) = [].
Proof.
  intros JSON_parse self input judge query q c Henabled Hcase.
  assert (Hhi : JS.startsWith q "hi" = true ->
                c = QueryClassificationResult.mk greeting 0.9 true).
  { intro H. now apply classify_hi_prefix. }
  assert (Htypo : (exists pre w post,
                     In w QueryClassifier.typo_words
                     /\ query = pre ++ w ++ post) ->
                  if RegExp.matchAny QueryClassifier.greeting_words q
                  then c = QueryClassificationResult.mk greeting 0.9 true
                  else c = QueryClassificationResult.mk typo 0.9 true).
  { intros (pre & w & post & Hin & Hq).
    destruct (classify_typo_infix pre w post Hin) as [Hg Ht].
    subst c q. rewrite Hq in *.
    destruct (RegExp.matchAny QueryClassifier.greeting_words
                (JS.toLowerCase (JS.trim (pre ++ w ++ post))));
      [now apply Hg | now apply Ht]. }
  assert (Hskip : QueryClassificationResult.skip_validation c = true).
  { destruct Hcase as [H | H].
    - now rewrite (Hhi H).
    - specialize (Htypo H).
      destruct (RegExp.matchAny QueryClassifier.greeting_words q);
        now rewrite Htypo. }
  destruct (validate_skips JSON_parse self input judge Henabled Hskip)
    as [Hret Hcalls].
  repeat split; try assumption.
  eexists. split; [exact Hret |]. repeat split.
Qed.

(** The query "Did I recieve the package?" with the default configuration. *)
Lemma C10_substantive_queries_skipped_witness :
  QueryClassificationResult.skip_validation
    (QueryClassifier.classifyQuery "Did I recieve the package?") = true
  /\ (exists r,
        AIValidator.validate Sample.parseEmptyObject Sample.validator
          (ValidationInput.mk "Did I recieve the package?" "Yes."
             [Sample.source])
        = Judge.Ret r
        /\ ValidationResult.confidence r = 1.0%Q
        /\ ValidationResult.valid r = true)
  /\ Judge.calls Sample.failingJudge
       (AIValidator.validate Sample.parseEmptyObject Sample.validator
          (ValidationInput.mk "Did I recieve the package?" "Yes."
             [Sample.source])) = [].
Proof.
  assert (Henabled : AIValidator.enabled
            (AIValidatorConfig.enableQueryClassification
               (AIValidator.config Sample.validator)) = true)
    by reflexivity.
  assert (Hcase : JS.startsWith
                    (JS.toLowerCase
                       (JS.trim
                          (ValidationInput.query
                             (ValidationInput.mk "Did I recieve the package?"
                                "Yes." [Sample.source])))) "hi" = true
                  \/ exists pre w post,
                       In w QueryClassifier.typo_words
                       /\ ValidationInput.query
                            (ValidationInput.mk "Did I recieve the package?"
                               "Yes." [Sample.source]) = pre ++ w ++ post).
  { right. exists "Did I ", "recieve", " the package?".
    split; [cbn; tauto | reflexivity]. }
  destruct (C10_substantive_queries_skipped Sample.parseEmptyObject
              Sample.validator
              (ValidationInput.mk "Did I recieve the package?" "Yes."
                 [Sample.source])
              Sample.failingJudge Henabled Hcase)
    as (_ & _ & Hskip & (r & Hret & Hconf & Hvalid & _) & Hcalls).
  split; [exact Hskip |]. split; [| exact Hcalls].
  exists r. repeat split; assumption.
Defined.

(** A query that starts with "hi" and contains "recieve" is a greeting, not
    a typo; and with query classification switched off [validate] runs the
    checks on "history of Rome?" (here without sources: confidence 0.06, not
    valid). *)
Lemma C10_counterexample :
  JS.includes "history: did I recieve the package?" "recieve" = true
  /\ In "recieve" QueryClassifier.typo_words
  /\ QueryClassificationResult.type
       (QueryClassifier.classifyQuery "history: did I recieve the package?")
     = greeting
  /\ QueryClassificationResult.type
       (QueryClassifier.classifyQuery "history: did I recieve the package?")
     <> typo
  /\ (forall JSON_parse : string -> option JSON.value,
        exists r,
          AIValidator.validate JSON_parse
            (Sample.validatorOf (Sample.configWith Absent (Present false)))
            (ValidationInput.mk "history of Rome?" "Rome was founded." [])
          = Judge.Ret r
          /\ ValidationResult.confidence r = 0.06%Q
          /\ ValidationResult.valid r = false
          /\ ValidationResult.skip_validation r = None).
Proof.
  repeat split.
  - cbn; tauto.
  - discriminate.
  - intro JSON_parse. eexists. split; [reflexivity |]. repeat split.
Qed.

(** ** Rounding *)

Section Scores.

Open Scope Q_scope.

Lemma round2_monotone (x y : Q) :
  x <= y -> ConfidenceScorer.round2 x <= ConfidenceScorer.round2 y.
Proof.
  intro H. unfold ConfidenceScorer.round2, ConfidenceScorer.Math_round.
  assert (Hz : (Qfloor (x * 100 + 0.5) <= Qfloor (y * 100 + 0.5))%Z).
  { apply Qfloor_resp_le. lra. }
  rewrite Zle_Qle in Hz.
  apply Qmult_le_compat_r; [exact Hz | easy].
Qed.

(** A number of hundredths is its own rounding. *)
Lemma round2_hundredths (n : Z) :
  ConfidenceScorer.round2 (inject_Z n / 100) == inject_Z n / 100.
Proof.
  unfold ConfidenceScorer.round2, ConfidenceScorer.Math_round.
  assert (E : inject_Z n / 100 * 100 + 0.5 == inject_Z n + 0.5) by field.
  rewrite (Qfloor_comp _ _ E).
  assert (F : Qfloor (inject_Z n + 0.5) = n).
  { pose proof (Qfloor_le (inject_Z n + 0.5)) as Hle.
    pose proof (Qlt_floor (inject_Z n + 0.5)) as Hlt.
    set (m := Qfloor (inject_Z n + 0.5)) in *.
    rewrite inject_Z_plus in Hlt. change (inject_Z 1) with 1 in Hlt.
    assert (H1 : inject_Z m < inject_Z (n + 1)).
    { rewrite inject_Z_plus. change (inject_Z 1) with 1. lra. }
    assert (H2 : inject_Z (n - 1) < inject_Z m).
    { unfold Z.sub. rewrite inject_Z_plus. change (inject_Z (- (1))) with (-1).
      lra. }
    rewrite <- Zlt_Qlt in H1, H2. lia. }
  rewrite F. reflexivity.
Qed.

Lemma round2_range (x : Q) :
  0 <= x <= 1 -> 0 <= ConfidenceScorer.round2 x <= 1.
Proof.
  intros [H0 H1]. split.
  - apply Qle_trans with (ConfidenceScorer.round2 0).
    + vm_compute. discriminate.
    + now apply round2_monotone.
  - apply Qle_trans with (ConfidenceScorer.round2 1).
    + now apply round2_monotone.
    + vm_compute. discriminate.
Qed.

(** ** Source quality *)

Lemma qualityOf_range (source : Source.t) :
  0.5 <= ConfidenceScorer.qualityOf source <= 1.
Proof.
  unfold ConfidenceScorer.qualityOf. cbv zeta.
  destruct (Nat.ltb 100 (String.length (Source.content source)));
    destruct (Nat.ltb 500 (String.length (Source.content source)));
    destruct (Source.title source) as [title |];
    try destruct (Nat.ltb 0 (String.length title));
    split; vm_compute; discriminate.
Qed.

Lemma natQ_S (n : nat) :
  ConfidenceScorer.natQ (S n) == ConfidenceScorer.natQ n + 1.
Proof.
  unfold ConfidenceScorer.natQ. rewrite Nat2Z.inj_succ.
  unfold Z.succ. rewrite inject_Z_plus. reflexivity.
Qed.

Lemma natQ_nonneg (n : nat) : 0 <= ConfidenceScorer.natQ n.
Proof.
  unfold ConfidenceScorer.natQ.
  change 0 with (inject_Z 0). rewrite <- Zle_Qle. lia.
Qed.

Lemma totalQuality_range (sources : list Source.t) (start : Q) :
  start
  <= fold_left
       (fun total source => total + ConfidenceScorer.qualityOf source)
       sources start
  <= start + ConfidenceScorer.natQ (List.length sources).
Proof.
  revert start. induction sources as [| s rest IH]; intro start.
  - cbn [fold_left List.length]. change (ConfidenceScorer.natQ 0) with 0. lra.
  - cbn [fold_left List.length]. rewrite natQ_S.
    specialize (IH (start + ConfidenceScorer.qualityOf s)).
    pose proof (qualityOf_range s). lra.
Qed.

Lemma calculateSourceQuality_range (sources : list Source.t) :
  0 <= ConfidenceScorer.calculateSourceQuality sources <= 1.
Proof.
  unfold ConfidenceScorer.calculateSourceQuality.
  destruct sources as [| s rest]; [lra |]. cbv zeta.
  pose proof (totalQuality_range (s :: rest) 0) as [Hlo Hhi].
  set (total := fold_left _ _ _) in *.
  set (n := ConfidenceScorer.natQ (List.length (s :: rest))) in *.
  assert (Hn : 0 < n).
  { subst n. cbn [List.length]. rewrite natQ_S.
    pose proof (natQ_nonneg (List.length rest)). lra. }
  split.
  - apply Qle_shift_div_l; [exact Hn | lra].
  - apply Qle_shift_div_r; [exact Hn | lra].
Qed.

Lemma weightedScore_range
  (a : AccuracyResult.t) (c : ContextResult.t) (h : HallucinationResult.t)
  (sources : list Source.t) :
  0 <= AccuracyResult.verification_rate a <= 1 ->
  0 <= ContextResult.source_relevance c <= 1 ->
  0 <= HallucinationResult.risk h <= 1 ->
  0 <= ConfidenceScorer.weightedScore a c h sources <= 1.
Proof.
  intros Ha Hc Hh.
  pose proof (calculateSourceQuality_range sources) as Hq.
  unfold ConfidenceScorer.weightedScore,
    ConfidenceScorer.weights.accuracy, ConfidenceScorer.weights.context,
    ConfidenceScorer.weights.hallucination,
    ConfidenceScorer.weights.sourceQuality.
  cbv zeta.
  set (q := ConfidenceScorer.calculateSourceQuality sources) in *.
  lra.
Qed.


(** ** Ranges of the scores *)

(** C4 (as the code has it): the scorer clamps nothing it is given.  When
    the verification rate, the source relevance and the hallucination risk
    it receives lie in [0,1], the confidence score and the four components
    of the breakdown lie in [0,1]; the source quality does so for every list
    of sources. *)
Theorem C4_scores_in_unit_interval :
  forall (a : AccuracyResult.t) (c : ContextResult.t)
         (h : HallucinationResult.t) (sources : list Source.t),
    inUnit (AccuracyResult.verification_rate a) ->
    inUnit (ContextResult.source_relevance c) ->
    inUnit (HallucinationResult.risk h) ->
    let r := ConfidenceScorer.calculateConfidence a c h sources in
    inUnit (ConfidenceResult.confidence_score r)
    /\ inUnit (Breakdown.accuracy_score (ConfidenceResult.breakdown r))
    /\ inUnit (Breakdown.context_score (ConfidenceResult.breakdown r))
    /\ inUnit (Breakdown.hallucination_score (ConfidenceResult.breakdown r))
    /\ inUnit (Breakdown.source_quality (ConfidenceResult.breakdown r)).
Proof.
  intros a c h sources Ha Hc Hh r. subst r. unfold inUnit in *.
  unfold ConfidenceScorer.calculateConfidence. cbv zeta.
  cbn [ConfidenceResult.confidence_score ConfidenceResult.breakdown
       Breakdown.accuracy_score Breakdown.context_score
       Breakdown.hallucination_score Breakdown.source_quality].
  split; [apply round2_range; now apply weightedScore_range |].
  split; [now apply round2_range |].
  split; [now apply round2_range |].
  split; [apply round2_range; lra |].
  apply round2_range. apply calculateSourceQuality_range.
Qed.

(** Rate 0.9, relevance 0.75, risk 0.1 and one titled source. *)
Lemma C4_scores_in_unit_interval_witness :
  let r := ConfidenceScorer.calculateConfidence
             (AccuracyResult.mk true 0.9 None)
             (ContextResult.mk 0.75 1 true)
             (HallucinationResult.mk false 0.1 (Some []))
             [Sample.source] in
  inUnit (ConfidenceResult.confidence_score r)
  /\ inUnit (Breakdown.accuracy_score (ConfidenceResult.breakdown r))
  /\ inUnit (Breakdown.context_score (ConfidenceResult.breakdown r))
  /\ inUnit (Breakdown.hallucination_score (ConfidenceResult.breakdown r))
  /\ inUnit (Breakdown.source_quality (ConfidenceResult.breakdown r)).
Proof.
  apply (C4_scores_in_unit_interval
           (AccuracyResult.mk true 0.9 None)
           (ContextResult.mk 0.75 1 true)
           (HallucinationResult.mk false 0.1 (Some []))
           [Sample.source]);
    unfold inUnit; cbn; lra.
Defined.

(** A verification rate of 1.5 and a risk of 1.5 give an accuracy score of
    1.5 and a hallucination score of -0.5; a verification rate of 3 gives a
    confidence score of 1.6. *)
Lemma C4_counterexample :
  let r1 := ConfidenceScorer.calculateConfidence
              (AccuracyResult.mk true 1.5 None) (ContextResult.mk 1 1 true)
              (HallucinationResult.mk true 1.5 (Some [])) [] in
  let r2 := ConfidenceScorer.calculateConfidence
              (AccuracyResult.mk true 3 None) (ContextResult.mk 1 1 true)
              (HallucinationResult.mk false 0 (Some [])) [] in
  Breakdown.accuracy_score (ConfidenceResult.breakdown r1) == 1.5
  /\ Breakdown.hallucination_score (ConfidenceResult.breakdown r1) == -0.5
  /\ ConfidenceResult.confidence_score r2 == 1.6
  /\ ~ inUnit (Breakdown.accuracy_score (ConfidenceResult.breakdown r1))
  /\ ~ inUnit (Breakdown.hallucination_score (ConfidenceResult.breakdown r1))
  /\ ~ inUnit (ConfidenceResult.confidence_score r2).
Proof.
  cbv zeta. unfold inUnit.
  split; [reflexivity |]. split; [reflexivity |]. split; [reflexivity |].
  split; [| split]; intros [H0 H1]; vm_compute in H0, H1;
    try (apply H0; reflexivity); apply H1; reflexivity.
Qed.

End Scores.

(** ** Levels in binary64 *)

Section Binary64Levels.

Open Scope float_scope.




(** Rate 0.86, relevance 1, risk 0.17, no sources: the products add up to
    0.7999999999999999, so the level is medium, and the returned score is
    0.8.  With the risk 0.72 and one short titled source the sum is
    0.6949999999999998 and the returned score 0.69. *)
Example binary64_sums :
  let r1 := Binary64.calculateConfidence
              (Binary64.AccuracyResult.mk true 0.86 None)
              (Binary64.ContextResult.mk 1 1 true)
              (Binary64.HallucinationResult.mk false 0.17 None) [] in
  let r2 := Binary64.calculateConfidence
              (Binary64.AccuracyResult.mk true 0.86 None)
              (Binary64.ContextResult.mk 1 1 true)
              (Binary64.HallucinationResult.mk false 0.72 None)
              [Source.mk "short" (Some "title")] in
  Binary64.ConfidenceResult.level r1 = medium
  /\ Binary64.ConfidenceResult.confidence_score r1 = 0.8
  /\ Binary64.ConfidenceResult.level r2 = medium
  /\ Binary64.ConfidenceResult.confidence_score r2 = 0.69.
Proof. cbv zeta. repeat split; vm_compute; reflexivity. Qed.

(** [Math.round] on halves, on the largest number below one half and on
    negative numbers. *)
Example Math_round_values :
  List.map Binary64.Math_round
    [0.5; 0.49999999999999994; 1.5; 2.5; -0.5; -1.5; -2.5; 79.5; nan]
  = [1; 0; 2; 3; -0; -1; -2; 80; nan].
Proof. vm_compute. reflexivity. Qed.

End Binary64Levels.

(** ** The threshold *)

Lemma result_bind {A B : Type} (judge : Judge.request -> Judge.reply)
  (p : Judge.prog A) (f : A -> Judge.prog B) :
  Judge.result judge (Judge.bind p f) =
  match Judge.result judge p with
  | Judge.Returned a => Judge.result judge (f a)
  | Judge.Threw error => Judge.Threw error
  | Judge.Untyped => Judge.Untyped
  end.
Proof.
  unfold Judge.result. rewrite run_bind.
  destruct (Judge.run judge p) as [[a | error | ] calls]; cbn; try reflexivity.
  destruct (Judge.run judge (f a)); reflexivity.
Qed.

Lemma result_tryCatch {A : Type} (judge : Judge.request -> Judge.reply)
  (p : Judge.prog A) (handler : Judge.thrown -> Judge.prog A) :
  Judge.result judge (Judge.tryCatch p handler) =
  match Judge.result judge p with
  | Judge.Threw error => Judge.result judge (handler error)
  | other => other
  end.
Proof.
  unfold Judge.result. rewrite run_tryCatch.
  destruct (Judge.run judge p) as [[a | error | ] calls]; cbn; try reflexivity.
  destruct (Judge.run judge (handler error)); reflexivity.
Qed.

(** Case analysis on the outcome of the first program run in the goal. *)
Ltac case_result E :=
  match goal with
  | |- context [Judge.result ?judge ?p] =>
      destruct (Judge.result judge p) as [? | ? | ] eqn:E
  end.

(** Neither checker rejects: whatever the judge does, the outcome is a
    result or lies outside the typed model. *)
Lemma checkAccuracy_never_throws
  (JSON_parse : string -> option JSON.value) (self : AccuracyChecker.t)
  (response : string) (sources : list Source.t) (llmProvider : LLMProvider)
  (model : option string) (judge : Judge.request -> Judge.reply)
  (error : Judge.thrown) :
  Judge.result judge
    (AccuracyChecker.checkAccuracy JSON_parse self response sources
       llmProvider model) <> Judge.Threw error.
Proof.
  unfold AccuracyChecker.checkAccuracy.
  destruct sources as [| s rest]; [discriminate |].
  cbv zeta. rewrite result_tryCatch.
  case_result E; discriminate.
Qed.

Lemma detectHallucination_never_throws
  (JSON_parse : string -> option JSON.value) (self : HallucinationDetector.t)
  (response : string) (sources : list Source.t) (llmProvider : LLMProvider)
  (model : option string) (judge : Judge.request -> Judge.reply)
  (error : Judge.thrown) :
  Judge.result judge
    (HallucinationDetector.detectHallucination JSON_parse self response
       sources llmProvider model) <> Judge.Threw error.
Proof.
  unfold HallucinationDetector.detectHallucination.
  destruct sources as [| s rest]; [discriminate |].
  cbv zeta. rewrite result_tryCatch.
  case_result E; discriminate.
Qed.

(** What a run of the checks returns: the flag compares the rounded score
    with [confidenceThreshold || 0.7]. *)
Lemma runChecks_valid
  (JSON_parse : string -> option JSON.value) (self : AIValidator.t)
  (input : ValidationInput.t) (judge : Judge.request -> Judge.reply) :
  match Judge.result judge (AIValidator.runChecks JSON_parse self input) with
  | Judge.Returned r =>
      ValidationResult.valid r
      = Qle_bool
          (AIValidator.thresholdOr
             (AIValidatorConfig.confidenceThreshold (AIValidator.config self))
             0.7)
          (ValidationResult.confidence r)
      /\ ValidationResult.skip_validation r = None
  | Judge.Threw _ => False
  | Judge.Untyped => True
  end.
Proof.
  unfold AIValidator.runChecks. cbv zeta.
  rewrite result_bind. case_result Ea.
  - rewrite result_bind. case_result Eh.
    + cbn. split; reflexivity.
    + destruct (AIValidator.enabled
                  (AIValidatorConfig.enableHallucinationDetection
                     (AIValidator.config self))).
      * now apply detectHallucination_never_throws in Eh.
      * discriminate Eh.
    + exact I.
  - destruct (AIValidator.enabled
                (AIValidatorConfig.enableAccuracyCheck
                   (AIValidator.config self))).
    + now apply checkAccuracy_never_throws in Ea.
    + discriminate Ea.
  - exact I.
Qed.

(** For a threshold other than 0 the flag of a non-skipped run is
    [confidence >= threshold]. *)
Lemma validate_threshold
  (JSON_parse : string -> option JSON.value) (self : AIValidator.t)
  (input : ValidationInput.t) (judge : Judge.request -> Judge.reply)
  (t : Q) (r : ValidationResult.t) :
  AIValidatorConfig.confidenceThreshold (AIValidator.config self) = Present t ->
  Qeq_bool t 0 = false ->
  Judge.result judge (AIValidator.validate JSON_parse self input)
  = Judge.Returned r ->
  ValidationResult.skip_validation r = None ->
  ValidationResult.valid r = Qle_bool t (ValidationResult.confidence r).
Proof.
  intros Ht Hnz Hr Hskip.
  pose proof (runChecks_valid JSON_parse self input judge) as Hrun.
  unfold AIValidator.validate in Hr. rewrite result_tryCatch in Hr.
  rewrite Ht in Hrun. cbn [AIValidator.thresholdOr] in Hrun.
  rewrite Hnz in Hrun.
  destruct (AIValidator.enabled _) in Hr.
  - cbv zeta in Hr.
    destruct (QueryClassificationResult.skip_validation _) in Hr.
    + cbn in Hr. injection Hr as <-. discriminate Hskip.
    + destruct (Judge.result judge (AIValidator.runChecks _ _ _));
        [injection Hr as <-; tauto | contradiction | discriminate].
  - destruct (Judge.result judge (AIValidator.runChecks _ _ _));
      [injection Hr as <-; tauto | contradiction | discriminate].
Qed.

(** C5: a configured threshold of 0 is replaced by 0.7.  The validator built
    with [confidenceThreshold: 0] runs the checks on a question without
    sources, gets the confidence 0.06, which is at least 0, and reports
    [valid = false]. *)
Theorem C5_zero_threshold_replaced :
  forall JSON_parse : string -> option JSON.value,
    let self := Sample.validatorOf (Sample.configWith (Present 0%Q) Absent) in
    let input :=
      ValidationInput.mk "What is the boiling point of water?"
        "100 degrees Celsius" [] in
    AIValidatorConfig.confidenceThreshold (AIValidator.config self)
    = Present 0%Q
    /\ exists r,
         AIValidator.validate JSON_parse self input = Judge.Ret r
         /\ ValidationResult.skip_validation r = None
         /\ ValidationResult.confidence r = 0.06%Q
         /\ Qle_bool 0 (ValidationResult.confidence r) = true
         /\ ValidationResult.valid r = false.
Proof.
  intro JSON_parse. cbv zeta. split; [reflexivity |].
  eexists. split; [reflexivity |]. repeat split.
Qed.

(** ** A judge that fails *)

(** C6: with non-empty sources, when the judge rejects the request the
    failure is caught: the accuracy check returns [verified = false],
    [verification_rate = 0] and the reason "accuracy_check_failed: "
    followed by the description of the failure (the message of the error
    whenever the judge was invoked), and the hallucination check returns
    [detected = true], [risk = 0.9] and the part
    "hallucination_check_failed"; neither throws. *)
Theorem C6_judge_failure_caught :
  forall (JSON_parse : string -> option JSON.value)
         (accuracyChecker : AccuracyChecker.t)
         (detector : HallucinationDetector.t)
         (response : string) (sources : list Source.t)
         (llmProvider : LLMProvider) (model : option string)
         (judge : Judge.request -> Judge.reply) (error : Judge.thrown),
    sources <> [] ->
    (forall req, judge req = Judge.Rejected error) ->
    let accuracy :=
      AccuracyChecker.checkAccuracy JSON_parse accuracyChecker response
        sources llmProvider model in
    let hallucination :=
      HallucinationDetector.detectHallucination JSON_parse detector response
        sources llmProvider model in
    (exists description,
       Judge.result judge accuracy
       = Judge.Returned
           (AccuracyResult.mk false 0
              (Some ("accuracy_check_failed: " ++ description)))
       /\ (Judge.calls judge accuracy <> [] ->
           description = Judge.messageOf error))
    /\ Judge.result judge hallucination
       = Judge.Returned
           (HallucinationResult.mk true 0.9
              (Some ["hallucination_check_failed"])).
Proof.
  intros JSON_parse accuracyChecker detector response sources llmProvider
    model judge error Hsources Hjudge accuracy hallucination.
  subst accuracy hallucination.
  destruct sources as [| s rest]; [contradiction |].
  split.
  - unfold AccuracyChecker.checkAccuracy. cbv zeta.
    destruct llmProvider;
      [destruct (AccuracyChecker.openaiClient accuracyChecker)
      |destruct (AccuracyChecker.claudeClient accuracyChecker)].
    + exists (Judge.messageOf error).
      unfold Judge.result, Judge.calls. cbn. rewrite Hjudge. cbn.
      split; reflexivity.
    + eexists. unfold Judge.result, Judge.calls. cbn.
      split; [reflexivity | intro H; now contradiction H].
    + exists (Judge.messageOf error).
      unfold Judge.result, Judge.calls.
      destruct (AccuracyChecker.openaiClient accuracyChecker);
        cbn; rewrite Hjudge; cbn; split; reflexivity.
    + eexists. unfold Judge.result, Judge.calls.
      destruct (AccuracyChecker.openaiClient accuracyChecker);
        cbn; (split; [reflexivity | intro H; now contradiction H]).
  - unfold HallucinationDetector.detectHallucination. cbv zeta.
    unfold Judge.result.
    destruct llmProvider;
      destruct (HallucinationDetector.openaiClient detector);
      destruct (HallucinationDetector.claudeClient detector);
      cbn; rewrite ?Hjudge; cbn; reflexivity.
Qed.

(** The judge times out; the validator holds an OpenAI client. *)
Lemma C6_judge_failure_caught_witness :
  Judge.result Sample.failingJudge
    (AccuracyChecker.checkAccuracy Sample.parseEmptyObject
       (AIValidator.accuracyChecker Sample.validator)
       "GPT is a model" [Sample.source] openai None)
  = Judge.Returned
      (AccuracyResult.mk false 0
         (Some "accuracy_check_failed: network timeout"))
  /\ Judge.result Sample.failingJudge
       (HallucinationDetector.detectHallucination Sample.parseEmptyObject
          (AIValidator.hallucinationDetector Sample.validator)
          "GPT is a model" [Sample.source] openai None)
     = Judge.Returned
         (HallucinationResult.mk true 0.9
            (Some ["hallucination_check_failed"])).
Proof.
  assert (Hsources : [Sample.source] <> []) by discriminate.
  assert (Hjudge : forall req,
            Sample.failingJudge req
            = Judge.Rejected (Judge.ErrorObject "network timeout"))
    by reflexivity.
  destruct (C6_judge_failure_caught Sample.parseEmptyObject
              (AIValidator.accuracyChecker Sample.validator)
              (AIValidator.hallucinationDetector Sample.validator)
              "GPT is a model" [Sample.source] openai None
              Sample.failingJudge (Judge.ErrorObject "network timeout")
              Hsources Hjudge)
    as [(description & Hacc & Hdescr) Hhall].
  split.
  - rewrite Hacc, Hdescr; [reflexivity | discriminate].
  - exact Hhall.
Defined.

(** ** Judge output that does not parse *)

(** The lemmas on the parser; what the cleaning does to a fenced text, and
    the results of the checks, follow the lemmas on code fences below. *)

(** When the text does not parse as it is, the parser is tried again on the
    text without its code fences. *)
Lemma parseLLMResponse_retry
  (JSON_parse : string -> option JSON.value) (content : string) :
  JSON_parse content = None ->
  AccuracyChecker.parseLLMResponse JSON_parse content
  = match JSON_parse (AccuracyChecker.cleaned content) with
    | Some v => v
    | None => JSON.Object []
    end
  /\ HallucinationDetector.parseLLMResponse JSON_parse content
     = match JSON_parse (HallucinationDetector.cleaned content) with
       | Some v => v
       | None => JSON.Object []
       end.
Proof.
  intro H.
  unfold AccuracyChecker.parseLLMResponse,
    HallucinationDetector.parseLLMResponse.
  rewrite H. split; reflexivity.
Qed.

Lemma cleaned_fenced :
  AccuracyChecker.cleaned ("```json" ++ lineFeed ++ "{}" ++ lineFeed ++ "```")
  = "{}"
  /\ HallucinationDetector.cleaned ("  ```" ++ lineFeed ++ "[1, 2]  ```  ")
     = "[1, 2]".
Proof. split; reflexivity. Qed.

(** The empty object gives the default results. *)
Lemma toResult_empty_object :
  AccuracyChecker.toResult (JSON.Object [])
  = Judge.Ret (AccuracyResult.mk false 0 None)
  /\ HallucinationDetector.toResult (JSON.Object [])
     = Judge.Ret (HallucinationResult.mk false 0 (Some [])).
Proof. split; reflexivity. Qed.

(** ** The context-relevance estimate *)

Lemma arrayIncludes_occursIn (pool : list string) (w : string) :
  JS.arrayIncludes pool w = Documented.occursIn pool w.
Proof.
  unfold JS.arrayIncludes, Documented.occursIn.
  destruct (in_dec string_dec w pool) as [Hin | Hout].
  - apply existsb_exists. exists w. split; [assumption | apply String.eqb_refl].
  - apply not_true_is_false. intro H. apply existsb_exists in H.
    destruct H as (x & Hx & E). apply String.eqb_eq in E. subst x.
    contradiction.
Qed.

(** The counting loop counts the occurrences. *)
Lemma countIncluded_from (words pool : list string) (start : nat) :
  fold_left
    (fun count word => if JS.arrayIncludes pool word then S count else count)
    words start
  = (start + Documented.occurrences words pool)%nat.
Proof.
  unfold Documented.occurrences.
  revert start. induction words as [| w rest IH]; intro start.
  - cbn. lia.
  - cbn [fold_left List.filter]. rewrite IH, arrayIncludes_occursIn.
    destruct (Documented.occursIn pool w); cbn [List.length]; lia.
Qed.

Lemma countIncluded_occurrences (words pool : list string) :
  AIValidator.countIncluded words pool = Documented.occurrences words pool.
Proof.
  unfold AIValidator.countIncluded. now rewrite countIncluded_from.
Qed.

Lemma occurrences_le (words pool : list string) :
  (Documented.occurrences words pool <= List.length words)%nat.
Proof.
  unfold Documented.occurrences. apply filter_length_le.
Qed.

(** A word longer than [n] occurs among the tokens longer than [n] exactly
    when it occurs among all the tokens. *)
Lemma occursIn_filter (n : nat) (pool : list string) (w : string) :
  AIValidator.longerThan n w = true ->
  Documented.occursIn (List.filter (AIValidator.longerThan n) pool) w
  = Documented.occursIn pool w.
Proof.
  intro Hw. unfold Documented.occursIn.
  destruct (in_dec string_dec w (List.filter (AIValidator.longerThan n) pool))
    as [Hin | Hout];
    destruct (in_dec string_dec w pool) as [Hin' | Hout'];
    try reflexivity.
  - apply filter_In in Hin. tauto.
  - exfalso. apply Hout. apply filter_In. tauto.
Qed.

Lemma occurrences_filter (n : nat) (words pool : list string) :
  Documented.occurrences (List.filter (AIValidator.longerThan n) words)
    (List.filter (AIValidator.longerThan n) pool)
  = Documented.occurrences (List.filter (AIValidator.longerThan n) words)
      pool.
Proof.
  unfold Documented.occurrences. f_equal.
  apply filter_ext_in. intros w Hw. apply filter_In in Hw.
  apply occursIn_filter. tauto.
Qed.

Section Context.

Open Scope Q_scope.

Lemma ratio_range (count total : nat) :
  (0 < total)%nat -> (count <= total)%nat ->
  0 <= AIValidator.ratio count total <= 1.
Proof.
  intros Ht Hc. unfold AIValidator.ratio, ConfidenceScorer.natQ.
  assert (H0 : 0 < inject_Z (Z.of_nat total)).
  { change 0 with (inject_Z 0). rewrite <- Zlt_Qlt. lia. }
  assert (H1 : 0 <= inject_Z (Z.of_nat count)).
  { change 0 with (inject_Z 0). rewrite <- Zle_Qle. lia. }
  assert (H2 : inject_Z (Z.of_nat count) <= inject_Z (Z.of_nat total)).
  { rewrite <- Zle_Qle. lia. }
  split.
  - apply Qle_shift_div_l; [exact H0 | lra].
  - apply Qle_shift_div_r; [exact H0 | lra].
Qed.

Lemma Qle_bool_Qeq (x y z : Q) : x == y -> Qle_bool x z = Qle_bool y z.
Proof.
  intro E. destruct (Qle_bool y z) eqn:Hy.
  - apply Qle_bool_iff. apply Qle_bool_iff in Hy. lra.
  - apply not_true_is_false. intro Hx. apply Qle_bool_iff in Hx.
    assert (Qle_bool y z = true) by (apply Qle_bool_iff; lra). congruence.
Qed.

(** The estimate on non-empty sources, with the loops read as counts. *)
Lemma calculateContextRelevance_documented
  (query response : string) (sources : list Source.t) :
  sources <> [] ->
  let r := AIValidator.calculateContextRelevance query response sources in
  let d := Documented.contextRelevance query response sources in
  ContextResult.source_relevance r == ContextResult.source_relevance d
  /\ ContextResult.source_usage_rate r == ContextResult.source_usage_rate d
  /\ ContextResult.valid r = ContextResult.valid d.
Proof.
  intros Hsources r d. subst r d.
  destruct sources as [| s rest]; [contradiction |].
  unfold AIValidator.calculateContextRelevance, Documented.contextRelevance,
    Documented.source_relevance, Documented.source_usage_rate,
    Documented.qualifying, Documented.sourceTokens, Documented.tokens.
  cbv zeta.
  change (fun w : string => Nat.ltb 3 (String.length w))
    with (AIValidator.longerThan 3).
  change (fun w : string => Nat.ltb 2 (String.length w))
    with (AIValidator.longerThan 2).
  set (responseWords :=
         List.filter (AIValidator.longerThan 3)
           (JS.splitWhitespace
              (JS.stripPunctuation (JS.toLowerCase response)))).
  set (queryWords :=
         List.filter (AIValidator.longerThan 2)
           (JS.splitWhitespace (JS.stripPunctuation (JS.toLowerCase query)))).
  set (sourceAll := JS.splitWhitespace (JS.join " " _)).
  rewrite !countIncluded_occurrences.
  subst responseWords. rewrite occurrences_filter.
  set (responseWords :=
         List.filter (AIValidator.longerThan 3)
           (JS.splitWhitespace
              (JS.stripPunctuation (JS.toLowerCase response)))).
  cbn [ContextResult.source_relevance ContextResult.source_usage_rate
       ContextResult.valid].
  assert (Hrel :
    Qmin (if Nat.ltb 0 (List.length responseWords)
          then AIValidator.ratio
                 (Documented.occurrences responseWords sourceAll)
                 (List.length responseWords)
          else 0.5) 1.0
    == match responseWords with
       | [] => 0.5
       | _ :: _ =>
           Qmin (Documented.fraction
                   (Documented.occurrences responseWords sourceAll)
                   (List.length responseWords)) 1
       end
    /\ Qmin (if Nat.ltb 0 (List.length responseWords)
             then AIValidator.ratio
                    (Documented.occurrences responseWords sourceAll)
                    (List.length responseWords)
             else 0.5) 1.0
       == (if Nat.ltb 0 (List.length responseWords)
           then AIValidator.ratio
                  (Documented.occurrences responseWords sourceAll)
                  (List.length responseWords)
           else 0.5)).
  { destruct responseWords as [| w ws] eqn:E.
    - cbn [List.length Nat.ltb Nat.leb]. split; reflexivity.
    - rewrite <- E.
      assert (Hlen : (0 < List.length responseWords)%nat)
        by (rewrite E; cbn; lia).
      pose proof (occurrences_le responseWords sourceAll) as Hle.
      pose proof (ratio_range _ _ Hlen Hle) as [_ Hr1].
      apply Nat.ltb_lt in Hlen. rewrite Hlen.
      change (Documented.fraction
                (Documented.occurrences responseWords sourceAll)
                (List.length responseWords))
        with (AIValidator.ratio
                (Documented.occurrences responseWords sourceAll)
                (List.length responseWords)).
      set (x := AIValidator.ratio _ _) in *.
      assert (Q1 : Qmin x 1.0 == x) by (apply Q.min_l; lra).
      assert (Q2 : Qmin x 1 == x) by (apply Q.min_l; lra).
      split; [now rewrite Q1, Q2 | exact Q1]. }
  destruct Hrel as [Hrel Hmin].
  split; [exact Hrel |]. split.
  - destruct queryWords as [| w ws] eqn:E; reflexivity.
  - f_equal. rewrite <- (Qle_bool_Qeq _ _ 0.3 Hmin).
    apply Qle_bool_Qeq. exact Hrel.
Qed.

(** C8: with non-empty sources the estimate is the documented function of
    its three arguments.  [source_relevance] is the number of response words
    (tokens of the lower-cased, punctuation-stripped response longer than 3
    characters, counted per occurrence) that occur among the source tokens,
    over the number of response words, at most 1, and 0.5 without response
    words; [source_usage_rate] is the share of the query words (longer than
    2 characters) that occur in the response word set, and 0.5 without query
    words; [valid] is [source_relevance > 0.3]. *)
Theorem C8_context_relevance :
  forall (query response : string) (sources : list Source.t),
    sources <> [] ->
    let r := AIValidator.calculateContextRelevance query response sources in
    ContextResult.source_relevance r
    == Documented.source_relevance response sources
    /\ ContextResult.source_usage_rate r
       == Documented.source_usage_rate query response
    /\ ContextResult.valid r
       = negb (Qle_bool (ContextResult.source_relevance r) 0.3)
    /\ ContextResult.valid r
       = negb (Qle_bool (Documented.source_relevance response sources) 0.3)
    /\ inUnit (ContextResult.source_relevance r).
Proof.
  intros query response sources Hsources r.
  destruct (calculateContextRelevance_documented query response sources
              Hsources) as (Hrel & Huse & Hvalid).
  fold r in Hrel, Huse, Hvalid.
  cbn [Documented.contextRelevance ContextResult.source_relevance
       ContextResult.source_usage_rate ContextResult.valid] in Hrel, Huse,
    Hvalid.
  split; [exact Hrel |]. split; [exact Huse |].
  split; [| split; [exact Hvalid |]].
  - rewrite Hvalid. f_equal. symmetry. now apply Qle_bool_Qeq.
  - unfold inUnit. rewrite Hrel.
    unfold Documented.source_relevance. cbv zeta.
    destruct (Documented.qualifying 3 response) as [| w ws] eqn:E.
    + lra.
    + rewrite <- E.
      assert (Hlen : (0 < List.length (Documented.qualifying 3 response))%nat)
        by (rewrite E; cbn; lia).
      pose proof (occurrences_le (Documented.qualifying 3 response)
                    (Documented.sourceTokens sources)) as Hle.
      pose proof (ratio_range _ _ Hlen Hle) as [Hr0 Hr1].
      change (AIValidator.ratio ?a ?b) with (Documented.fraction a b)
        in Hr0, Hr1.
      set (x := Documented.fraction _ _) in *.
      split.
      * apply Q.min_glb; lra.
      * apply Q.le_min_r.
Qed.

End Context.

(** The query "What is GPT?" answered from one source. *)
Lemma C8_context_relevance_witness :
  let r := AIValidator.calculateContextRelevance "What is GPT?"
             "GPT is a language model" [Sample.source] in
  (ContextResult.source_relevance r
   == Documented.source_relevance "GPT is a language model" [Sample.source])%Q
  /\ (ContextResult.source_usage_rate r
      == Documented.source_usage_rate "What is GPT?"
           "GPT is a language model")%Q
  /\ ContextResult.valid r
     = negb (Qle_bool (ContextResult.source_relevance r) 0.3)
  /\ ContextResult.valid r
     = negb (Qle_bool
               (Documented.source_relevance "GPT is a language model"
                  [Sample.source]) 0.3)
  /\ inUnit (ContextResult.source_relevance r).
Proof.
  apply (C8_context_relevance "What is GPT?" "GPT is a language model"
           [Sample.source]).
  discriminate.
Defined.

(** ** Examples *)

Example classify_hi :
  QueryClassifier.classifyQuery "hi"
  = QueryClassificationResult.mk greeting 0.9 true.
Proof. reflexivity. Qed.

Example classify_boiling_point :
  QueryClassifier.classifyQuery "What is the boiling point of water?"
  = QueryClassificationResult.mk question 0.8 false.
Proof. reflexivity. Qed.

Example classify_history_of_rome :
  QueryClassifier.classifyQuery "history of Rome?"
  = QueryClassificationResult.mk greeting 0.9 true.
Proof. reflexivity. Qed.

Example classify_however :
  QueryClassifier.classifyQuery "however it turns out in the end"
  = QueryClassificationResult.mk question 0.8 false.
Proof. reflexivity. Qed.

Example strings :
  JS.splitWhitespace (" a  b ") = [""; "a"; "b"; ""]
  /\ JS.splitWhitespace "" = [""]
  /\ JS.trim "  Hi there  " = "Hi there"
  /\ JS.stripPunctuation "it's GPT-4, really!" = "its GPT4 really"
  /\ JS.removeWithSpaces "```" "x```  ``` y" = "xy".
Proof. repeat split; reflexivity. Qed.

(** The judge's verification rate reaches the result as it is. *)
Example judge_rate_not_clamped :
  AccuracyChecker.toResult
    (JSON.Object [("verified", JSON.Bool true);
                  ("verification_rate", JSON.Number 1.5);
                  ("reason", JSON.Str "sure")])
  = Judge.Ret (AccuracyResult.mk true 1.5 (Some "sure")).
Proof. reflexivity. Qed.

(** A three-letter query word is never found in the response word set, whose
    words have more than three letters. *)
Example usage_rate_gpt :
  AIValidator.calculateContextRelevance "What is GPT?"
    "GPT is a language model" [Sample.source]
  = ContextResult.mk (2 # 2) (0 # 2) true.
Proof. reflexivity. Qed.

(** A failure after the judge has answered is caught as well: the text
    "null" parses to [null], reading its [verified] property throws, and the
    accuracy check returns the pessimistic result. *)
Example null_answer_is_caught
  (JSON_parse : string -> option JSON.value) :
  JSON_parse "null" = Some JSON.Null ->
  Judge.result (Sample.textJudge "null")
    (AccuracyChecker.checkAccuracy JSON_parse
       (AIValidator.accuracyChecker Sample.validator)
       "GPT is a model" [Sample.source] openai None)
  = Judge.Returned
      (AccuracyResult.mk false 0
         (Some ("accuracy_check_failed: "
                ++ "Cannot read properties of null (reading 'verified')"))).
Proof.
  intro H. unfold Judge.result. cbn.
  unfold AccuracyChecker.parseLLMResponse. rewrite H. reflexivity.
Qed.

(* ================================================================== *)
(** * Further properties of the code *)
(* ================================================================== *)

(** ** The constructor *)

Lemma client_keyGiven (apiKey : option string) :
  AccuracyChecker.client apiKey <> None <-> AIValidator.keyGiven apiKey = true.
Proof.
  unfold AccuracyChecker.client, AIValidator.keyGiven.
  destruct apiKey as [[| c k] |]; cbn; split; congruence.
Qed.

(** X1: the constructor succeeds exactly when the API key of the configured
    provider is a non-empty string.  The validator it builds carries the
    configuration with the defaults filled in and both checkers hold a client
    for the configured provider.  When it fails, the error is "At least one
    API key ..." if neither key is given and the provider's own message
    otherwise. *)
Theorem X1_constructor :
  forall config : AIValidatorConfig.t,
    match AIValidator.new config with
    | inr self =>
        AIValidator.keyGiven (Expected.providerKey config) = true
        /\ AIValidator.config self = AIValidator.withDefaults config
        /\ match AIValidatorConfig.llmProvider config with
           | openai =>
               AccuracyChecker.openaiClient (AIValidator.accuracyChecker self)
               <> None
               /\ HallucinationDetector.openaiClient
                    (AIValidator.hallucinationDetector self) <> None
           | claude =>
               AccuracyChecker.claudeClient (AIValidator.accuracyChecker self)
               <> None
               /\ HallucinationDetector.claudeClient
                    (AIValidator.hallucinationDetector self) <> None
           end
    | inl error =>
        AIValidator.keyGiven (Expected.providerKey config) = false
        /\ error
           = Judge.ErrorObject
               (if negb (AIValidator.keyGiven
                           (AIValidatorConfig.openaiApiKey config))
                   && negb (AIValidator.keyGiven
                              (AIValidatorConfig.claudeApiKey config))
                then "At least one API key (OpenAI or Claude) must be provided"
                else match AIValidatorConfig.llmProvider config with
                     | openai =>
                         "OpenAI API key is required when using OpenAI provider"
                     | claude =>
                         "Claude API key is required when using Claude provider"
                     end)
    end.
Proof.
  intros [okey ckey provider threshold qc ac hd om cm].
  unfold AIValidator.new, AIValidator.validateConfig, Expected.providerKey.
  cbn [AIValidator.withDefaults AIValidatorConfig.openaiApiKey
       AIValidatorConfig.claudeApiKey AIValidatorConfig.llmProvider].
  destruct provider;
    destruct okey as [[| c1 k1] |]; destruct ckey as [[| c2 k2] |];
    cbn; repeat split; congruence.
Qed.

(** ** The shape of [validate] *)

Lemma runChecks_stages
  (JSON_parse : string -> option JSON.value) (self : AIValidator.t)
  (input : ValidationInput.t) :
  AIValidator.runChecks JSON_parse self input
  = (a <- Expected.accuracyStage JSON_parse self input ;;
     h <- Expected.hallucinationStage JSON_parse self input ;;
     Judge.Ret (Expected.assemble self input a h)).
Proof. reflexivity. Qed.

Lemma validate_cases
  (JSON_parse : string -> option JSON.value) (self : AIValidator.t)
  (input : ValidationInput.t) :
  AIValidator.validate JSON_parse self input
  = if Expected.notSkipped self input
    then Judge.tryCatch (AIValidator.runChecks JSON_parse self input)
           (fun error => Judge.Ret (AIValidator.validationFailed error))
    else Judge.Ret
           (AIValidator.skipped
              (QueryClassificationResult.type
                 (QueryClassifier.classifyQuery
                    (ValidationInput.query input)))).
Proof.
  unfold AIValidator.validate, Expected.notSkipped.
  destruct (AIValidator.enabled _); cbn [andb negb]; [| reflexivity].
  cbv zeta. destruct (QueryClassificationResult.skip_validation _);
    reflexivity.
Qed.

Lemma accuracyStage_never_throws
  (JSON_parse : string -> option JSON.value) (self : AIValidator.t)
  (input : ValidationInput.t) (judge : Judge.request -> Judge.reply)
  (error : Judge.thrown) :
  Judge.result judge (Expected.accuracyStage JSON_parse self input)
  <> Judge.Threw error.
Proof.
  unfold Expected.accuracyStage. destruct (AIValidator.enabled _).
  - apply checkAccuracy_never_throws.
  - discriminate.
Qed.

Lemma hallucinationStage_never_throws
  (JSON_parse : string -> option JSON.value) (self : AIValidator.t)
  (input : ValidationInput.t) (judge : Judge.request -> Judge.reply)
  (error : Judge.thrown) :
  Judge.result judge (Expected.hallucinationStage JSON_parse self input)
  <> Judge.Threw error.
Proof.
  unfold Expected.hallucinationStage. destruct (AIValidator.enabled _).
  - apply detectHallucination_never_throws.
  - discriminate.
Qed.

(** The outcome of the checks: the assembled result of the two stages, or a
    value outside the typed model; never a throw. *)
Lemma runChecks_result
  (JSON_parse : string -> option JSON.value) (self : AIValidator.t)
  (input : ValidationInput.t) (judge : Judge.request -> Judge.reply) :
  match Judge.result judge (AIValidator.runChecks JSON_parse self input) with
  | Judge.Returned r =>
      exists a h,
        Judge.result judge (Expected.accuracyStage JSON_parse self input)
        = Judge.Returned a
        /\ Judge.result judge
             (Expected.hallucinationStage JSON_parse self input)
           = Judge.Returned h
        /\ r = Expected.assemble self input a h
  | Judge.Threw _ => False
  | Judge.Untyped => True
  end.
Proof.
  rewrite runChecks_stages, result_bind.
  destruct (Judge.result judge (Expected.accuracyStage JSON_parse self input))
    as [a | error | ] eqn:Ea.
  - rewrite result_bind.
    destruct (Judge.result judge
                (Expected.hallucinationStage JSON_parse self input))
      as [h | error | ] eqn:Eh.
    + exists a, h. repeat split.
    + now apply hallucinationStage_never_throws in Eh.
    + exact I.
  - now apply accuracyStage_never_throws in Ea.
  - exact I.
Qed.

Lemma generateWarnings_known
  (a : AccuracyResult.t) (c : ContextResult.t) (h : HallucinationResult.t)
  (sources : list Source.t) (w : string) :
  In w (AIValidator.generateWarnings a c h sources) ->
  In w Expected.allWarnings.
Proof.
  unfold AIValidator.generateWarnings, Expected.allWarnings. cbv zeta.
  destruct sources;
    destruct (negb (Qle_bool 0.5 (AccuracyResult.verification_rate a)));
    destruct (negb (Qle_bool 0.3 (ContextResult.source_relevance c)));
    destruct (negb (Qle_bool (HallucinationResult.risk h) 0.5));
    destruct (HallucinationResult.detected h);
    cbn [app In]; intuition.
Qed.

(** X2: [validate] never rejects and never reports "Validation failed":
    whatever the judge does, the outcome is not a throw and is not the
    result of the outer [catch], because both checkers catch their own
    failures and the scorer and the warnings cannot fail. *)
Theorem X2_validate_never_fails :
  forall (JSON_parse : string -> option JSON.value) (self : AIValidator.t)
         (input : ValidationInput.t) (judge : Judge.request -> Judge.reply)
         (error : Judge.thrown),
    Judge.result judge (AIValidator.validate JSON_parse self input)
    <> Judge.Threw error
    /\ Judge.result judge (AIValidator.validate JSON_parse self input)
       <> Judge.Returned (AIValidator.validationFailed error).
Proof.
  intros JSON_parse self input judge error.
  rewrite validate_cases.
  destruct (Expected.notSkipped self input).
  - rewrite result_tryCatch.
    pose proof (runChecks_result JSON_parse self input judge) as H.
    destruct (Judge.result judge (AIValidator.runChecks JSON_parse self input))
      as [r | e | ].
    + split; [discriminate |].
      destruct H as (a & h & _ & _ & ->). intro E.
      apply (f_equal (fun o => match o with
                               | Judge.Returned r => ValidationResult.warnings r
                               | _ => []
                               end)) in E.
      cbn [Expected.assemble ValidationResult.warnings
           AIValidator.validationFailed] in E.
      assert (Hin : In ("Validation failed: " ++ Judge.messageOf error)
                      Expected.allWarnings).
      { apply (generateWarnings_known a (Expected.contextOf input) h
                 (ValidationInput.sources input)).
        rewrite E. now left. }
      unfold Expected.allWarnings in Hin. cbn in Hin.
      repeat (destruct Hin as [Hin | Hin]; [discriminate Hin |]).
      exact Hin.
    + contradiction.
    + split; discriminate.
  - split; discriminate.
Qed.

(** ** Requests made to the judge *)

Lemma calls_bind {A B : Type} (judge : Judge.request -> Judge.reply)
  (p : Judge.prog A) (f : A -> Judge.prog B) :
  Judge.calls judge (Judge.bind p f) =
  (Judge.calls judge p ++
   match Judge.result judge p with
   | Judge.Returned a => Judge.calls judge (f a)
   | _ => []
   end)%list.
Proof.
  unfold Judge.calls, Judge.result. rewrite run_bind.
  destruct (Judge.run judge p) as [[a | error | ] calls]; cbn;
    rewrite ?app_nil_r; try reflexivity.
  destruct (Judge.run judge (f a)); reflexivity.
Qed.

Lemma calls_tryCatch {A : Type} (judge : Judge.request -> Judge.reply)
  (p : Judge.prog A) (handler : Judge.thrown -> Judge.prog A) :
  Judge.calls judge (Judge.tryCatch p handler) =
  (Judge.calls judge p ++
   match Judge.result judge p with
   | Judge.Threw error => Judge.calls judge (handler error)
   | _ => []
   end)%list.
Proof.
  unfold Judge.calls, Judge.result. rewrite run_tryCatch.
  destruct (Judge.run judge p) as [[a | error | ] calls]; cbn;
    rewrite ?app_nil_r; try reflexivity.
  destruct (Judge.run judge (handler error)); reflexivity.
Qed.

Lemma calls_bind_nil {A B : Type} (judge : Judge.request -> Judge.reply)
  (p : Judge.prog A) (f : A -> Judge.prog B) :
  Judge.calls judge p = [] ->
  (forall a, Judge.calls judge (f a) = []) ->
  Judge.calls judge (Judge.bind p f) = [].
Proof.
  intros Hp Hf. rewrite calls_bind, Hp.
  destruct (Judge.result judge p); cbn; auto.
Qed.

Lemma calls_get (judge : Judge.request -> Judge.reply)
  (v : JSON.value) (key : string) :
  Judge.calls judge (JSON.get v key) = [].
Proof. destruct v; reflexivity. Qed.

Lemma calls_typed {A : Type} (judge : Judge.request -> Judge.reply)
  (v : option A) :
  Judge.calls judge (Judge.typed v) = [].
Proof. destruct v; reflexivity. Qed.

(** Reading the parsed answer makes no request. *)
Lemma calls_toResult_accuracy (judge : Judge.request -> Judge.reply)
  (v : JSON.value) :
  Judge.calls judge (AccuracyChecker.toResult v) = [].
Proof.
  unfold AccuracyChecker.toResult.
  repeat (apply calls_bind_nil;
          [first [apply calls_get | apply calls_typed] | intro]).
  reflexivity.
Qed.

Lemma calls_toResult_hallucination (judge : Judge.request -> Judge.reply)
  (v : JSON.value) :
  Judge.calls judge (HallucinationDetector.toResult v) = [].
Proof.
  unfold HallucinationDetector.toResult.
  repeat (apply calls_bind_nil;
          [first [apply calls_get | apply calls_typed] | intro]).
  reflexivity.
Qed.

(** The accuracy check makes one request when it has sources and a client
    for the provider, and none otherwise, whatever the judge answers. *)
Lemma calls_checkAccuracy
  (JSON_parse : string -> option JSON.value) (self : AccuracyChecker.t)
  (response : string) (sources : list Source.t) (provider : LLMProvider)
  (model : option string) (judge : Judge.request -> Judge.reply) :
  Judge.calls judge
    (AccuracyChecker.checkAccuracy JSON_parse self response sources provider
       model)
  = Expected.requestsOf Judge.AccuracyTask
      (Expected.accuracyClient self provider) response sources provider model.
Proof.
  unfold AccuracyChecker.checkAccuracy, Expected.requestsOf,
    Expected.accuracyClient.
  destruct sources as [| s rest]; [reflexivity |]. cbv zeta.
  fold (Expected.sourceContent (s :: rest)).
  set (text := Expected.sourceContent (s :: rest)).
  destruct provider.
  - destruct (AccuracyChecker.openaiClient self); [| reflexivity].
    unfold AccuracyChecker.checkAccuracyWithOpenAI, Judge.await.
    cbn [Judge.bind Judge.tryCatch]. unfold Judge.calls. cbn [Judge.run].
    match goal with |- snd (let (_, _) := Judge.run judge ?p in _) = _ =>
      assert (H : Judge.calls judge p = []) end.
    { rewrite calls_tryCatch, calls_bind.
      destruct (judge _) as [error | [content | blocks]]; cbn;
        try reflexivity.
      rewrite calls_toResult_accuracy. cbn.
      destruct (Judge.result judge _); reflexivity. }
    unfold Judge.calls in H.
    destruct (Judge.run judge _) as [o l]. cbn in *. now rewrite H.
  - destruct (AccuracyChecker.claudeClient self);
      [| destruct (AccuracyChecker.openaiClient self); reflexivity].
    replace (match AccuracyChecker.openaiClient self with
             | Some _ | _ =>
                 AccuracyChecker.checkAccuracyWithClaude JSON_parse response
                   text model
             end)
      with (AccuracyChecker.checkAccuracyWithClaude JSON_parse response
              text model)
      by (destruct (AccuracyChecker.openaiClient self); reflexivity).
    unfold AccuracyChecker.checkAccuracyWithClaude, Judge.await.
    cbn [Judge.bind Judge.tryCatch]. unfold Judge.calls. cbn [Judge.run].
    match goal with |- snd (let (_, _) := Judge.run judge ?p in _) = _ =>
      assert (H : Judge.calls judge p = []) end.
    { rewrite calls_tryCatch, calls_bind.
      destruct (judge _) as [error | [content | [| [t | ] blocks]]]; cbn;
        try reflexivity;
        rewrite calls_toResult_accuracy; cbn;
        destruct (Judge.result judge _); reflexivity. }
    unfold Judge.calls in H.
    destruct (Judge.run judge _) as [o l]. cbn in *. now rewrite H.
Qed.

(** The hallucination check makes one request when it has sources and a client
    for the provider, and none otherwise, whatever the judge answers. *)
Lemma calls_detectHallucination
  (JSON_parse : string -> option JSON.value) (self : HallucinationDetector.t)
  (response : string) (sources : list Source.t) (provider : LLMProvider)
  (model : option string) (judge : Judge.request -> Judge.reply) :
  Judge.calls judge
    (HallucinationDetector.detectHallucination JSON_parse self response sources provider
       model)
  = Expected.requestsOf Judge.HallucinationTask
      (Expected.hallucinationClient self provider) response sources provider model.
Proof.
  unfold HallucinationDetector.detectHallucination, Expected.requestsOf,
    Expected.hallucinationClient.
  destruct sources as [| s rest]; [reflexivity |]. cbv zeta.
  fold (Expected.sourceContent (s :: rest)).
  set (text := Expected.sourceContent (s :: rest)).
  destruct provider.
  - destruct (HallucinationDetector.openaiClient self); [| reflexivity].
    unfold HallucinationDetector.detectHallucinationWithOpenAI, Judge.await.
    cbn [Judge.bind Judge.tryCatch]. unfold Judge.calls. cbn [Judge.run].
    match goal with |- snd (let (_, _) := Judge.run judge ?p in _) = _ =>
      assert (H : Judge.calls judge p = []) end.
    { rewrite calls_tryCatch, calls_bind.
      destruct (judge _) as [error | [content | blocks]]; cbn;
        try reflexivity.
      rewrite calls_toResult_hallucination. cbn.
      destruct (Judge.result judge _); reflexivity. }
    unfold Judge.calls in H.
    destruct (Judge.run judge _) as [o l]. cbn in *. now rewrite H.
  - destruct (HallucinationDetector.claudeClient self);
      [| destruct (HallucinationDetector.openaiClient self); reflexivity].
    replace (match HallucinationDetector.openaiClient self with
             | Some _ | _ =>
                 HallucinationDetector.detectHallucinationWithClaude JSON_parse response
                   text model
             end)
      with (HallucinationDetector.detectHallucinationWithClaude JSON_parse response
              text model)
      by (destruct (HallucinationDetector.openaiClient self); reflexivity).
    unfold HallucinationDetector.detectHallucinationWithClaude, Judge.await.
    cbn [Judge.bind Judge.tryCatch]. unfold Judge.calls. cbn [Judge.run].
    match goal with |- snd (let (_, _) := Judge.run judge ?p in _) = _ =>
      assert (H : Judge.calls judge p = []) end.
    { rewrite calls_tryCatch, calls_bind.
      destruct (judge _) as [error | [content | [| [t | ] blocks]]]; cbn;
        try reflexivity;
        rewrite calls_toResult_hallucination; cbn;
        destruct (Judge.result judge _); reflexivity. }
    unfold Judge.calls in H.
    destruct (Judge.run judge _) as [o l]. cbn in *. now rewrite H.
Qed.

(** [getModel] never yields the empty string, so the checkers' own fallback
    model is never used by [validate]. *)
Lemma getModel_kept (self : AIValidator.t) (fallback : string) :
  stringOr (Some (AIValidator.getModel self)) fallback
  = AIValidator.getModel self.
Proof.
  unfold AIValidator.getModel, AIValidator.modelOr, stringOr.
  destruct (AIValidatorConfig.llmProvider (AIValidator.config self)).
  - destruct (AIValidatorConfig.openaiModel (AIValidator.config self))
      as [| | [| c m]]; reflexivity.
  - destruct (AIValidatorConfig.claudeModel (AIValidator.config self))
      as [| | [| c m]]; reflexivity.
Qed.

Lemma calls_accuracyStage
  (JSON_parse : string -> option JSON.value) (self : AIValidator.t)
  (input : ValidationInput.t) (judge : Judge.request -> Judge.reply) :
  Judge.calls judge (Expected.accuracyStage JSON_parse self input)
  = Expected.accuracyRequests self input.
Proof.
  unfold Expected.accuracyStage, Expected.accuracyRequests,
    Expected.stageRequests.
  destruct (AIValidator.enabled _); [| reflexivity].
  rewrite calls_checkAccuracy. unfold Expected.requestsOf, Expected.request.
  rewrite getModel_kept. reflexivity.
Qed.

Lemma calls_hallucinationStage
  (JSON_parse : string -> option JSON.value) (self : AIValidator.t)
  (input : ValidationInput.t) (judge : Judge.request -> Judge.reply) :
  Judge.calls judge (Expected.hallucinationStage JSON_parse self input)
  = Expected.hallucinationRequests self input.
Proof.
  unfold Expected.hallucinationStage, Expected.hallucinationRequests,
    Expected.stageRequests.
  destruct (AIValidator.enabled _); [| reflexivity].
  rewrite calls_detectHallucination.
  unfold Expected.requestsOf, Expected.request.
  rewrite getModel_kept. reflexivity.
Qed.

Lemma stageRequests_length (on : bool) (client : option string)
  (self : AIValidator.t) (input : ValidationInput.t) (purpose : Judge.task) :
  (List.length (Expected.stageRequests on client self input purpose) <= 1)%nat.
Proof.
  unfold Expected.stageRequests.
  destruct on, (ValidationInput.sources input), client; cbn; lia.
Qed.

Lemma calls_runChecks
  (JSON_parse : string -> option JSON.value) (self : AIValidator.t)
  (input : ValidationInput.t) (judge : Judge.request -> Judge.reply) :
  Judge.calls judge (AIValidator.runChecks JSON_parse self input)
  = (Expected.accuracyRequests self input ++
     match Judge.result judge (Expected.accuracyStage JSON_parse self input)
     with
     | Judge.Returned _ => Expected.hallucinationRequests self input
     | _ => []
     end)%list.
Proof.
  rewrite runChecks_stages, calls_bind, calls_accuracyStage.
  destruct (Judge.result judge (Expected.accuracyStage JSON_parse self input))
    as [a | e | ]; try reflexivity.
  rewrite calls_bind, calls_hallucinationStage.
  destruct (Judge.result judge _); cbn; now rewrite app_nil_r.
Qed.

Lemma calls_validate
  (JSON_parse : string -> option JSON.value) (self : AIValidator.t)
  (input : ValidationInput.t) (judge : Judge.request -> Judge.reply) :
  Judge.calls judge (AIValidator.validate JSON_parse self input)
  = if Expected.notSkipped self input
    then Judge.calls judge (AIValidator.runChecks JSON_parse self input)
    else [].
Proof.
  rewrite validate_cases.
  destruct (Expected.notSkipped self input); [| reflexivity].
  rewrite calls_tryCatch.
  pose proof (runChecks_result JSON_parse self input judge) as H.
  destruct (Judge.result judge (AIValidator.runChecks JSON_parse self input));
    [now rewrite app_nil_r | contradiction | now rewrite app_nil_r].
Qed.

(** X3: one call of [validate] sends at most two requests to the judge.  A
    run that completes sent exactly these: none on the skip path; otherwise
    the accuracy request followed by the hallucination request, each present
    when its check is enabled, the input has sources and the checker holds a
    client for the configured provider.  Each request names the configured
    provider, the model of [getModel], the sources joined by blank lines and
    the response. *)
Theorem X3_judge_requests :
  forall (JSON_parse : string -> option JSON.value) (self : AIValidator.t)
         (input : ValidationInput.t) (judge : Judge.request -> Judge.reply),
    (List.length
       (Judge.calls judge (AIValidator.validate JSON_parse self input))
     <= 2)%nat
    /\ (forall r,
          Judge.result judge (AIValidator.validate JSON_parse self input)
          = Judge.Returned r ->
          Judge.calls judge (AIValidator.validate JSON_parse self input)
          = if Expected.notSkipped self input
            then (Expected.accuracyRequests self input
                  ++ Expected.hallucinationRequests self input)%list
            else []).
Proof.
  intros JSON_parse self input judge.
  rewrite calls_validate, calls_runChecks.
  pose proof (stageRequests_length
                (AIValidator.enabled
                   (AIValidatorConfig.enableAccuracyCheck
                      (AIValidator.config self)))
                (Expected.accuracyClient (AIValidator.accuracyChecker self)
                   (AIValidatorConfig.llmProvider (AIValidator.config self)))
                self input Judge.AccuracyTask) as La.
  pose proof (stageRequests_length
                (AIValidator.enabled
                   (AIValidatorConfig.enableHallucinationDetection
                      (AIValidator.config self)))
                (Expected.hallucinationClient
                   (AIValidator.hallucinationDetector self)
                   (AIValidatorConfig.llmProvider (AIValidator.config self)))
                self input Judge.HallucinationTask) as Lh.
  fold (Expected.accuracyRequests self input) in La.
  fold (Expected.hallucinationRequests self input) in Lh.
  split.
  - destruct (Expected.notSkipped self input); [| cbn; lia].
    rewrite length_app.
    destruct (Judge.result judge _); cbn [List.length]; lia.
  - intros r Hr. rewrite validate_cases in Hr.
    destruct (Expected.notSkipped self input); [| reflexivity].
    rewrite result_tryCatch in Hr.
    pose proof (runChecks_result JSON_parse self input judge) as H.
    destruct (Judge.result judge (AIValidator.runChecks JSON_parse self input))
      as [r' | e | ]; [| contradiction | discriminate].
    destruct H as (a & h & Ha & _). now rewrite Ha.
Qed.

Lemma new_clients (config : AIValidatorConfig.t) (self : AIValidator.t) :
  AIValidator.new config = inr self ->
  exists ka kh,
    Expected.accuracyClient (AIValidator.accuracyChecker self)
      (AIValidatorConfig.llmProvider (AIValidator.config self)) = Some ka
    /\ Expected.hallucinationClient (AIValidator.hallucinationDetector self)
         (AIValidatorConfig.llmProvider (AIValidator.config self)) = Some kh.
Proof.
  destruct config as [okey ckey provider threshold qc ac hd om cm].
  unfold AIValidator.new, AIValidator.validateConfig.
  cbn [AIValidator.withDefaults AIValidatorConfig.openaiApiKey
       AIValidatorConfig.claudeApiKey AIValidatorConfig.llmProvider].
  destruct provider;
    destruct okey as [[| c1 k1] |]; destruct ckey as [[| c2 k2] |];
    cbn; intro H; try discriminate H; injection H as <-;
    cbn; eexists; eexists; split; reflexivity.
Qed.

(** X4: a validator built by the constructor, with both checks enabled, asked
    about an input that has sources and is not skipped, sends exactly two
    requests in every completed run: the accuracy request, then the
    hallucination request. *)
Theorem X4_two_requests :
  forall (JSON_parse : string -> option JSON.value)
         (config : AIValidatorConfig.t) (self : AIValidator.t)
         (input : ValidationInput.t) (judge : Judge.request -> Judge.reply)
         (r : ValidationResult.t),
    AIValidator.new config = inr self ->
    AIValidator.enabled
      (AIValidatorConfig.enableAccuracyCheck (AIValidator.config self))
    = true ->
    AIValidator.enabled
      (AIValidatorConfig.enableHallucinationDetection
         (AIValidator.config self)) = true ->
    Expected.notSkipped self input = true ->
    ValidationInput.sources input <> [] ->
    Judge.result judge (AIValidator.validate JSON_parse self input)
    = Judge.Returned r ->
    Judge.calls judge (AIValidator.validate JSON_parse self input)
    = [Expected.request self input Judge.AccuracyTask;
       Expected.request self input Judge.HallucinationTask].
Proof.
  intros JSON_parse config self input judge r Hnew Ha Hh Hns Hsrc Hr.
  destruct (new_clients config self Hnew) as (ka & kh & Hka & Hkh).
  rewrite calls_validate, Hns, calls_runChecks.
  rewrite validate_cases, Hns, result_tryCatch in Hr.
  pose proof (runChecks_result JSON_parse self input judge) as H.
  destruct (Judge.result judge (AIValidator.runChecks JSON_parse self input))
    as [r' | e | ]; [| contradiction | discriminate].
  destruct H as (a & h & Hacc & _). rewrite Hacc.
  unfold Expected.accuracyRequests, Expected.hallucinationRequests,
    Expected.stageRequests.
  rewrite Ha, Hh, Hka, Hkh.
  destruct (ValidationInput.sources input); [contradiction | reflexivity].
Qed.

(** The default validator, one source, a judge that times out. *)
Lemma X4_two_requests_witness :
  Judge.calls Sample.failingJudge
    (AIValidator.validate Sample.parseEmptyObject Sample.validator
       (ValidationInput.mk "What is the boiling point of water?"
          "100 degrees Celsius" [Sample.source]))
  = [Judge.mkRequest openai Judge.AccuracyTask "gpt-4o"
       "GPT is a language model" "100 degrees Celsius";
     Judge.mkRequest openai Judge.HallucinationTask "gpt-4o"
       "GPT is a language model" "100 degrees Celsius"].
Proof.
  refine (X4_two_requests Sample.parseEmptyObject Sample.config
            Sample.validator
            (ValidationInput.mk "What is the boiling point of water?"
               "100 degrees Celsius" [Sample.source])
            Sample.failingJudge _ eq_refl eq_refl eq_refl eq_refl _ eq_refl).
  discriminate.
Defined.

(** ** Runs without sources, without checks, without a working judge *)

Section Pipeline.

Open Scope Q_scope.

(** X5: without sources a run that is not skipped, with both checks enabled,
    returns at once the same result for every query and response:
    confidence 0.06, the two "no sources" results of the checkers, the zero
    context, all five warnings in order, and [valid] only if the threshold
    in force is at most 0.06.  No request reaches the judge. *)
Theorem X5_no_sources :
  forall (JSON_parse : string -> option JSON.value) (self : AIValidator.t)
         (query response : string),
    let input := ValidationInput.mk query response [] in
    AIValidator.enabled
      (AIValidatorConfig.enableAccuracyCheck (AIValidator.config self))
    = true ->
    AIValidator.enabled
      (AIValidatorConfig.enableHallucinationDetection
         (AIValidator.config self)) = true ->
    Expected.notSkipped self input = true ->
    AIValidator.validate JSON_parse self input
    = Judge.Ret
        (ValidationResult.mk 0.06
           (Qle_bool (Expected.threshold self) 0.06)
           (AccuracyResult.mk false 0 (Some "no_sources_provided"))
           (ContextResult.mk 0 0 false)
           (HallucinationResult.mk true 0.8 (Some ["entire_response"]))
           ["No sources provided - high hallucination risk";
            "Low accuracy verification rate";
            "Low context relevance";
            "High hallucination risk detected";
            "Hallucination detected in response"]
           None None).
Proof.
  intros JSON_parse self query response input Ha Hh Hns.
  rewrite validate_cases, Hns. unfold AIValidator.runChecks. cbv zeta.
  rewrite Ha, Hh. reflexivity.
Qed.

Lemma X5_no_sources_witness :
  AIValidator.validate Sample.parseEmptyObject Sample.validator
    (ValidationInput.mk "What is the boiling point of water?"
       "100 degrees Celsius" [])
  = Judge.Ret
      (ValidationResult.mk 0.06 false
         (AccuracyResult.mk false 0 (Some "no_sources_provided"))
         (ContextResult.mk 0 0 false)
         (HallucinationResult.mk true 0.8 (Some ["entire_response"]))
         ["No sources provided - high hallucination risk";
          "Low accuracy verification rate";
          "Low context relevance";
          "High hallucination risk detected";
          "Hallucination detected in response"]
         None None).
Proof.
  exact (X5_no_sources Sample.parseEmptyObject Sample.validator
           "What is the boiling point of water?" "100 degrees Celsius"
           eq_refl eq_refl eq_refl).
Defined.

Lemma countIncluded_le (words pool : list string) :
  (AIValidator.countIncluded words pool <= List.length words)%nat.
Proof.
  rewrite countIncluded_occurrences. apply occurrences_le.
Qed.

Lemma rate_range (count : nat) (words : list string) :
  (count <= List.length words)%nat ->
  0 <= (if Nat.ltb 0 (List.length words)
        then AIValidator.ratio count (List.length words)
        else 0.5) <= 1.
Proof.
  intro Hle. destruct (Nat.ltb 0 (List.length words)) eqn:E.
  - apply ratio_range; [now apply Nat.ltb_lt | exact Hle].
  - lra.
Qed.

(** The estimate unfolded on non-empty sources. *)
Lemma contextRelevance_fields
  (query response : string) (s : Source.t) (rest : list Source.t) :
  exists responseWords sourceWords queryWords,
    AIValidator.calculateContextRelevance query response (s :: rest)
    = ContextResult.mk
        (Qmin (if Nat.ltb 0 (List.length responseWords)
               then AIValidator.ratio
                      (AIValidator.countIncluded responseWords sourceWords)
                      (List.length responseWords)
               else 0.5) 1.0)
        (if Nat.ltb 0 (List.length queryWords)
         then AIValidator.ratio
                (AIValidator.countIncluded queryWords responseWords)
                (List.length queryWords)
         else 0.5)
        (negb (Qle_bool
                 (if Nat.ltb 0 (List.length responseWords)
                  then AIValidator.ratio
                         (AIValidator.countIncluded responseWords
                            sourceWords)
                         (List.length responseWords)
                  else 0.5) 0.3)).
Proof.
  eexists. eexists. eexists. reflexivity.
Qed.

Lemma contextRelevance_range
  (query response : string) (sources : list Source.t) :
  let c := AIValidator.calculateContextRelevance query response sources in
  inUnit (ContextResult.source_relevance c)
  /\ inUnit (ContextResult.source_usage_rate c).
Proof.
  unfold inUnit. destruct sources as [| s rest].
  - cbn. lra.
  - destruct (contextRelevance_fields query response s rest)
      as (rw & sw & qw & E).
    cbv zeta. rewrite E.
    cbn [ContextResult.source_relevance ContextResult.source_usage_rate].
    pose proof (rate_range _ rw (countIncluded_le rw sw)) as [R0 R1].
    pose proof (rate_range _ qw (countIncluded_le qw rw)) as U.
    split; [| exact U].
    split.
    + apply Q.min_glb; lra.
    + apply Qle_trans with 1.0; [apply Q.le_min_r | lra].
Qed.

Lemma confidence_of_assemble (self : AIValidator.t)
  (input : ValidationInput.t) (a : AccuracyResult.t)
  (h : HallucinationResult.t) :
  ValidationResult.confidence (Expected.assemble self input a h)
  = ConfidenceScorer.round2
      (ConfidenceScorer.weightedScore a (Expected.contextOf input) h
         (ValidationInput.sources input)).
Proof. reflexivity. Qed.

Lemma weightedScore_formula
  (a : AccuracyResult.t) (c : ContextResult.t) (h : HallucinationResult.t)
  (sources : list Source.t) :
  ConfidenceScorer.weightedScore a c h sources
  == 0.35 * AccuracyResult.verification_rate a
     + 0.25 * ContextResult.source_relevance c
     + 0.30 * (1 - HallucinationResult.risk h)
     + 0.10 * ConfidenceScorer.calculateSourceQuality sources.
Proof.
  unfold ConfidenceScorer.weightedScore,
    ConfidenceScorer.weights.accuracy, ConfidenceScorer.weights.context,
    ConfidenceScorer.weights.hallucination,
    ConfidenceScorer.weights.sourceQuality.
  cbv zeta. ring.
Qed.

(** X6: with the accuracy check and the hallucination detection both
    disabled, [validate] sends nothing to the judge and returns the
    optimistic stand-ins (verified at rate 1.0, nothing detected at risk 0);
    the confidence is then at least 0.65 whatever the response says. *)
Theorem X6_checks_disabled :
  forall (JSON_parse : string -> option JSON.value) (self : AIValidator.t)
         (input : ValidationInput.t) (judge : Judge.request -> Judge.reply),
    AIValidator.enabled
      (AIValidatorConfig.enableAccuracyCheck (AIValidator.config self))
    = false ->
    AIValidator.enabled
      (AIValidatorConfig.enableHallucinationDetection
         (AIValidator.config self)) = false ->
    Judge.calls judge (AIValidator.validate JSON_parse self input) = []
    /\ exists r,
         AIValidator.validate JSON_parse self input = Judge.Ret r
         /\ ValidationResult.accuracy r = AccuracyResult.mk true 1.0 None
         /\ ValidationResult.hallucination r
            = HallucinationResult.mk false 0 None
         /\ 0.65 <= ValidationResult.confidence r.
Proof.
  intros JSON_parse self input judge Ha Hh.
  rewrite calls_validate, validate_cases.
  unfold AIValidator.runChecks. cbv zeta. rewrite Ha, Hh.
  cbn [Judge.bind Judge.tryCatch].
  destruct (Expected.notSkipped self input).
  - split; [reflexivity |]. eexists. split; [reflexivity |].
    split; [reflexivity |]. split; [reflexivity |].
    cbn [ValidationResult.confidence ConfidenceResult.confidence_score
         ConfidenceScorer.calculateConfidence].
    apply Qle_trans with (ConfidenceScorer.round2 0.65);
      [vm_compute; discriminate |].
    apply round2_monotone. rewrite weightedScore_formula.
    cbn [AccuracyResult.verification_rate HallucinationResult.risk].
    pose proof (contextRelevance_range (ValidationInput.query input)
                  (ValidationInput.response input)
                  (ValidationInput.sources input)) as [[R0 _] _].
    pose proof (calculateSourceQuality_range (ValidationInput.sources input))
      as [S0 _].
    set (rel := ContextResult.source_relevance _) in *.
    set (sq := ConfidenceScorer.calculateSourceQuality _) in *.
    lra.
  - split; [reflexivity |]. eexists. split; [reflexivity |].
    split; [reflexivity |]. split; [reflexivity |].
    cbn. vm_compute. discriminate.
Qed.

Lemma X6_checks_disabled_witness :
  Judge.calls Sample.failingJudge
    (AIValidator.validate Sample.parseEmptyObject Sample.withoutChecks
       Sample.question) = [].
Proof.
  exact (proj1 (X6_checks_disabled Sample.parseEmptyObject
                  Sample.withoutChecks Sample.question Sample.failingJudge
                  eq_refl eq_refl)).
Defined.

Lemma checkAccuracy_rejected
  (JSON_parse : string -> option JSON.value) (self : AccuracyChecker.t)
  (response : string) (sources : list Source.t) (provider : LLMProvider)
  (model : option string) (judge : Judge.request -> Judge.reply)
  (error : Judge.thrown) :
  sources <> [] ->
  (forall req, judge req = Judge.Rejected error) ->
  exists description,
    Judge.result judge
      (AccuracyChecker.checkAccuracy JSON_parse self response sources
         provider model)
    = Judge.Returned
        (AccuracyResult.mk false 0
           (Some ("accuracy_check_failed: " ++ description))).
Proof.
  intros Hsources Hjudge.
  destruct sources as [| s rest]; [contradiction |].
  unfold AccuracyChecker.checkAccuracy. cbv zeta. unfold Judge.result.
  destruct provider;
    destruct (AccuracyChecker.openaiClient self);
    destruct (AccuracyChecker.claudeClient self);
    cbn; rewrite ?Hjudge; cbn; eexists; reflexivity.
Qed.

Lemma detectHallucination_rejected
  (JSON_parse : string -> option JSON.value) (self : HallucinationDetector.t)
  (response : string) (sources : list Source.t) (provider : LLMProvider)
  (model : option string) (judge : Judge.request -> Judge.reply)
  (error : Judge.thrown) :
  sources <> [] ->
  (forall req, judge req = Judge.Rejected error) ->
  Judge.result judge
    (HallucinationDetector.detectHallucination JSON_parse self response
       sources provider model)
  = Judge.Returned HallucinationDetector.failed.
Proof.
  intros Hsources Hjudge.
  destruct sources as [| s rest]; [contradiction |].
  unfold HallucinationDetector.detectHallucination. cbv zeta.
  unfold Judge.result.
  destruct provider;
    destruct (HallucinationDetector.openaiClient self);
    destruct (HallucinationDetector.claudeClient self);
    cbn; rewrite ?Hjudge; cbn; reflexivity.
Qed.

(** The result of a run that is not skipped, from the results of its two
    stages. *)
Lemma validate_assembles
  (JSON_parse : string -> option JSON.value) (self : AIValidator.t)
  (input : ValidationInput.t) (judge : Judge.request -> Judge.reply)
  (a : AccuracyResult.t) (h : HallucinationResult.t) :
  Expected.notSkipped self input = true ->
  Judge.result judge (Expected.accuracyStage JSON_parse self input)
  = Judge.Returned a ->
  Judge.result judge (Expected.hallucinationStage JSON_parse self input)
  = Judge.Returned h ->
  Judge.result judge (AIValidator.validate JSON_parse self input)
  = Judge.Returned (Expected.assemble self input a h).
Proof.
  intros Hns Ha Hh.
  rewrite validate_cases, Hns, result_tryCatch, runChecks_stages.
  rewrite result_bind, Ha, result_bind, Hh. reflexivity.
Qed.

(** X7: when the judge rejects every request, a run on an input with
    sources, with both checks enabled and not skipped, still returns a
    result: accuracy unverified at rate 0, hallucination detected at risk
    0.9, a confidence of at most 0.38, and [valid = false] under every
    threshold above 0.38 (the default 0.7 among them); the warnings name the
    low verification rate, the high risk and the detected hallucination. *)
Theorem X7_judge_down :
  forall (JSON_parse : string -> option JSON.value) (self : AIValidator.t)
         (input : ValidationInput.t) (judge : Judge.request -> Judge.reply)
         (error : Judge.thrown),
    AIValidator.enabled
      (AIValidatorConfig.enableAccuracyCheck (AIValidator.config self))
    = true ->
    AIValidator.enabled
      (AIValidatorConfig.enableHallucinationDetection
         (AIValidator.config self)) = true ->
    Expected.notSkipped self input = true ->
    ValidationInput.sources input <> [] ->
    (forall req, judge req = Judge.Rejected error) ->
    exists r,
      Judge.result judge (AIValidator.validate JSON_parse self input)
      = Judge.Returned r
      /\ AccuracyResult.verified (ValidationResult.accuracy r) = false
      /\ AccuracyResult.verification_rate (ValidationResult.accuracy r) = 0
      /\ ValidationResult.hallucination r
         = HallucinationResult.mk true 0.9
             (Some ["hallucination_check_failed"])
      /\ ValidationResult.confidence r <= 0.38
      /\ (0.38 < Expected.threshold self -> ValidationResult.valid r = false)
      /\ In "Low accuracy verification rate" (ValidationResult.warnings r)
      /\ In "High hallucination risk detected" (ValidationResult.warnings r)
      /\ In "Hallucination detected in response"
           (ValidationResult.warnings r).
Proof.
  intros JSON_parse self input judge error Ha Hh Hns Hsrc Hjudge.
  destruct (checkAccuracy_rejected JSON_parse
              (AIValidator.accuracyChecker self)
              (ValidationInput.response input) (ValidationInput.sources input)
              (AIValidatorConfig.llmProvider (AIValidator.config self))
              (Some (AIValidator.getModel self)) judge error Hsrc Hjudge)
    as [description Hacc].
  pose proof (detectHallucination_rejected JSON_parse
                (AIValidator.hallucinationDetector self)
                (ValidationInput.response input)
                (ValidationInput.sources input)
                (AIValidatorConfig.llmProvider (AIValidator.config self))
                (Some (AIValidator.getModel self)) judge error Hsrc Hjudge)
    as Hhall.
  eexists. split.
  - apply validate_assembles; [exact Hns | |].
    + unfold Expected.accuracyStage. rewrite Ha. exact Hacc.
    + unfold Expected.hallucinationStage. rewrite Hh. exact Hhall.
  - assert (Hconf :
      ValidationResult.confidence
        (Expected.assemble self input
           (AccuracyResult.mk false 0
              (Some ("accuracy_check_failed: " ++ description)))
           HallucinationDetector.failed) <= 0.38).
    { rewrite confidence_of_assemble.
      apply Qle_trans with (ConfidenceScorer.round2 0.38);
        [| vm_compute; discriminate].
      apply round2_monotone. rewrite weightedScore_formula.
      cbn [AccuracyResult.verification_rate HallucinationResult.risk
           HallucinationDetector.failed].
      pose proof (contextRelevance_range (ValidationInput.query input)
                    (ValidationInput.response input)
                    (ValidationInput.sources input)) as [[_ R1] _].
      pose proof (calculateSourceQuality_range
                    (ValidationInput.sources input)) as [_ S1].
      unfold Expected.contextOf.
      set (rel := ContextResult.source_relevance _) in *.
      set (sq := ConfidenceScorer.calculateSourceQuality _) in *.
      lra. }
    split; [reflexivity |]. split; [reflexivity |]. split; [reflexivity |].
    split; [exact Hconf |]. split.
    + intro Hthr. cbn [Expected.assemble ValidationResult.valid].
      apply not_true_is_false. intro Hv. apply Qle_bool_iff in Hv.
      change (ConfidenceResult.confidence_score
                (ConfidenceScorer.calculateConfidence
                   (AccuracyResult.mk false 0
                      (Some ("accuracy_check_failed: " ++ description)))
                   (Expected.contextOf input) HallucinationDetector.failed
                   (ValidationInput.sources input)))
        with (ValidationResult.confidence
                (Expected.assemble self input
                   (AccuracyResult.mk false 0
                      (Some ("accuracy_check_failed: " ++ description)))
                   HallucinationDetector.failed)) in Hv.
      lra.
    + cbn [Expected.assemble ValidationResult.warnings].
      unfold AIValidator.generateWarnings. cbv zeta.
      cbn [AccuracyResult.verification_rate HallucinationResult.risk
           HallucinationResult.detected HallucinationDetector.failed].
      destruct (ValidationInput.sources input);
        destruct (negb (Qle_bool 0.3 _));
        cbn; tauto.
Qed.

Lemma X7_judge_down_witness :
  exists r,
    Judge.result Sample.failingJudge
      (AIValidator.validate Sample.parseEmptyObject Sample.validator
         Sample.question)
    = Judge.Returned r
    /\ ValidationResult.confidence r <= 0.38
    /\ ValidationResult.valid r = false.
Proof.
  assert (Hsrc : ValidationInput.sources Sample.question <> [])
    by discriminate.
  destruct (X7_judge_down Sample.parseEmptyObject Sample.validator
              Sample.question Sample.failingJudge
              (Judge.ErrorObject "network timeout")
              eq_refl eq_refl eq_refl Hsrc (fun _ => eq_refl))
    as (r & Hr & _ & _ & _ & Hconf & Hvalid & _).
  exists r. split; [exact Hr |]. split; [exact Hconf |].
  apply Hvalid. vm_compute. reflexivity.
Defined.

(** X8: [generateWarnings] is silent exactly when there are sources, the
    verification rate is at least 0.5, the source relevance at least 0.3,
    the risk at most 0.5 and no hallucination is detected; with no sources
    its first warning is the one about sources.  It only ever emits the five
    known warnings. *)
Theorem X8_warnings :
  forall (a : AccuracyResult.t) (c : ContextResult.t)
         (h : HallucinationResult.t) (sources : list Source.t),
    (AIValidator.generateWarnings a c h sources = []
     <-> (sources <> []
          /\ 0.5 <= AccuracyResult.verification_rate a
          /\ 0.3 <= ContextResult.source_relevance c
          /\ HallucinationResult.risk h <= 0.5
          /\ HallucinationResult.detected h = false))
    /\ (sources = [] ->
        exists rest,
          AIValidator.generateWarnings a c h sources
          = "No sources provided - high hallucination risk" :: rest)
    /\ (forall w, In w (AIValidator.generateWarnings a c h sources) ->
                  In w Expected.allWarnings).
Proof.
  intros a c h sources.
  split; [| split].
  - unfold AIValidator.generateWarnings. cbv zeta.
    destruct (Qle_bool 0.5 (AccuracyResult.verification_rate a)) eqn:E1;
      destruct (Qle_bool 0.3 (ContextResult.source_relevance c)) eqn:E2;
      destruct (Qle_bool (HallucinationResult.risk h) 0.5) eqn:E3;
      destruct (HallucinationResult.detected h) eqn:E4;
      destruct sources as [| s rest]; cbn [negb app];
      (split; [intro H; try discriminate H | intros (H0 & H1 & H2 & H3 & H4)]);
      try (exfalso; now apply H0);
      try discriminate;
      try (apply Qle_bool_iff in H1; congruence);
      try (apply Qle_bool_iff in H2; congruence);
      try (apply Qle_bool_iff in H3; congruence);
      try reflexivity.
    repeat split; try discriminate; now apply Qle_bool_iff.
  - intros ->. unfold AIValidator.generateWarnings. cbv zeta.
    destruct (negb (Qle_bool 0.5 (AccuracyResult.verification_rate a)));
      destruct (negb (Qle_bool 0.3 (ContextResult.source_relevance c)));
      destruct (negb (Qle_bool (HallucinationResult.risk h) 0.5));
      destruct (HallucinationResult.detected h);
      cbn [app]; eexists; reflexivity.
  - apply generateWarnings_known.
Qed.

(** ** The scorer *)

(** X10: the confidence score never falls when the verification rate or the
    source relevance rises or when the risk falls, the sources being the
    same. *)
Theorem X10_confidence_monotone :
  forall (a a' : AccuracyResult.t) (c c' : ContextResult.t)
         (h h' : HallucinationResult.t) (sources : list Source.t),
    AccuracyResult.verification_rate a <= AccuracyResult.verification_rate a' ->
    ContextResult.source_relevance c <= ContextResult.source_relevance c' ->
    HallucinationResult.risk h' <= HallucinationResult.risk h ->
    ConfidenceResult.confidence_score
      (ConfidenceScorer.calculateConfidence a c h sources)
    <= ConfidenceResult.confidence_score
         (ConfidenceScorer.calculateConfidence a' c' h' sources).
Proof.
  intros a a' c c' h h' sources Ha Hc Hh.
  cbn [ConfidenceScorer.calculateConfidence
       ConfidenceResult.confidence_score].
  apply round2_monotone. rewrite !weightedScore_formula.
  set (q := ConfidenceScorer.calculateSourceQuality sources). lra.
Qed.

Lemma X10_confidence_monotone_witness :
  ConfidenceResult.confidence_score
    (ConfidenceScorer.calculateConfidence
       (AccuracyResult.mk false 0.4 None) (ContextResult.mk 0.5 1 true)
       (HallucinationResult.mk true 0.6 None) [Sample.source])
  <= ConfidenceResult.confidence_score
       (ConfidenceScorer.calculateConfidence
          (AccuracyResult.mk true 0.9 None) (ContextResult.mk 0.75 0 true)
          (HallucinationResult.mk false 0.1 None) [Sample.source]).
Proof.
  apply X10_confidence_monotone; cbn; lra.
Defined.

End Pipeline.

(** ** Source quality in binary64 *)

Section Binary64Quality.

Open Scope float_scope.

(** X12: the quality of one source, as the code computes it in binary64.
    It is 0.5, 0.6, 0.7, 0.7999999999999999, 0.8999999999999999 or
    0.9999999999999999, by the length of the content (over 100, over 500
    characters) and the presence of a non-empty title: the sums
    [0.5 + 0.2 + 0.2] and [... + 0.1] fall short of 0.9 and of 1, so that the
    cap [Math.min(quality, 1.0)] never cuts anything and no source scores
    1.0.  The source quality of a single source is its quality, that of no
    source is 0. *)
Theorem X12_source_quality :
  forall source : Source.t,
    let long := Nat.ltb 100 (String.length (Source.content source)) in
    let longer := Nat.ltb 500 (String.length (Source.content source)) in
    let titled :=
      match Source.title source with
      | Some (String _ _) => true
      | _ => false
      end in
    Binary64.qualityOf source
    = (if longer
       then (if titled then 0.9999999999999999 else 0.8999999999999999)
       else if long
            then (if titled then 0.7999999999999999 else 0.7)
            else (if titled then 0.6 else 0.5))
    /\ (Binary64.qualityOf source <? 1) = true
    /\ Binary64.calculateSourceQuality [source] = Binary64.qualityOf source
    /\ Binary64.calculateSourceQuality [] = 0.
Proof.
  intros source long longer titled.
  assert (Hlen : longer = true -> long = true).
  { subst long longer. intro H. apply Nat.ltb_lt in H. apply Nat.ltb_lt. lia. }
  unfold Binary64.calculateSourceQuality, Binary64.qualityOf. cbv zeta.
  cbn [fold_left List.length].
  fold long. fold longer. subst titled.
  destruct longer; [rewrite (Hlen eq_refl) | destruct long];
    destruct (Source.title source) as [[| ch t] |];
    cbn [String.length Nat.ltb Nat.leb];
    repeat split; vm_compute; reflexivity.
Qed.

(** A source with more than 500 characters and a title scores
    0.9999999999999999; a short source without a title scores 0.5. *)
Example source_quality_extremes (long : string) :
  (500 < String.length long)%nat ->
  Binary64.qualityOf (Source.mk long (Some "title")) = 0.9999999999999999
  /\ Binary64.qualityOf (Source.mk "short" None) = 0.5.
Proof.
  intro H. unfold Binary64.qualityOf. cbv zeta.
  cbn [Source.content Source.title].
  assert (H1 : Nat.ltb 100 (String.length long) = true)
    by (apply Nat.ltb_lt; lia).
  assert (H5 : Nat.ltb 500 (String.length long) = true)
    by (apply Nat.ltb_lt; lia).
  rewrite H1, H5. split; vm_compute; reflexivity.
Qed.

End Binary64Quality.

(** ** The classifier, continued *)

Lemma matchHere_length (lit s : string) :
  RegExp.matchHere lit s = true ->
  (String.length lit <= String.length s)%nat.
Proof.
  revert s. induction lit as [| a lit IH]; intros s H.
  - cbn. lia.
  - destruct s as [| b s]; [discriminate H |].
    cbn in H. apply andb_true_iff in H as [_ H].
    apply IH in H. cbn. lia.
Qed.

Lemma clarification_is_long (s : string) :
  RegExp.matchAny QueryClassifier.clarification_words s = true ->
  (14 <= String.length s)%nat.
Proof.
  unfold RegExp.matchAny. intro H. apply existsb_exists in H.
  destruct H as (lit & Hin & Hm). apply matchHere_length in Hm.
  unfold QueryClassifier.clarification_words in Hin. cbn [In] in Hin.
  repeat (destruct Hin as [<- | Hin]; [cbn in Hm; lia |]).
  contradiction.
Qed.

(** X13: every query whose trimmed text has at most 10 characters skips
    validation, whatever it says: a short text cannot match a clarification
    pattern (the shortest has 14 characters), and every other outcome for a
    short text skips. *)
Theorem X13_short_queries_skip :
  forall query : string,
    (String.length (JS.toLowerCase (JS.trim query)) <= 10)%nat ->
    QueryClassificationResult.skip_validation
      (QueryClassifier.classifyQuery query) = true.
Proof.
  intros query Hlen. rewrite classifyQuery_documented.
  unfold Documented.classify. cbv zeta.
  set (q := JS.toLowerCase (JS.trim query)) in *.
  destruct (RegExp.matchAny QueryClassifier.greeting_words q); [reflexivity |].
  destruct (RegExp.search QueryClassifier.typo_words q); [reflexivity |].
  destruct (RegExp.matchAny QueryClassifier.small_talk_words q);
    [reflexivity |].
  destruct (RegExp.matchAny QueryClassifier.clarification_words q) eqn:E.
  - apply clarification_is_long in E. lia.
  - destruct (RegExp.matchAny QueryClassifier.meta_words q); [reflexivity |].
    apply Nat.leb_le in Hlen. now rewrite Hlen.
Qed.

Lemma X13_short_queries_skip_witness :
  QueryClassificationResult.skip_validation
    (QueryClassifier.classifyQuery "Is 2+2=5?") = true.
Proof.
  apply X13_short_queries_skip. vm_compute. lia.
Defined.

(** X14: for every query the result skips validation exactly when its type
    is greeting, typo, small talk or meta; a question or a clarification
    never skips.  The confidence is 0.9 for a pattern match, 0.7 for the
    short-text greeting, 0.8 or 0.6 for a question, and nothing else. *)
Theorem X14_classification_invariants :
  forall query : string,
    let r := QueryClassifier.classifyQuery query in
    QueryClassificationResult.skip_validation r
    = QueryClassifier.skippable (QueryClassificationResult.type r)
    /\ (QueryClassificationResult.type r = question
        \/ QueryClassificationResult.type r = clarification ->
        QueryClassificationResult.skip_validation r = false)
    /\ (QueryClassificationResult.type r = question ->
        QueryClassificationResult.confidence r = 0.8%Q
        \/ QueryClassificationResult.confidence r = 0.6%Q)
    /\ (QueryClassificationResult.type r <> question ->
        QueryClassificationResult.confidence r = 0.9%Q
        \/ (QueryClassificationResult.type r = greeting
            /\ QueryClassificationResult.confidence r = 0.7%Q)).
Proof.
  intro query. cbv zeta. rewrite classifyQuery_documented.
  unfold Documented.classify. cbv zeta.
  set (q := JS.toLowerCase (JS.trim query)).
  repeat match goal with
         | |- context [if ?b then _ else _] => destruct b
         end;
    cbn; repeat split; intros; try tauto; try discriminate;
    try (destruct H; discriminate); try (now left); try (now right);
    try (right; split; reflexivity).
Qed.

Lemma toLowerChar_idempotent (c : ascii) :
  JS.toLowerChar (JS.toLowerChar c) = JS.toLowerChar c.
Proof.
  destruct c as [[] [] [] [] [] [] [] []]; reflexivity.
Qed.

Lemma toLowerCase_idempotent (s : string) :
  JS.toLowerCase (JS.toLowerCase s) = JS.toLowerCase s.
Proof.
  unfold JS.toLowerCase.
  induction s as [| c s IH]; cbn; [reflexivity |].
  now rewrite toLowerChar_idempotent, IH.
Qed.

Lemma trimEnd_idempotent (s : string) :
  JS.trimEnd (JS.trimEnd s) = JS.trimEnd s.
Proof.
  induction s as [| c s IH]; [reflexivity |].
  cbn [JS.trimEnd].
  destruct (JS.trimEnd s) as [| d r] eqn:E.
  - destruct (JS.isWhiteSpace c) eqn:Ec; [reflexivity |].
    cbn. now rewrite Ec.
  - assert (X : forall t,
              JS.trimEnd (String c t)
              = match JS.trimEnd t with
                | EmptyString =>
                    if JS.isWhiteSpace c then EmptyString
                    else String c EmptyString
                | String e t' => String c (String e t')
                end) by reflexivity.
    rewrite X, IH. reflexivity.
Qed.

(** Trimming the end keeps the first code unit of what it leaves. *)
Lemma trimStart_trimEnd (s : string) :
  JS.trimStart s = s -> JS.trimStart (JS.trimEnd s) = JS.trimEnd s.
Proof.
  destruct s as [| c s]; [reflexivity |].
  cbn [JS.trimStart JS.trimEnd].
  destruct (JS.isWhiteSpace c) eqn:Ec.
  - intro H. exfalso.
    assert (L : forall t, (String.length (JS.trimStart t)
                           <= String.length t)%nat).
    { induction t as [| d t IHt]; cbn; [lia |].
      destruct (JS.isWhiteSpace d); cbn; lia. }
    specialize (L s). rewrite H in L. cbn in L. lia.
  - intros _. destruct (JS.trimEnd s); cbn; now rewrite Ec.
Qed.

Lemma trimStart_idempotent (s : string) :
  JS.trimStart (JS.trimStart s) = JS.trimStart s.
Proof.
  induction s as [| c s IH]; [reflexivity |].
  cbn [JS.trimStart]. destruct (JS.isWhiteSpace c) eqn:Ec; [exact IH |].
  cbn. now rewrite Ec.
Qed.

Lemma trim_idempotent (s : string) : JS.trim (JS.trim s) = JS.trim s.
Proof.
  unfold JS.trim.
  rewrite (trimStart_trimEnd (JS.trimStart s) (trimStart_idempotent s)).
  apply trimEnd_idempotent.
Qed.

Lemma trimStart_spaces (ws s : string) :
  Text.allWhiteSpace ws = true ->
  JS.trimStart (ws ++ s) = JS.trimStart s.
Proof.
  induction ws as [| c ws IH]; [reflexivity |].
  cbn. intro H. apply andb_true_iff in H as [Hc Hws].
  rewrite Hc. now apply IH.
Qed.

Lemma trimEnd_spaces (ws : string) :
  Text.allWhiteSpace ws = true -> JS.trimEnd ws = EmptyString.
Proof.
  induction ws as [| c ws IH]; [reflexivity |].
  cbn. intro H. apply andb_true_iff in H as [Hc Hws].
  rewrite (IH Hws), Hc. reflexivity.
Qed.

Lemma trim_padding (before after s : string) :
  Text.allWhiteSpace before = true ->
  Text.allWhiteSpace after = true ->
  JS.trim (before ++ s ++ after) = JS.trim s.
Proof.
  intros Hb Ha. unfold JS.trim. rewrite trimStart_spaces by exact Hb.
  clear Hb before.
  induction s as [| c s IH].
  - cbn [append JS.trimStart].
    assert (E : JS.trimStart after = EmptyString).
    { clear -Ha. induction after as [| d t IHt]; [reflexivity |].
      cbn in *. apply andb_true_iff in Ha as [Hd Ht]. rewrite Hd.
      now apply IHt. }
    now rewrite E.
  - cbn [append JS.trimStart]. destruct (JS.isWhiteSpace c); [exact IH |].
    change (String c (s ++ after)) with ((String c s) ++ after).
    rewrite trimEnd_append, (trimEnd_spaces after Ha). reflexivity.
Qed.

(** X15: the classification does not depend on the case of the query nor on
    white space around it: lower-casing the query, trimming it, or padding
    it with white space on either side leaves the result unchanged. *)
Theorem X15_classification_normalises :
  forall (query before after : string),
    Text.allWhiteSpace before = true ->
    Text.allWhiteSpace after = true ->
    QueryClassifier.classifyQuery (before ++ query ++ after)
    = QueryClassifier.classifyQuery query
    /\ QueryClassifier.classifyQuery (JS.toLowerCase query)
       = QueryClassifier.classifyQuery query
    /\ QueryClassifier.classifyQuery (JS.trim query)
       = QueryClassifier.classifyQuery query.
Proof.
  intros query before after Hb Ha.
  unfold QueryClassifier.classifyQuery. cbv zeta.
  split; [| split].
  - now rewrite (trim_padding before after query Hb Ha).
  - now rewrite <- (toLowerCase_trim query), toLowerCase_idempotent.
  - now rewrite trim_idempotent.
Qed.

Lemma X15_classification_normalises_witness :
  QueryClassifier.classifyQuery ("  " ++ "What Is GPT?" ++ " ")
  = QueryClassifier.classifyQuery "What Is GPT?"
  /\ QueryClassifier.classifyQuery (JS.toLowerCase "What Is GPT?")
     = QueryClassifier.classifyQuery "What Is GPT?"
  /\ QueryClassifier.classifyQuery (JS.trim "What Is GPT?")
     = QueryClassifier.classifyQuery "What Is GPT?".
Proof.
  apply X15_classification_normalises; reflexivity.
Defined.

(** ** The context estimate, continued *)

Lemma filter_length_all {A : Type} (f : A -> bool) (l : list A) :
  List.length (List.filter f l) = List.length l
  <-> (forall x, In x l -> f x = true).
Proof.
  induction l as [| a l IH].
  - cbn. split; [intros _ x [] | reflexivity].
  - cbn [List.filter]. pose proof (filter_length_le f l) as Hle.
    destruct (f a) eqn:E; cbn [List.length In].
    + split.
      * intros H x [<- | Hx]; [exact E |].
        apply IH; [lia | exact Hx].
      * intro H. f_equal. apply IH. intros x Hx. apply H. now right.
    + split; [intro H; lia |].
      intro H. specialize (H a (or_introl eq_refl)). congruence.
Qed.

Lemma filter_length_none {A : Type} (f : A -> bool) (l : list A) :
  List.length (List.filter f l) = 0%nat
  <-> (forall x, In x l -> f x = false).
Proof.
  induction l as [| a l IH].
  - cbn. split; [intros _ x [] | reflexivity].
  - cbn [List.filter]. destruct (f a) eqn:E; cbn [List.length In].
    + split; [discriminate |].
      intro H. specialize (H a (or_introl eq_refl)). congruence.
    + split.
      * intros H x [<- | Hx]; [exact E | now apply IH].
      * intro H. apply IH. intros x Hx. apply H. now right.
Qed.

Lemma occursIn_In (pool : list string) (w : string) :
  Documented.occursIn pool w = true <-> In w pool.
Proof.
  unfold Documented.occursIn.
  destruct (in_dec string_dec w pool); split; congruence.
Qed.

Section ContextMore.

Open Scope Q_scope.

Lemma fraction_unfold (count n : nat) :
  Documented.fraction count (S n) = (Z.of_nat count # Pos.of_succ_nat n).
Proof.
  unfold Documented.fraction, Qdiv, Qmult, Qinv, inject_Z. cbn.
  rewrite Z.mul_1_r. reflexivity.
Qed.

Lemma fraction_one (count total : nat) :
  (0 < total)%nat ->
  (Documented.fraction count total == 1 <-> count = total).
Proof.
  intro Ht. destruct total as [| n]; [lia |]. rewrite fraction_unfold.
  unfold Qeq. cbn [Qnum Qden]. rewrite Zpos_P_of_succ_nat. lia.
Qed.

Lemma fraction_zero (count total : nat) :
  (0 < total)%nat ->
  (Documented.fraction count total == 0 <-> count = 0%nat).
Proof.
  intro Ht. destruct total as [| n]; [lia |]. rewrite fraction_unfold.
  unfold Qeq. cbn [Qnum Qden]. lia.
Qed.

(** The relevance of a response that has words, as a plain fraction. *)
Lemma relevance_fraction
  (query response : string) (sources : list Source.t) :
  sources <> [] ->
  Documented.qualifying 3 response <> [] ->
  ContextResult.source_relevance
    (AIValidator.calculateContextRelevance query response sources)
  == Documented.fraction
       (Documented.occurrences (Documented.qualifying 3 response)
          (Documented.sourceTokens sources))
       (List.length (Documented.qualifying 3 response)).
Proof.
  intros Hsrc Hwords.
  destruct (calculateContextRelevance_documented query response sources Hsrc)
    as (Hrel & _ & _).
  rewrite Hrel.
  cbn [Documented.contextRelevance ContextResult.source_relevance].
  unfold Documented.source_relevance. cbv zeta.
  destruct (Documented.qualifying 3 response) as [| w ws] eqn:E;
    [contradiction |].
  rewrite <- E.
  assert (Hlen : (0 < List.length (Documented.qualifying 3 response))%nat)
    by (rewrite E; cbn; lia).
  pose proof (ratio_range _ _ Hlen
                (occurrences_le (Documented.qualifying 3 response)
                   (Documented.sourceTokens sources))) as [_ H1].
  apply Q.min_l. exact H1.
Qed.

(** X16: for a response that has words longer than 3 characters and a
    non-empty list of sources, [source_relevance] is 1 exactly when every
    such word occurs among the source tokens, and 0 exactly when none does
    (and then [valid] is false).  In particular a response that equals the
    content of the only source up to case and punctuation has relevance 1. *)
Theorem X16_relevance_extremes :
  forall (query response : string) (sources : list Source.t),
    sources <> [] ->
    Documented.qualifying 3 response <> [] ->
    let c := AIValidator.calculateContextRelevance query response sources in
    (ContextResult.source_relevance c == 1
     <-> forall w, In w (Documented.qualifying 3 response) ->
                   In w (Documented.sourceTokens sources))
    /\ (ContextResult.source_relevance c == 0
        <-> forall w, In w (Documented.qualifying 3 response) ->
                      ~ In w (Documented.sourceTokens sources))
    /\ (ContextResult.source_relevance c == 0 ->
        ContextResult.valid c = false)
    /\ (forall s,
          sources = [s] ->
          JS.stripPunctuation (JS.toLowerCase response)
          = JS.stripPunctuation (JS.toLowerCase (Source.content s)) ->
          ContextResult.source_relevance c == 1).
Proof.
  intros query response sources Hsrc Hwords c.
  pose proof (relevance_fraction query response sources Hsrc Hwords) as Hrel.
  fold c in Hrel.
  assert (Hlen : (0 < List.length (Documented.qualifying 3 response))%nat).
  { destruct (Documented.qualifying 3 response); [contradiction | cbn; lia]. }
  assert (H1 : ContextResult.source_relevance c == 1
               <-> forall w, In w (Documented.qualifying 3 response) ->
                             In w (Documented.sourceTokens sources)).
  { rewrite Hrel, (fraction_one _ _ Hlen).
    unfold Documented.occurrences. rewrite filter_length_all.
    split; intros H w Hw; apply occursIn_In; now apply H. }
  assert (H0 : ContextResult.source_relevance c == 0
               <-> forall w, In w (Documented.qualifying 3 response) ->
                             ~ In w (Documented.sourceTokens sources)).
  { rewrite Hrel, (fraction_zero _ _ Hlen).
    unfold Documented.occurrences. rewrite filter_length_none.
    split; intros H w Hw.
    - intro Hin. apply occursIn_In in Hin. rewrite (H w Hw) in Hin.
      discriminate.
    - apply not_true_is_false. intro Ht. apply occursIn_In in Ht.
      now apply (H w Hw). }
  split; [exact H1 |]. split; [exact H0 |]. split.
  - intro Hz.
    destruct (calculateContextRelevance_documented query response sources
                Hsrc) as (Hr & _ & Hv).
    fold c in Hr, Hv. rewrite Hv.
    cbn [Documented.contextRelevance ContextResult.valid
         ContextResult.source_relevance] in *.
    rewrite <- (Qle_bool_Qeq _ _ 0.3 Hr), (Qle_bool_Qeq _ _ 0.3 Hz).
    reflexivity.
  - intros s -> Hsame. apply H1. intros w Hw.
    unfold Documented.qualifying, Documented.tokens in Hw.
    apply filter_In in Hw as [Hw _].
    unfold Documented.sourceTokens. cbn [List.map JS.join].
    now rewrite <- Hsame.
Qed.

Lemma X16_relevance_extremes_witness :
  ContextResult.source_relevance
    (AIValidator.calculateContextRelevance "What is GPT?"
       "GPT is a language model!" [Sample.source]) == 1.
Proof.
  assert (Hsrc : [Sample.source] <> []) by discriminate.
  assert (Hwords : Documented.qualifying 3 "GPT is a language model!" <> [])
    by (vm_compute; discriminate).
  destruct (X16_relevance_extremes "What is GPT?" "GPT is a language model!"
              [Sample.source] Hsrc Hwords) as (_ & _ & _ & Hsame).
  assert (Hclean :
            JS.stripPunctuation (JS.toLowerCase "GPT is a language model!")
            = JS.stripPunctuation
                (JS.toLowerCase (Source.content Sample.source)))
    by (vm_compute; reflexivity).
  exact (Hsame Sample.source eq_refl Hclean).
Defined.

Lemma occurrences_longer (n m : nat) (tokens pool : list string) :
  (n <= m)%nat ->
  Documented.occurrences (List.filter (AIValidator.longerThan n) tokens)
    (List.filter (AIValidator.longerThan m) pool)
  = Documented.occurrences (List.filter (AIValidator.longerThan m) tokens)
      (List.filter (AIValidator.longerThan m) pool).
Proof.
  intro Hnm. unfold Documented.occurrences.
  induction tokens as [| t tokens IH]; [reflexivity |].
  cbn [List.filter].
  destruct (AIValidator.longerThan m t) eqn:Em.
  - assert (En : AIValidator.longerThan n t = true).
    { unfold AIValidator.longerThan in *. apply Nat.ltb_lt.
      apply Nat.ltb_lt in Em. lia. }
    rewrite En. cbn [List.filter].
    destruct (Documented.occursIn _ t); cbn [List.length]; now rewrite IH.
  - destruct (AIValidator.longerThan n t); [| exact IH].
    cbn [List.filter].
    destruct (Documented.occursIn _ t) eqn:Eo; [| exact IH].
    apply occursIn_In in Eo. apply filter_In in Eo as [_ Eo]. congruence.
Qed.

(** X17: the usage rate divides by the number of query words longer than 2
    characters but only a query word longer than 3 characters can be found
    in the response word set; a query whose words all have three characters
    has a usage rate of 0 whatever the response says. *)
Theorem X17_usage_rate_numerator :
  forall (query response : string) (sources : list Source.t),
    sources <> [] ->
    Documented.qualifying 2 query <> [] ->
    let c := AIValidator.calculateContextRelevance query response sources in
    ContextResult.source_usage_rate c
    == Documented.fraction
         (Documented.occurrences (Documented.qualifying 3 query)
            (Documented.qualifying 3 response))
         (List.length (Documented.qualifying 2 query))
    /\ (Documented.qualifying 3 query = [] ->
        ContextResult.source_usage_rate c == 0).
Proof.
  intros query response sources Hsrc Hwords c.
  destruct (calculateContextRelevance_documented query response sources Hsrc)
    as (_ & Huse & _).
  fold c in Huse.
  cbn [Documented.contextRelevance ContextResult.source_usage_rate] in Huse.
  unfold Documented.source_usage_rate in Huse. cbv zeta in Huse.
  destruct (Documented.qualifying 2 query) as [| w ws] eqn:E;
    [contradiction |].
  rewrite <- E in *.
  assert (Hocc :
    Documented.occurrences (Documented.qualifying 2 query)
      (Documented.qualifying 3 response)
    = Documented.occurrences (Documented.qualifying 3 query)
        (Documented.qualifying 3 response)).
  { unfold Documented.qualifying.
    apply (occurrences_longer 2 3). lia. }
  rewrite Hocc in Huse. split; [exact Huse |].
  intro Hnone. rewrite Huse, Hnone. apply fraction_zero; [| reflexivity].
  rewrite E. cbn. lia.
Qed.

Lemma X17_usage_rate_numerator_witness :
  ContextResult.source_usage_rate
    (AIValidator.calculateContextRelevance "Who won the cup?"
       "The cup was won by the red team" [Sample.source]) == 0.
Proof.
  assert (Hsrc : [Sample.source] <> []) by discriminate.
  assert (Hwords : Documented.qualifying 2 "Who won the cup?" <> [])
    by (vm_compute; discriminate).
  destruct (X17_usage_rate_numerator "Who won the cup?"
              "The cup was won by the red team" [Sample.source] Hsrc Hwords)
    as [_ Hzero].
  apply Hzero. vm_compute. reflexivity.
Defined.

(** X18: for every query, response and list of sources, both
    [source_relevance] and [source_usage_rate] lie in [0,1]; the estimate is
    never valid without sources, and a valid estimate has a relevance above
    0.3. *)
Theorem X18_context_ranges :
  forall (query response : string) (sources : list Source.t),
    let c := AIValidator.calculateContextRelevance query response sources in
    inUnit (ContextResult.source_relevance c)
    /\ inUnit (ContextResult.source_usage_rate c)
    /\ (sources = [] -> ContextResult.valid c = false)
    /\ (ContextResult.valid c = true ->
        0.3 < ContextResult.source_relevance c).
Proof.
  intros query response sources c.
  pose proof (contextRelevance_range query response sources) as [Hr Hu].
  fold c in Hr, Hu.
  split; [exact Hr |]. split; [exact Hu |]. split.
  - intros ->. reflexivity.
  - subst c. destruct sources as [| s rest]; [discriminate |].
    destruct (contextRelevance_fields query response s rest)
      as (rw & sw & qw & E).
    rewrite E.
    cbn [ContextResult.valid ContextResult.source_relevance].
    pose proof (rate_range _ rw (countIncluded_le rw sw)) as [_ R1].
    set (x := if Nat.ltb 0 (List.length rw) then _ else _) in *.
    intro Hv. apply negb_true_iff in Hv.
    assert (Hx : 0.3 < x).
    { apply Qnot_le_lt. intro H. apply Qle_bool_iff in H. congruence. }
    assert (Hm : Qmin x 1.0 == x) by (apply Q.min_l; lra).
    rewrite Hm. exact Hx.
Qed.

End ContextMore.

(** ** Code fences *)

Lemma space_not_backtick (c : ascii) :
  JS.isWhiteSpace c = true -> Text.isBacktick c = false.
Proof.
  destruct c as [[] [] [] [] [] [] [] []]; vm_compute; congruence.
Qed.

Lemma all_weaken (f g : ascii -> bool) (s : string) :
  (forall c, f c = true -> g c = true) ->
  Text.all f s = true -> Text.all g s = true.
Proof.
  intro Hfg. induction s as [| c s IH]; [reflexivity |].
  cbn. intro H. apply andb_true_iff in H as [Hc Hs].
  now rewrite (Hfg c Hc), (IH Hs).
Qed.

Lemma spaces_noBacktick (w : string) :
  Text.allWhiteSpace w = true -> Text.noBacktick w = true.
Proof.
  apply all_weaken. intros c Hc. now rewrite (space_not_backtick c Hc).
Qed.

Lemma all_append (f : ascii -> bool) (a b : string) :
  Text.all f (a ++ b) = Text.all f a && Text.all f b.
Proof.
  induction a as [| c a IH]; [reflexivity |].
  cbn. now rewrite IH, andb_assoc.
Qed.

Lemma prefix_backtick (l s : string) (c : ascii) :
  Text.isBacktick c = false ->
  String.prefix (String "`" l) (String c s) = false.
Proof.
  intro Hc. cbn [String.prefix].
  destruct (ascii_dec "`" c) as [<- |]; [| reflexivity].
  vm_compute in Hc. discriminate Hc.
Qed.

Lemma prefix_self (l v : string) : String.prefix l (l ++ v) = true.
Proof.
  induction l as [| c l IH]; [destruct v; reflexivity |].
  cbn [append String.prefix].
  destruct (ascii_dec c c); [exact IH | contradiction].
Qed.

Section Fences.

Variable l : string.

(** Text without a backtick is copied. *)
Lemma remove_plain (u v : string) :
  Text.noBacktick u = true ->
  JS.removeAux (String "`" l) (u ++ v) 0 false = u ++ JS.removeAux (String "`" l) v 0 false.
Proof.
  induction u as [| c u IH]; [reflexivity |].
  cbn [Text.noBacktick Text.all]. intro H.
  apply andb_true_iff in H as [Hc Hu]. apply negb_true_iff in Hc.
  cbn [append JS.removeAux andb].
  rewrite (prefix_backtick l (u ++ v) c Hc).
  now rewrite (IH Hu).
Qed.

(** After an occurrence, text that begins with a solid code unit and has no
    backtick is copied. *)
Lemma remove_solid (u v : string) :
  Text.startsSolid u = true ->
  Text.noBacktick u = true ->
  JS.removeAux (String "`" l) (u ++ v) 0 true = u ++ JS.removeAux (String "`" l) v 0 false.
Proof.
  destruct u as [| c u]; [discriminate |].
  cbn [Text.startsSolid Text.noBacktick Text.all]. intros Hs H.
  apply negb_true_iff in Hs.
  apply andb_true_iff in H as [Hc Hu]. apply negb_true_iff in Hc.
  cbn [append JS.removeAux]. rewrite Hs. cbn [andb].
  rewrite (prefix_backtick l (u ++ v) c Hc).
  f_equal. now apply remove_plain.
Qed.

(** After an occurrence, white space is dropped. *)
Lemma remove_spaces (w v : string) :
  Text.allWhiteSpace w = true ->
  JS.removeAux (String "`" l) (w ++ v) 0 true = JS.removeAux (String "`" l) v 0 true.
Proof.
  induction w as [| c w IH]; [reflexivity |].
  cbn [Text.allWhiteSpace Text.all]. intro H.
  apply andb_true_iff in H as [Hc Hw].
  cbn [append JS.removeAux]. rewrite Hc. cbn [andb]. now apply IH.
Qed.

Lemma remove_skip (x v : string) :
  JS.removeAux (String "`" l) (x ++ v) (String.length x) true = JS.removeAux (String "`" l) v 0 true.
Proof.
  induction x as [| c x IH]; [reflexivity |].
  cbn [append String.length JS.removeAux]. exact IH.
Qed.

(** An occurrence of the literal is dropped. *)
Lemma remove_occurrence (v : string) :
  JS.removeAux (String "`" l) ((String "`" l) ++ v) 0 false = JS.removeAux (String "`" l) v 0 true.
Proof.
  assert (P : String.prefix (String "`" l) ((String "`" l) ++ v) = true) by apply prefix_self.
  cbn [append] in P. cbn [append JS.removeAux andb]. rewrite P.
  replace (String.length (String "`" l) - 1)%nat with (String.length l)
    by (cbn [String.length]; lia).
  apply remove_skip.
Qed.

End Fences.

Lemma prefix_cancel (a b w : string) :
  String.prefix (a ++ b) (a ++ w) = String.prefix b w.
Proof.
  induction a as [| c a IH]; [reflexivity |].
  cbn [append String.prefix].
  destruct (ascii_dec c c); [exact IH | contradiction].
Qed.

Lemma prefix_before_spaces (d : ascii) (b w : string) :
  Text.allWhiteSpace w = true ->
  JS.isWhiteSpace d = false ->
  String.prefix (String d b) w = false.
Proof.
  intros Hw Hd. destruct w as [| c w]; [reflexivity |].
  cbn [String.prefix]. destruct (ascii_dec d c) as [-> |]; [| reflexivity].
  cbn in Hw. apply andb_true_iff in Hw as [Hc _]. congruence.
Qed.

Lemma remove_step (lit s : string) (c : ascii) :
  String.prefix lit (String c s) = false ->
  JS.removeAux lit (String c s) 0 false
  = String c (JS.removeAux lit s 0 false).
Proof.
  intro H. cbn [JS.removeAux andb]. now rewrite H.
Qed.

Lemma append_empty (s : string) : s ++ EmptyString = s.
Proof.
  induction s as [| c s IH]; [reflexivity |]. cbn. now rewrite IH.
Qed.

(** A closing fence is no occurrence of the opening one. *)
Lemma closing_fence_kept (w : string) :
  Text.allWhiteSpace w = true ->
  JS.removeAux "```json" ("```" ++ w) 0 false = "```" ++ w.
Proof.
  intro Hw.
  assert (P3 : String.prefix "```json" ("```" ++ w) = false).
  { change "```json" with ("```" ++ "json").
    rewrite (prefix_cancel "```" "json" w).
    apply prefix_before_spaces; [exact Hw | reflexivity]. }
  assert (P2 : String.prefix "```json" ("``" ++ w) = false).
  { change "```json" with ("``" ++ "`json").
    rewrite (prefix_cancel "``" "`json" w).
    apply prefix_before_spaces; [exact Hw | reflexivity]. }
  assert (P1 : String.prefix "```json" ("`" ++ w) = false).
  { change "```json" with ("`" ++ "``json").
    rewrite (prefix_cancel "`" "``json" w).
    apply prefix_before_spaces; [exact Hw | reflexivity]. }
  change ("```" ++ w) with (String "`" ("``" ++ w)) in *.
  rewrite (remove_step _ _ _ P3).
  change ("``" ++ w) with (String "`" ("`" ++ w)) in *.
  rewrite (remove_step _ _ _ P2).
  change ("`" ++ w) with (String "`" w) in *.
  rewrite (remove_step _ _ _ P1).
  rewrite <- (append_empty w) at 1.
  rewrite (remove_plain "``json" w EmptyString (spaces_noBacktick w Hw)).
  cbn [JS.removeAux]. now rewrite append_empty.
Qed.

Lemma trimStart_solid (s : string) :
  Text.startsSolid s = true -> JS.trimStart s = s.
Proof.
  destruct s as [| c s]; [reflexivity |].
  cbn. intro H. apply negb_true_iff in H. now rewrite H.
Qed.

(** ** Judge output that does not parse, continued *)

(** The cleaning removes a [```json] fence around a body. *)
Lemma cleaned_wrapped (body w1 w2 w3 : string) :
  Text.noBacktick body = true ->
  Text.startsSolid body = true ->
  JS.trimEnd body = body ->
  Text.allWhiteSpace w1 = true ->
  Text.allWhiteSpace w2 = true ->
  Text.allWhiteSpace w3 = true ->
  AccuracyChecker.cleaned ("```json" ++ w1 ++ body ++ w2 ++ "```" ++ w3)
  = body.
Proof.
  intros Hbt Hsolid Hend H1 H2 H3.
  unfold AccuracyChecker.cleaned, JS.removeWithSpaces.
  rewrite (remove_occurrence "``json").
  rewrite (remove_spaces "``json" w1 _ H1).
  rewrite (remove_solid "``json" body _ Hsolid Hbt).
  rewrite (remove_plain "``json" w2 _ (spaces_noBacktick w2 H2)).
  rewrite (closing_fence_kept w3 H3).
  assert (A : body ++ w2 ++ "```" ++ w3 = (body ++ w2) ++ "```" ++ w3).
  { clear. induction body as [| c b IH]; [reflexivity |].
    change (String c (b ++ w2 ++ "```" ++ w3)
            = String c ((b ++ w2) ++ "```" ++ w3)).
    f_equal. exact IH. }
  rewrite A.
  assert (Hbw : Text.noBacktick (body ++ w2) = true).
  { unfold Text.noBacktick. rewrite all_append.
    apply andb_true_iff. split; [exact Hbt |].
    now apply spaces_noBacktick. }
  rewrite (remove_plain "``" (body ++ w2) _ Hbw).
  rewrite (remove_occurrence "``").
  rewrite <- (append_empty w3).
  rewrite (remove_spaces "``" w3 EmptyString H3).
  cbn [JS.removeAux]. rewrite append_empty.
  unfold JS.trim.
  assert (S : Text.startsSolid (body ++ w2) = true)
    by (destruct body; [discriminate | exact Hsolid]).
  rewrite (trimStart_solid _ S), trimEnd_append, (trimEnd_spaces w2 H2).
  exact Hend.
Qed.

(** What a check does with the text of the judge: the text (on the OpenAI
    path, "{}" in place of an empty text) is parsed and the result is read
    off the parsed value, inside the [try] block. *)
Lemma checks_read_text
  (JSON_parse : string -> option JSON.value)
  (accuracyChecker : AccuracyChecker.t) (detector : HallucinationDetector.t)
  (response : string) (sources : list Source.t)
  (llmProvider : LLMProvider) (model : option string)
  (judge : Judge.request -> Judge.reply) (raw : string) :
  sources <> [] ->
  Expected.accuracyClient accuracyChecker llmProvider <> None ->
  Expected.hallucinationClient detector llmProvider <> None ->
  Judge.outputs judge raw ->
  let text :=
    match llmProvider with
    | openai => stringOr (Some raw) "{}"
    | claude => raw
    end in
  Judge.result judge
    (AccuracyChecker.checkAccuracy JSON_parse accuracyChecker response
       sources llmProvider model)
  = Judge.result judge
      (Judge.tryCatch
         (AccuracyChecker.toResult
            (AccuracyChecker.parseLLMResponse JSON_parse text))
         (fun error => Judge.Ret (AccuracyChecker.failed error)))
  /\ Judge.result judge
       (HallucinationDetector.detectHallucination JSON_parse detector
          response sources llmProvider model)
     = Judge.result judge
         (Judge.tryCatch
            (HallucinationDetector.toResult
               (HallucinationDetector.parseLLMResponse JSON_parse text))
            (fun _ => Judge.Ret HallucinationDetector.failed)).
Proof.
  intros Hsources Hca Hch Hjudge text. subst text.
  destruct sources as [| s rest]; [contradiction |].
  unfold AccuracyChecker.checkAccuracy,
    HallucinationDetector.detectHallucination. cbv zeta.
  unfold Expected.accuracyClient, Expected.hallucinationClient in Hca, Hch.
  unfold Judge.result.
  destruct llmProvider.
  - destruct (AccuracyChecker.openaiClient accuracyChecker);
      [| contradiction].
    destruct (HallucinationDetector.openaiClient detector);
      [| contradiction].
    unfold AccuracyChecker.checkAccuracyWithOpenAI,
      HallucinationDetector.detectHallucinationWithOpenAI.
    cbn [Judge.bind Judge.tryCatch Judge.await Judge.run].
    split;
      match goal with |- context [judge ?req] =>
        pose proof (Hjudge req) as Hr; cbn [Judge.backend] in Hr;
        rewrite Hr end;
      cbn [Judge.bind Judge.tryCatch];
      match goal with |- context [Judge.run judge ?p] =>
        destruct (Judge.run judge p) end;
      reflexivity.
  - assert (XA : exists k, AccuracyChecker.claudeClient accuracyChecker
                           = Some k).
    { destruct (AccuracyChecker.claudeClient accuracyChecker) as [k |];
        [now exists k | contradiction]. }
    assert (XH : exists k, HallucinationDetector.claudeClient detector
                           = Some k).
    { destruct (HallucinationDetector.claudeClient detector) as [k |];
        [now exists k | contradiction]. }
    destruct XA as [ka ->]. destruct XH as [kh ->].
    unfold AccuracyChecker.checkAccuracyWithClaude,
      HallucinationDetector.detectHallucinationWithClaude.
    split.
    + destruct (AccuracyChecker.openaiClient accuracyChecker);
        cbn [Judge.bind Judge.tryCatch Judge.await Judge.run];
        match goal with |- context [judge ?req] =>
          pose proof (Hjudge req) as Hr; cbn [Judge.backend] in Hr;
          destruct Hr as [more Hr]; rewrite Hr end;
        cbn [Judge.bind Judge.tryCatch];
        match goal with |- context [Judge.run judge ?p] =>
          destruct (Judge.run judge p) end;
        reflexivity.
    + destruct (HallucinationDetector.openaiClient detector);
        cbn [Judge.bind Judge.tryCatch Judge.await Judge.run];
        match goal with |- context [judge ?req] =>
          pose proof (Hjudge req) as Hr; cbn [Judge.backend] in Hr;
          destruct Hr as [more Hr]; rewrite Hr end;
        cbn [Judge.bind Judge.tryCatch];
        match goal with |- context [Judge.run judge ?p] =>
          destruct (Judge.run judge p) end;
        reflexivity.
Qed.

(** C7: a text of the judge that is not valid JSON as it is goes through the
    cleaning [content.replace(/```json\s*/g, '').replace(/```\s*/g,
    '').trim()] and is parsed again, in both checkers alike.  The cleaning
    removes the fence: of a [```json] fence, white space, a body, white
    space, the closing fence and white space it leaves the body (the body
    having no backtick and no white space at its ends).  When the cleaned
    text parses, the result of each check is read off the parsed value.
    When it does not parse either, each checker goes on with the empty
    object, whose missing fields default, and returns
    [{verified: false, verification_rate: 0}], respectively
    [{detected: false, risk: 0, hallucinated_parts: []}].  (The parser reads
    the text "{}" as the empty object; the OpenAI path hands it that text in
    place of an empty answer.) *)
Theorem C7_fences_stripped_then_defaults :
  forall (JSON_parse : string -> option JSON.value)
         (accuracyChecker : AccuracyChecker.t)
         (detector : HallucinationDetector.t)
         (response : string) (sources : list Source.t)
         (llmProvider : LLMProvider) (model : option string)
         (judge : Judge.request -> Judge.reply) (raw : string),
    JSON_parse "{}" = Some (JSON.Object []) ->
    JSON_parse raw = None ->
    sources <> [] ->
    Expected.accuracyClient accuracyChecker llmProvider <> None ->
    Expected.hallucinationClient detector llmProvider <> None ->
    Judge.outputs judge raw ->
    let stripped := AccuracyChecker.cleaned raw in
    let accuracy :=
      Judge.result judge
        (AccuracyChecker.checkAccuracy JSON_parse accuracyChecker response
           sources llmProvider model) in
    let hallucination :=
      Judge.result judge
        (HallucinationDetector.detectHallucination JSON_parse detector
           response sources llmProvider model) in
    HallucinationDetector.cleaned raw = stripped
    /\ (forall body w1 w2 w3 : string,
          Text.noBacktick body = true ->
          Text.startsSolid body = true ->
          JS.trimEnd body = body ->
          Text.allWhiteSpace w1 = true ->
          Text.allWhiteSpace w2 = true ->
          Text.allWhiteSpace w3 = true ->
          raw = "```json" ++ w1 ++ body ++ w2 ++ "```" ++ w3 ->
          stripped = body)
    /\ (forall (v : JSON.value) (a : AccuracyResult.t),
          JSON_parse stripped = Some v ->
          AccuracyChecker.toResult v = Judge.Ret a ->
          accuracy = Judge.Returned a)
    /\ (forall (v : JSON.value) (h : HallucinationResult.t),
          JSON_parse stripped = Some v ->
          HallucinationDetector.toResult v = Judge.Ret h ->
          hallucination = Judge.Returned h)
    /\ (JSON_parse stripped = None ->
        AccuracyChecker.parseLLMResponse JSON_parse raw = JSON.Object []
        /\ HallucinationDetector.parseLLMResponse JSON_parse raw
           = JSON.Object []
        /\ accuracy = Judge.Returned (AccuracyResult.mk false 0 None)
        /\ hallucination
           = Judge.Returned (HallucinationResult.mk false 0 (Some []))).
Proof.
  intros JSON_parse accuracyChecker detector response sources llmProvider
    model judge raw Hempty Hraw Hsources Hca Hch Hjudge
    stripped accuracy hallucination.
  destruct (checks_read_text JSON_parse accuracyChecker detector response
              sources llmProvider model judge raw Hsources Hca Hch Hjudge)
    as [HA HH].
  fold accuracy in HA. fold hallucination in HH.
  destruct (parseLLMResponse_retry JSON_parse raw Hraw) as [RA RH].
  change (HallucinationDetector.cleaned raw) with stripped in RH.
  fold stripped in RA.
  assert (HA0 : AccuracyChecker.parseLLMResponse JSON_parse "{}"
                = JSON.Object []).
  { unfold AccuracyChecker.parseLLMResponse. now rewrite Hempty. }
  assert (HH0 : HallucinationDetector.parseLLMResponse JSON_parse "{}"
                = JSON.Object []).
  { unfold HallucinationDetector.parseLLMResponse. now rewrite Hempty. }
  (* the text that is parsed: the raw text, or "{}" for an empty one *)
  set (text := match llmProvider with
               | openai => stringOr (Some raw) "{}"
               | claude => raw
               end) in *.
  assert (Htext : text = raw \/ (raw = EmptyString /\ text = "{}")).
  { subst text. destruct llmProvider; [| now left].
    destruct raw as [| ch t]; [right; split; reflexivity | now left]. }
  split; [reflexivity |].
  split.
  { intros body w1 w2 w3 Hbt Hsolid Hend H1 H2 H3 ->.
    now apply cleaned_wrapped. }
  split.
  { intros v a Hv Ha. rewrite HA.
    destruct Htext as [-> | [-> _]].
    - rewrite RA, Hv, Ha. reflexivity.
    - subst stripped. cbn in Hv. congruence. }
  split.
  { intros v h Hv Hh. rewrite HH.
    destruct Htext as [-> | [-> _]].
    - rewrite RH, Hv, Hh. reflexivity.
    - subst stripped. cbn in Hv. congruence. }
  intro Hnone. rewrite Hnone in RA, RH.
  split; [exact RA |]. split; [exact RH |].
  rewrite HA, HH.
  destruct Htext as [-> | [_ ->]].
  - rewrite RA, RH. split; reflexivity.
  - rewrite HA0, HH0. split; reflexivity.
Qed.

(** The judge wraps prose in a fence; the validator holds an OpenAI
    client.  The cleaning leaves the prose, which does not parse. *)
Lemma C7_fences_stripped_then_defaults_witness :
  let raw :=
    "```json" ++ lineFeed ++ "not json" ++ lineFeed ++ "```" ++ EmptyString in
  AccuracyChecker.cleaned raw = "not json"
  /\ Judge.result (Sample.textJudge raw)
       (AccuracyChecker.checkAccuracy Sample.parseEmptyObject
          (AIValidator.accuracyChecker Sample.validator)
          "GPT is a model" [Sample.source] openai None)
     = Judge.Returned (AccuracyResult.mk false 0 None)
  /\ Judge.result (Sample.textJudge raw)
       (HallucinationDetector.detectHallucination Sample.parseEmptyObject
          (AIValidator.hallucinationDetector Sample.validator)
          "GPT is a model" [Sample.source] openai None)
     = Judge.Returned (HallucinationResult.mk false 0 (Some [])).
Proof.
  intro raw.
  assert (Hjudge : Judge.outputs (Sample.textJudge raw) raw).
  { intro req. unfold Sample.textJudge.
    destruct (Judge.backend req); [reflexivity | eexists; reflexivity]. }
  assert (Hsources : [Sample.source] <> []) by discriminate.
  assert (Hca : Expected.accuracyClient
                  (AIValidator.accuracyChecker Sample.validator) openai
                <> None) by discriminate.
  assert (Hch : Expected.hallucinationClient
                  (AIValidator.hallucinationDetector Sample.validator) openai
                <> None) by discriminate.
  destruct (C7_fences_stripped_then_defaults Sample.parseEmptyObject
              (AIValidator.accuracyChecker Sample.validator)
              (AIValidator.hallucinationDetector Sample.validator)
              "GPT is a model" [Sample.source] openai None
              (Sample.textJudge raw) raw
              eq_refl eq_refl Hsources Hca Hch Hjudge)
    as (_ & Hstrip & _ & _ & Hdefault).
  split.
  - apply (Hstrip "not json" lineFeed lineFeed EmptyString);
      reflexivity.
  - destruct (Hdefault eq_refl) as (_ & _ & Hacc & Hhall).
    split; assumption.
Defined.

(** X19: a body wrapped in a [```json] fence is recovered exactly: when the
    body has no backtick and no white space at its ends, the cleaning of
    the fence, white space, the body, white space, the closing fence and
    white space is the body; a body without fence is left as it is.  Hence a
    fenced answer whose body parses yields the parsed body. *)
Theorem X19_fenced_json :
  forall (JSON_parse : string -> option JSON.value)
         (body w1 w2 w3 : string) (v : JSON.value),
    Text.noBacktick body = true ->
    Text.startsSolid body = true ->
    JS.trimEnd body = body ->
    Text.allWhiteSpace w1 = true ->
    Text.allWhiteSpace w2 = true ->
    Text.allWhiteSpace w3 = true ->
    let fenced := "```json" ++ w1 ++ body ++ w2 ++ "```" ++ w3 in
    AccuracyChecker.cleaned fenced = body
    /\ HallucinationDetector.cleaned fenced = body
    /\ AccuracyChecker.cleaned body = body
    /\ (JSON_parse fenced = None ->
        JSON_parse body = Some v ->
        AccuracyChecker.parseLLMResponse JSON_parse fenced = v
        /\ HallucinationDetector.parseLLMResponse JSON_parse fenced = v).
Proof.
  intros JSON_parse body w1 w2 w3 v Hbt Hsolid Hend H1 H2 H3 fenced.
  assert (Htrim : forall w, Text.allWhiteSpace w = true ->
                            JS.trim (body ++ w) = body).
  { intros w Hw. unfold JS.trim.
    assert (S : Text.startsSolid (body ++ w) = true)
      by (destruct body; [discriminate | exact Hsolid]).
    rewrite (trimStart_solid _ S), trimEnd_append, (trimEnd_spaces w Hw).
    exact Hend. }
  assert (Hplain : AccuracyChecker.cleaned body = body).
  { unfold AccuracyChecker.cleaned, JS.removeWithSpaces.
    rewrite <- (append_empty body) at 1.
    rewrite (remove_plain "``json" body EmptyString Hbt).
    cbn [JS.removeAux]. rewrite append_empty.
    rewrite <- (append_empty body) at 1.
    rewrite (remove_plain "``" body EmptyString Hbt).
    cbn [JS.removeAux].
    apply (Htrim EmptyString). reflexivity. }
  assert (Hfenced : AccuracyChecker.cleaned fenced = body).
  { subst fenced. unfold AccuracyChecker.cleaned, JS.removeWithSpaces.
    rewrite (remove_occurrence "``json").
    rewrite (remove_spaces "``json" w1 _ H1).
    rewrite (remove_solid "``json" body _ Hsolid Hbt).
    rewrite (remove_plain "``json" w2 _ (spaces_noBacktick w2 H2)).
    rewrite (closing_fence_kept w3 H3).
    assert (A : body ++ w2 ++ "```" ++ w3 = (body ++ w2) ++ "```" ++ w3).
    { clear. induction body as [| c b IH]; [reflexivity |].
      change (String c (b ++ w2 ++ "```" ++ w3)
              = String c ((b ++ w2) ++ "```" ++ w3)).
      f_equal. exact IH. }
    rewrite A.
    assert (Hbw : Text.noBacktick (body ++ w2) = true).
    { unfold Text.noBacktick. rewrite all_append.
      apply andb_true_iff. split; [exact Hbt |].
      now apply spaces_noBacktick. }
    rewrite (remove_plain "``" (body ++ w2) _ Hbw).
    rewrite (remove_occurrence "``").
    rewrite <- (append_empty w3).
    rewrite (remove_spaces "``" w3 EmptyString H3).
    cbn [JS.removeAux]. rewrite append_empty.
    apply (Htrim w2 H2). }
  split; [exact Hfenced |]. split; [exact Hfenced |].
  split; [exact Hplain |].
  intros Hnone Hsome.
  unfold AccuracyChecker.parseLLMResponse,
    HallucinationDetector.parseLLMResponse.
  change (HallucinationDetector.cleaned fenced)
    with (AccuracyChecker.cleaned fenced).
  rewrite Hnone, Hfenced, Hsome. split; reflexivity.
Qed.

Lemma X19_fenced_json_witness :
  AccuracyChecker.parseLLMResponse Sample.parseEmptyObject
    ("```json" ++ lineFeed ++ "{}" ++ lineFeed ++ "```" ++ "")
  = JSON.Object [].
Proof.
  refine (proj1 (proj2 (proj2 (proj2
            (X19_fenced_json Sample.parseEmptyObject "{}" lineFeed lineFeed
               "" (JSON.Object [])
               eq_refl eq_refl eq_refl eq_refl eq_refl eq_refl)))
            eq_refl eq_refl)).
Defined.

(** ** Answers without text *)

(** X20: an answer without usable text is read as the empty object.  When
    the chat completion has a [null] or empty content, or the first block of
    the message is not text, the accuracy check returns "not verified, rate
    0" without a reason and the hallucination check returns "nothing
    detected, risk 0, no parts": the two checks lean opposite ways on the
    same silence.  (The parser reads "{}" as the empty object.) *)
Theorem X20_empty_answer :
  forall (JSON_parse : string -> option JSON.value)
         (accuracyChecker : AccuracyChecker.t)
         (detector : HallucinationDetector.t)
         (response : string) (sources : list Source.t)
         (llmProvider : LLMProvider) (model : option string)
         (judge : Judge.request -> Judge.reply),
    JSON_parse "{}" = Some (JSON.Object []) ->
    sources <> [] ->
    Expected.accuracyClient accuracyChecker llmProvider <> None ->
    Expected.hallucinationClient detector llmProvider <> None ->
    (forall req, Expected.emptyAnswer (Judge.backend req) (judge req) = true) ->
    Judge.result judge
      (AccuracyChecker.checkAccuracy JSON_parse accuracyChecker response
         sources llmProvider model)
    = Judge.Returned (AccuracyResult.mk false 0 None)
    /\ Judge.result judge
         (HallucinationDetector.detectHallucination JSON_parse detector
            response sources llmProvider model)
       = Judge.Returned (HallucinationResult.mk false 0 (Some [])).
Proof.
  intros JSON_parse accuracyChecker detector response sources llmProvider
    model judge Hempty Hsources Hca Hch Hjudge.
  assert (HA0 : AccuracyChecker.parseLLMResponse JSON_parse "{}"
                = JSON.Object []).
  { unfold AccuracyChecker.parseLLMResponse. now rewrite Hempty. }
  assert (HH0 : HallucinationDetector.parseLLMResponse JSON_parse "{}"
                = JSON.Object []).
  { unfold HallucinationDetector.parseLLMResponse. now rewrite Hempty. }
  destruct sources as [| s rest]; [contradiction |].
  unfold AccuracyChecker.checkAccuracy,
    HallucinationDetector.detectHallucination. cbv zeta.
  unfold Expected.accuracyClient, Expected.hallucinationClient in Hca, Hch.
  unfold Judge.result.
  destruct llmProvider.
  - destruct (AccuracyChecker.openaiClient accuracyChecker);
      [| contradiction].
    destruct (HallucinationDetector.openaiClient detector);
      [| contradiction].
    unfold AccuracyChecker.checkAccuracyWithOpenAI,
      HallucinationDetector.detectHallucinationWithOpenAI.
    cbn [Judge.bind Judge.tryCatch Judge.await Judge.run].
    split.
    + match goal with |- context [judge ?req] =>
        pose proof (Hjudge req) as Hr; cbn [Judge.backend] in Hr;
        destruct (judge req) as [e | [[[| c t] |] | blocks]];
        try discriminate Hr end;
        cbn [Judge.bind Judge.tryCatch stringOr JS.truthy];
        rewrite HA0; reflexivity.
    + match goal with |- context [judge ?req] =>
        pose proof (Hjudge req) as Hr; cbn [Judge.backend] in Hr;
        destruct (judge req) as [e | [[[| c t] |] | blocks]];
        try discriminate Hr end;
        cbn [Judge.bind Judge.tryCatch stringOr JS.truthy];
        rewrite HH0; reflexivity.
  - assert (XA : exists k, AccuracyChecker.claudeClient accuracyChecker
                           = Some k).
    { destruct (AccuracyChecker.claudeClient accuracyChecker) as [k |];
        [now exists k | contradiction]. }
    assert (XH : exists k, HallucinationDetector.claudeClient detector
                           = Some k).
    { destruct (HallucinationDetector.claudeClient detector) as [k |];
        [now exists k | contradiction]. }
    destruct XA as [ka ->]. destruct XH as [kh ->].
    unfold AccuracyChecker.checkAccuracyWithClaude,
      HallucinationDetector.detectHallucinationWithClaude.
    split.
    + destruct (AccuracyChecker.openaiClient accuracyChecker);
        cbn [Judge.bind Judge.tryCatch Judge.await Judge.run];
        match goal with |- context [judge ?req] =>
          pose proof (Hjudge req) as Hr; cbn [Judge.backend] in Hr;
          destruct (judge req) as [e | [content | [| [t | ] blocks]]];
          try discriminate Hr end;
        cbn [Judge.bind Judge.tryCatch]; rewrite HA0; reflexivity.
    + destruct (HallucinationDetector.openaiClient detector);
        cbn [Judge.bind Judge.tryCatch Judge.await Judge.run];
        match goal with |- context [judge ?req] =>
          pose proof (Hjudge req) as Hr; cbn [Judge.backend] in Hr;
          destruct (judge req) as [e | [content | [| [t | ] blocks]]];
          try discriminate Hr end;
        cbn [Judge.bind Judge.tryCatch]; rewrite HH0; reflexivity.
Qed.

Lemma X20_empty_answer_witness :
  Judge.result Expected.silentJudge
    (AccuracyChecker.checkAccuracy Sample.parseEmptyObject
       (AIValidator.accuracyChecker Sample.validator)
       "GPT is a model" [Sample.source] openai None)
  = Judge.Returned (AccuracyResult.mk false 0 None)
  /\ Judge.result Expected.silentJudge
       (HallucinationDetector.detectHallucination Sample.parseEmptyObject
          (AIValidator.hallucinationDetector Sample.validator)
          "GPT is a model" [Sample.source] openai None)
     = Judge.Returned (HallucinationResult.mk false 0 (Some [])).
Proof.
  assert (Hsrc : [Sample.source] <> []) by discriminate.
  assert (Hca : Expected.accuracyClient
                  (AIValidator.accuracyChecker Sample.validator) openai
                <> None) by discriminate.
  assert (Hch : Expected.hallucinationClient
                  (AIValidator.hallucinationDetector Sample.validator) openai
                <> None) by discriminate.
  assert (Hjudge : forall req,
            Expected.emptyAnswer (Judge.backend req)
              (Expected.silentJudge req) = true).
  { intro req. unfold Expected.silentJudge.
    destruct (Judge.backend req); reflexivity. }
  exact (X20_empty_answer Sample.parseEmptyObject
           (AIValidator.accuracyChecker Sample.validator)
           (AIValidator.hallucinationDetector Sample.validator)
           "GPT is a model" [Sample.source] openai None Expected.silentJudge
           eq_refl Hsrc Hca Hch Hjudge).
Defined.

(** ** The words that are compared *)

Lemma lower_kept_char (c : ascii) :
  JS.isWordChar (JS.toLowerChar c) || JS.isWhiteSpace (JS.toLowerChar c)
  = true ->
  Text.isLowerWordChar (JS.toLowerChar c)
  || JS.isWhiteSpace (JS.toLowerChar c) = true.
Proof.
  destruct c as [[] [] [] [] [] [] [] []]; vm_compute; congruence.
Qed.

Lemma cleaned_text_alphabet (text : string) :
  Text.all (fun c => Text.isLowerWordChar c || JS.isWhiteSpace c)
    (JS.stripPunctuation (JS.toLowerCase text)) = true.
Proof.
  unfold JS.stripPunctuation, JS.toLowerCase.
  induction text as [| c text IH]; [reflexivity |].
  cbn [JS.map JS.filter].
  destruct (JS.isWordChar (JS.toLowerChar c)
            || JS.isWhiteSpace (JS.toLowerChar c)) eqn:E; [| exact IH].
  cbn [Text.all]. now rewrite (lower_kept_char c E), IH.
Qed.

Lemma splitAux_pieces (P : ascii -> bool) (s cur : string) (inSep : bool)
  (w : string) :
  Text.all (fun c => P c || JS.isWhiteSpace c) s = true ->
  Text.all P cur = true ->
  In w (JS.splitAux s cur inSep) ->
  Text.all P w = true.
Proof.
  revert cur inSep. induction s as [| c s IH]; intros cur inSep Hs Hcur Hin.
  - cbn in Hin. destruct Hin as [<- | []]. exact Hcur.
  - cbn [Text.all] in Hs. apply andb_true_iff in Hs as [Hc Hs].
    cbn [JS.splitAux] in Hin.
    destruct (JS.isWhiteSpace c) eqn:Ec.
    + destruct inSep.
      * now apply (IH cur true).
      * destruct Hin as [<- | Hin]; [exact Hcur |].
        now apply (IH EmptyString true).
    + rewrite orb_false_r in Hc.
      apply (IH (cur ++ String c EmptyString) false); [exact Hs | | exact Hin].
      rewrite all_append. cbn [Text.all]. now rewrite Hcur, Hc.
Qed.

(** The source texts, cleaned one by one and joined with a space, hold
    nothing but lower-case word characters and white space. *)
Lemma joined_text_alphabet (texts : list string) :
  Text.all (fun c => Text.isLowerWordChar c || JS.isWhiteSpace c)
    (JS.join " "
       (List.map (fun text => JS.stripPunctuation (JS.toLowerCase text))
          texts)) = true.
Proof.
  induction texts as [| text rest IH]; [reflexivity |].
  cbn [List.map JS.join].
  destruct rest as [| next rest]; [apply cleaned_text_alphabet |].
  cbn [List.map] in *.
  rewrite !all_append, cleaned_text_alphabet, IH. reflexivity.
Qed.

Lemma split_words_alphabet (n : nat) (text w : string) :
  Text.all (fun c => Text.isLowerWordChar c || JS.isWhiteSpace c) text = true ->
  In w (List.filter (AIValidator.longerThan n) (JS.splitWhitespace text)) ->
  Text.all Text.isLowerWordChar w = true /\ (n < String.length w)%nat.
Proof.
  intros Htext Hin. apply filter_In in Hin as [Hin Hlen].
  split.
  - apply (splitAux_pieces Text.isLowerWordChar text EmptyString false w);
      [exact Htext | reflexivity | exact Hin].
  - now apply Nat.ltb_lt.
Qed.

(** X21: the words [calculateContextRelevance] compares.  With sources, the
    estimate is computed from three lists: the words longer than 3
    characters of the cleaned response, the words longer than 3 characters
    of the cleaned source contents joined with a space, and the words longer
    than 2 characters of the cleaned query.  Every word of these lists is
    made of lower-case letters, digits and underscores only and is longer
    than the bound of its list, whatever the texts. *)
Theorem X21_word_alphabet :
  forall (query response : string) (s : Source.t) (rest : list Source.t),
    let sources := s :: rest in
    let responseWords :=
      List.filter (AIValidator.longerThan 3)
        (JS.splitWhitespace (JS.stripPunctuation (JS.toLowerCase response))) in
    let sourceWords :=
      List.filter (AIValidator.longerThan 3)
        (JS.splitWhitespace
           (JS.join " "
              (List.map
                 (fun s => JS.stripPunctuation
                             (JS.toLowerCase (Source.content s)))
                 sources))) in
    let queryWords :=
      List.filter (AIValidator.longerThan 2)
        (JS.splitWhitespace (JS.stripPunctuation (JS.toLowerCase query))) in
    let sourceRelevance :=
      if Nat.ltb 0 (List.length responseWords)
      then AIValidator.ratio
             (AIValidator.countIncluded responseWords sourceWords)
             (List.length responseWords)
      else 0.5%Q in
    let sourceUsageRate :=
      if Nat.ltb 0 (List.length queryWords)
      then AIValidator.ratio
             (AIValidator.countIncluded queryWords responseWords)
             (List.length queryWords)
      else 0.5%Q in
    AIValidator.calculateContextRelevance query response sources
    = ContextResult.mk (Qmin sourceRelevance 1.0) sourceUsageRate
        (negb (Qle_bool sourceRelevance 0.3))
    /\ (forall w : string,
          In w responseWords \/ In w sourceWords ->
          Text.all Text.isLowerWordChar w = true
          /\ (3 < String.length w)%nat)
    /\ (forall w : string,
          In w queryWords ->
          Text.all Text.isLowerWordChar w = true
          /\ (2 < String.length w)%nat).
Proof.
  intros query response s rest sources responseWords sourceWords queryWords
    sourceRelevance sourceUsageRate.
  split; [reflexivity |]. split.
  - intros w [Hin | Hin].
    + apply (split_words_alphabet 3
               (JS.stripPunctuation (JS.toLowerCase response)) w);
        [apply cleaned_text_alphabet | exact Hin].
    + apply (split_words_alphabet 3
               (JS.join " "
                  (List.map
                     (fun s => JS.stripPunctuation
                                 (JS.toLowerCase (Source.content s)))
                     sources)) w); [| exact Hin].
      rewrite <- (map_map Source.content
                    (fun text => JS.stripPunctuation (JS.toLowerCase text))).
      apply joined_text_alphabet.
  - intros w Hin.
    apply (split_words_alphabet 2
             (JS.stripPunctuation (JS.toLowerCase query)) w);
      [apply cleaned_text_alphabet | exact Hin].
Qed.

(** The estimate for "What is GPT?", "GPT is a Language-Model!" and two
    sources: the only response word compared is [languagemodel], which no
    source has, and it is made of lower-case letters. *)
Lemma X21_word_alphabet_witness :
  AIValidator.calculateContextRelevance "What is GPT?"
    "GPT is a Language-Model!"
    [Sample.source; Source.mk "Large Language Models (LLMs)" None]
  = ContextResult.mk 0 (0 # 2) false
  /\ Text.all Text.isLowerWordChar "languagemodel" = true
  /\ (3 < String.length "languagemodel")%nat.
Proof.
  destruct (X21_word_alphabet "What is GPT?" "GPT is a Language-Model!"
              Sample.source [Source.mk "Large Language Models (LLMs)" None])
    as (Hestimate & Hwords & _).
  split.
  - rewrite Hestimate. vm_compute. reflexivity.
  - apply Hwords. left. vm_compute. left. reflexivity.
Defined.

(** ** How the configuration is read *)

Section Configuration.

Open Scope Q_scope.

(** X22: what a validator built by the constructor does with the optional
    keys of its configuration.  A flag that is left out is on, one that is
    written [undefined] is off, one that is given counts as given.  The
    threshold in force is the given one unless it is left out, [undefined]
    or 0, when it is 0.7.  The model is the non-empty model configured for
    the provider, else "gpt-4o" or "claude-sonnet-4-5-20250929". *)
Theorem X22_configuration :
  forall (config : AIValidatorConfig.t) (self : AIValidator.t),
    AIValidator.new config = inr self ->
    let flag (given : Optional bool) : bool :=
      match given with
      | Absent => true
      | Undefined => false
      | Present b => b
      end in
    AIValidator.enabled
      (AIValidatorConfig.enableQueryClassification (AIValidator.config self))
    = flag (AIValidatorConfig.enableQueryClassification config)
    /\ AIValidator.enabled
         (AIValidatorConfig.enableAccuracyCheck (AIValidator.config self))
       = flag (AIValidatorConfig.enableAccuracyCheck config)
    /\ AIValidator.enabled
         (AIValidatorConfig.enableHallucinationDetection
            (AIValidator.config self))
       = flag (AIValidatorConfig.enableHallucinationDetection config)
    /\ Expected.threshold self
       = match AIValidatorConfig.confidenceThreshold config with
         | Present t => if Qeq_bool t 0 then 0.7 else t
         | _ => 0.7
         end
    /\ AIValidator.getModel self
       = match AIValidatorConfig.llmProvider config with
         | openai =>
             match AIValidatorConfig.openaiModel config with
             | Present (String c m) => String c m
             | _ => "gpt-4o"
             end
         | claude =>
             match AIValidatorConfig.claudeModel config with
             | Present (String c m) => String c m
             | _ => "claude-sonnet-4-5-20250929"
             end
         end.
Proof.
  intros config self Hnew flag.
  assert (Hcfg : AIValidator.config self = AIValidator.withDefaults config).
  { unfold AIValidator.new in Hnew.
    destruct (AIValidator.validateConfig (AIValidator.withDefaults config));
      [discriminate Hnew |].
    injection Hnew as <-. reflexivity. }
  unfold Expected.threshold, AIValidator.getModel. rewrite Hcfg.
  destruct config as [okey ckey provider threshold qc ac hd om cm].
  cbn [AIValidator.withDefaults AIValidatorConfig.enableQueryClassification
       AIValidatorConfig.enableAccuracyCheck
       AIValidatorConfig.enableHallucinationDetection
       AIValidatorConfig.confidenceThreshold AIValidatorConfig.llmProvider
       AIValidatorConfig.openaiModel AIValidatorConfig.claudeModel].
  repeat split.
  - destruct qc; reflexivity.
  - destruct ac; reflexivity.
  - destruct hd; reflexivity.
  - destruct threshold; reflexivity.
  - destruct provider; [destruct om as [| | [| c m]] | destruct cm as [| | [| c m]]];
      reflexivity.
Qed.

Lemma X22_configuration_witness :
  AIValidator.enabled
    (AIValidatorConfig.enableQueryClassification
       (AIValidator.config Sample.validator)) = true
  /\ Expected.threshold Sample.validator = 0.7
  /\ AIValidator.getModel Sample.validator = "gpt-4o".
Proof.
  destruct (X22_configuration Sample.config Sample.validator eq_refl)
    as (Hq & _ & _ & Ht & Hm).
  split; [exact Hq |]. split; [exact Ht | exact Hm].
Defined.

End Configuration.

(** ** A run with a judge that answers *)

Lemma strings_of_Str (parts : list string) :
  JSON.strings (List.map JSON.Str parts) = Some parts.
Proof.
  induction parts as [| x parts IH]; [reflexivity |].
  cbn. now rewrite IH.
Qed.

Section Judged.

Open Scope Q_scope.

(** X23: a run on the OpenAI backend whose judge answers both requests with
    JSON text.  With both checks enabled, sources present and the query not
    skipped, [validate] returns the judge's [verified], [verification_rate]
    and [reason] as the accuracy result and its [detected], [risk] and
    [hallucinated_parts] as the hallucination result, none of them altered
    (a rate or a risk of 0 stays 0), and the result is not marked as
    skipped. *)
Theorem X23_judged_run :
  forall (JSON_parse : string -> option JSON.value) (self : AIValidator.t)
         (input : ValidationInput.t) (judge : Judge.request -> Judge.reply)
         (rawA rawH why : string) (v d : bool) (rate risk : Q)
         (parts : list string),
    AIValidatorConfig.llmProvider (AIValidator.config self) = openai ->
    AccuracyChecker.openaiClient (AIValidator.accuracyChecker self) <> None ->
    HallucinationDetector.openaiClient (AIValidator.hallucinationDetector self)
    <> None ->
    AIValidator.enabled
      (AIValidatorConfig.enableAccuracyCheck (AIValidator.config self))
    = true ->
    AIValidator.enabled
      (AIValidatorConfig.enableHallucinationDetection
         (AIValidator.config self)) = true ->
    Expected.notSkipped self input = true ->
    ValidationInput.sources input <> [] ->
    judge (Expected.request self input Judge.AccuracyTask)
    = Judge.Resolved (Judge.ChatCompletion (Some rawA)) ->
    judge (Expected.request self input Judge.HallucinationTask)
    = Judge.Resolved (Judge.ChatCompletion (Some rawH)) ->
    JS.truthy rawA = true ->
    JS.truthy rawH = true ->
    JSON_parse rawA
    = Some (JSON.Object [("verified", JSON.Bool v);
                         ("verification_rate", JSON.Number rate);
                         ("reason", JSON.Str why)]) ->
    JSON_parse rawH
    = Some (JSON.Object [("detected", JSON.Bool d);
                         ("risk", JSON.Number risk);
                         ("hallucinated_parts",
                          JSON.Array (List.map JSON.Str parts))]) ->
    let a := AccuracyResult.mk v (if Qeq_bool rate 0 then 0 else rate)
               (Some why) in
    let h := HallucinationResult.mk d (if Qeq_bool risk 0 then 0 else risk)
               (Some parts) in
    exists r,
      Judge.result judge (AIValidator.validate JSON_parse self input)
      = Judge.Returned r
      /\ ValidationResult.accuracy r = a
      /\ ValidationResult.hallucination r = h
      /\ ValidationResult.skip_validation r = None.
Proof.
  intros JSON_parse self input judge rawA rawH why v d rate risk parts
    Hprov Hca Hch Ha Hh Hns Hsrc HjA HjH HtA HtH HpA HpH a h.
  exists (Expected.assemble self input a h).
  split; [| repeat split].
  apply validate_assembles; [exact Hns | |].
  - unfold Expected.accuracyStage. rewrite Ha.
    unfold Expected.request, Expected.sourceContent in HjA.
    rewrite Hprov in *.
    unfold AccuracyChecker.checkAccuracy.
    destruct (ValidationInput.sources input) as [| s rest] eqn:Es;
      [contradiction |].
    cbv zeta.
    destruct (AccuracyChecker.openaiClient (AIValidator.accuracyChecker self));
      [| contradiction].
    unfold AccuracyChecker.checkAccuracyWithOpenAI, Judge.result.
    rewrite getModel_kept.
    cbn [Judge.bind Judge.tryCatch Judge.await Judge.run].
    rewrite HjA. cbn [Judge.bind Judge.tryCatch].
    assert (Hraw : stringOr (Some rawA) "{}" = rawA)
      by (destruct rawA; [discriminate HtA | reflexivity]).
    rewrite Hraw. unfold AccuracyChecker.parseLLMResponse. rewrite HpA.
    subst a. unfold AccuracyChecker.toResult. cbn.
    destruct (Qeq_bool rate 0); reflexivity.
  - unfold Expected.hallucinationStage. rewrite Hh.
    unfold Expected.request, Expected.sourceContent in HjH.
    rewrite Hprov in *.
    unfold HallucinationDetector.detectHallucination.
    destruct (ValidationInput.sources input) as [| s rest] eqn:Es;
      [contradiction |].
    cbv zeta.
    destruct (HallucinationDetector.openaiClient
                (AIValidator.hallucinationDetector self));
      [| contradiction].
    unfold HallucinationDetector.detectHallucinationWithOpenAI, Judge.result.
    rewrite getModel_kept.
    cbn [Judge.bind Judge.tryCatch Judge.await Judge.run].
    rewrite HjH. cbn [Judge.bind Judge.tryCatch].
    assert (Hraw : stringOr (Some rawH) "{}" = rawH)
      by (destruct rawH; [discriminate HtH | reflexivity]).
    rewrite Hraw. unfold HallucinationDetector.parseLLMResponse. rewrite HpH.
    subst h. unfold HallucinationDetector.toResult.
    cbn [JSON.get JSON.lookup String.eqb Ascii.eqb Bool.eqb Judge.bind
         JSON.orFalse JSON.orZero JSON.orEmptyArray Judge.typed].
    rewrite strings_of_Str.
    destruct (Qeq_bool risk 0); reflexivity.
Qed.

Lemma X23_judged_run_witness :
  exists r,
    Judge.result Sample.answeringJudge
      (AIValidator.validate Sample.parseAnswers Sample.validator
         Sample.question)
    = Judge.Returned r
    /\ ValidationResult.accuracy r
       = AccuracyResult.mk true 0.9 (Some "supported")
    /\ ValidationResult.hallucination r
       = HallucinationResult.mk false 0.1 (Some []).
Proof.
  assert (Hca : AccuracyChecker.openaiClient
                  (AIValidator.accuracyChecker Sample.validator) <> None)
    by discriminate.
  assert (Hch : HallucinationDetector.openaiClient
                  (AIValidator.hallucinationDetector Sample.validator)
                <> None) by discriminate.
  assert (Hsrc : ValidationInput.sources Sample.question <> [])
    by discriminate.
  destruct (X23_judged_run Sample.parseAnswers Sample.validator
              Sample.question Sample.answeringJudge
              Sample.accuracyAnswer Sample.hallucinationAnswer "supported"
              true false 0.9 0.1 []
              eq_refl Hca Hch eq_refl eq_refl eq_refl Hsrc
              eq_refl eq_refl eq_refl eq_refl eq_refl eq_refl)
    as (r & Hr & Hacc & Hhall & _).
  exists r. split; [exact Hr |]. split; [exact Hacc | exact Hhall].
Defined.

End Judged.

(** ** An answer that parses to [null] *)

(** X24: when the judge's text is the JSON value [null], reading the first
    field of the parsed answer throws inside the [try] block and the failure
    is caught: the accuracy check returns "not verified, rate 0" with the
    reason "accuracy_check_failed: " followed by the message of the type
    error, and the hallucination check returns "detected, risk 0.9".  Text
    that does not parse at all gives the milder defaults instead. *)
Theorem X24_null_answer :
  forall (JSON_parse : string -> option JSON.value)
         (accuracyChecker : AccuracyChecker.t)
         (detector : HallucinationDetector.t)
         (response : string) (sources : list Source.t)
         (llmProvider : LLMProvider) (model : option string)
         (judge : Judge.request -> Judge.reply) (raw : string),
    JSON_parse raw = Some JSON.Null ->
    JS.truthy raw = true ->
    sources <> [] ->
    Expected.accuracyClient accuracyChecker llmProvider <> None ->
    Expected.hallucinationClient detector llmProvider <> None ->
    Judge.outputs judge raw ->
    Judge.result judge
      (AccuracyChecker.checkAccuracy JSON_parse accuracyChecker response
         sources llmProvider model)
    = Judge.Returned
        (AccuracyResult.mk false 0
           (Some ("accuracy_check_failed: "
                  ++ JSON.nullPropertyMessage "verified")))
    /\ Judge.result judge
         (HallucinationDetector.detectHallucination JSON_parse detector
            response sources llmProvider model)
       = Judge.Returned
           (HallucinationResult.mk true 0.9
              (Some ["hallucination_check_failed"])).
Proof.
  intros JSON_parse accuracyChecker detector response sources llmProvider
    model judge raw Hnull Htruthy Hsources Hca Hch Hjudge.
  assert (Hraw : stringOr (Some raw) "{}" = raw)
    by (destruct raw; [discriminate Htruthy | reflexivity]).
  assert (HA : AccuracyChecker.parseLLMResponse JSON_parse raw = JSON.Null).
  { unfold AccuracyChecker.parseLLMResponse. now rewrite Hnull. }
  assert (HH : HallucinationDetector.parseLLMResponse JSON_parse raw
               = JSON.Null).
  { unfold HallucinationDetector.parseLLMResponse. now rewrite Hnull. }
  destruct sources as [| s rest]; [contradiction |].
  unfold AccuracyChecker.checkAccuracy,
    HallucinationDetector.detectHallucination. cbv zeta.
  unfold Expected.accuracyClient, Expected.hallucinationClient in Hca, Hch.
  unfold Judge.result.
  destruct llmProvider.
  - destruct (AccuracyChecker.openaiClient accuracyChecker);
      [| contradiction].
    destruct (HallucinationDetector.openaiClient detector);
      [| contradiction].
    unfold AccuracyChecker.checkAccuracyWithOpenAI,
      HallucinationDetector.detectHallucinationWithOpenAI.
    cbn [Judge.bind Judge.tryCatch Judge.await Judge.run].
    split.
    + match goal with |- context [judge ?req] =>
        pose proof (Hjudge req) as Hr; cbn [Judge.backend] in Hr;
        rewrite Hr end.
      cbn [Judge.bind Judge.tryCatch]. rewrite Hraw, HA. reflexivity.
    + match goal with |- context [judge ?req] =>
        pose proof (Hjudge req) as Hr; cbn [Judge.backend] in Hr;
        rewrite Hr end.
      cbn [Judge.bind Judge.tryCatch]. rewrite Hraw, HH. reflexivity.
  - assert (XA : exists k, AccuracyChecker.claudeClient accuracyChecker
                           = Some k).
    { destruct (AccuracyChecker.claudeClient accuracyChecker) as [k |];
        [now exists k | contradiction]. }
    assert (XH : exists k, HallucinationDetector.claudeClient detector
                           = Some k).
    { destruct (HallucinationDetector.claudeClient detector) as [k |];
        [now exists k | contradiction]. }
    destruct XA as [ka ->]. destruct XH as [kh ->].
    unfold AccuracyChecker.checkAccuracyWithClaude,
      HallucinationDetector.detectHallucinationWithClaude.
    split.
    + destruct (AccuracyChecker.openaiClient accuracyChecker);
        cbn [Judge.bind Judge.tryCatch Judge.await Judge.run];
        match goal with |- context [judge ?req] =>
          pose proof (Hjudge req) as Hr; cbn [Judge.backend] in Hr;
          destruct Hr as [more Hr]; rewrite Hr end;
        cbn [Judge.bind Judge.tryCatch]; rewrite HA; reflexivity.
    + destruct (HallucinationDetector.openaiClient detector);
        cbn [Judge.bind Judge.tryCatch Judge.await Judge.run];
        match goal with |- context [judge ?req] =>
          pose proof (Hjudge req) as Hr; cbn [Judge.backend] in Hr;
          destruct Hr as [more Hr]; rewrite Hr end;
        cbn [Judge.bind Judge.tryCatch]; rewrite HH; reflexivity.
Qed.

Lemma X24_null_answer_witness :
  Judge.result (Sample.textJudge "null")
    (AccuracyChecker.checkAccuracy Sample.parseNull
       (AIValidator.accuracyChecker Sample.validator)
       "GPT is a model" [Sample.source] openai None)
  = Judge.Returned
      (AccuracyResult.mk false 0
         (Some "accuracy_check_failed: Cannot read properties of null (reading 'verified')"))
  /\ Judge.result (Sample.textJudge "null")
       (HallucinationDetector.detectHallucination Sample.parseNull
          (AIValidator.hallucinationDetector Sample.validator)
          "GPT is a model" [Sample.source] openai None)
     = Judge.Returned
         (HallucinationResult.mk true 0.9
            (Some ["hallucination_check_failed"])).
Proof.
  assert (Hsrc : [Sample.source] <> []) by discriminate.
  assert (Hca : Expected.accuracyClient
                  (AIValidator.accuracyChecker Sample.validator) openai
                <> None) by discriminate.
  assert (Hch : Expected.hallucinationClient
                  (AIValidator.hallucinationDetector Sample.validator) openai
                <> None) by discriminate.
  assert (Hjudge : Judge.outputs (Sample.textJudge "null") "null").
  { intro req. unfold Sample.textJudge.
    destruct (Judge.backend req); [reflexivity | eexists; reflexivity]. }
  exact (X24_null_answer Sample.parseNull
           (AIValidator.accuracyChecker Sample.validator)
           (AIValidator.hallucinationDetector Sample.validator)
           "GPT is a model" [Sample.source] openai None
           (Sample.textJudge "null") "null"
           eq_refl eq_refl Hsrc Hca Hch Hjudge).
Defined.
